(** * Workflow engine of the MOPC expropriation case tracker

    A shallow embedding of the [workflow] application
    (backend/src/workflow/models.py, serializers.py, views.py, with the
    reference tables of backend/src/core/models.py) and the properties of
    its state-transition and task-dependency logic.

    Conventions of the embedding.
    - A database table is a field of [Store]; a model instance is a record;
      primary keys are UUIDs, here numbers.
    - A handler is a function of the store that returns either an error or
      a result together with the new store.  Every write of a handler sits
      in one [transaction.atomic()] block (or is a single write), so an
      error leaves the store as it was.
    - [timezone.now()] and [uuid.uuid4()] are inputs of the handlers.
    - Handlers are modelled from the point where the framework has resolved
      the primary key of the URL ([get_object], a lookup here); the checks
      written in the handler bodies are modelled, the permission classes
      of the framework are not.  The scoping of the query sets
      ([get_queryset]) is modelled beside the handlers.
    - Two things the source leaves to its platform are parameters:
      [str.lower] and the order in which a task query set is returned
      ([Task.Meta.ordering], ties broken by the database). *)

From stdpp Require Import gmap strings list sorting.

Open Scope string_scope.

#[local] Set Warnings "-clear-no-such-hyp".

(** ** Data model *)

Abbreviation uuid := N (only parsing).
Abbreviation datetime := Z (only parsing).

(** [Expediente.EXPEDIENTE_STATES] *)
Inductive EstadoExpediente :=
  | iniciado | en_revision | aprobado | rechazado | completado | en_apelacion.

(** [Task.TASK_STATUS] *)
Inductive EstadoTarea :=
  | pendiente | en_progreso | completada | cancelada | bloqueada.

#[global] Instance EstadoExpediente_eq_dec : EqDecision EstadoExpediente.
Proof. solve_decision. Defined.

#[global] Instance EstadoTarea_eq_dec : EqDecision EstadoTarea.
Proof. solve_decision. Defined.

(** [core.models.WorkflowState]: reference data. *)
Record WorkflowState := {
  ws_id : uuid;
  ws_name : string;
  ws_is_final : bool;
  ws_order : N;
}.

(** [core.models.Department]: reference data. *)
Record Department := {
  dept_id : uuid;
  dept_name : string;
  dept_code : string;
  dept_workflow_order : N;
  dept_can_process_parallel : bool;
  dept_response_time_hours : N;
  dept_is_active : bool;
}.

(** [core.models.User], the attributes the handlers read. *)
Record User := {
  user_id : uuid;
  user_is_superuser : bool;
  user_is_active : bool;
  user_role : string;
  user_department : option uuid;
}.

(** [workflow.models.Expediente].  The two foreign keys to reference data
    hold the referenced row, as the attribute of the Python instance does;
    both columns are NOT NULL. *)
Record Expediente := {
  exp_id : uuid;
  numero_expediente : string;
  estado_actual : EstadoExpediente;
  departamento_actual : Department;
  estado_workflow : WorkflowState;
  creado_por : uuid;
  fecha_inicio : option datetime;
  fecha_completado : option datetime;
}.

(** [workflow.models.WorkflowTransition] *)
Record WorkflowTransition := {
  wt_expediente : uuid;
  desde_estado : option WorkflowState;
  hacia_estado : WorkflowState;
  desde_departamento : option Department;
  hacia_departamento : Department;
  wt_usuario : uuid;
  comentarios : string;
  motivo_rechazo : string;
  wt_metadata : string;
  wt_created_at : datetime;
}.

(** [workflow.models.Task]; the foreign key to the department holds the
    referenced row; the many-to-many field [depende_de] is the table
    [tareas_depende_de] of the store. *)
Record Task := {
  t_id : uuid;
  t_expediente : uuid;
  t_departamento : Department;
  usuario_asignado : option uuid;
  titulo : string;
  descripcion : string;
  tipo : string;
  prioridad : string;
  estado : EstadoTarea;
  fecha_vencimiento : option datetime;
  fecha_completacion : option datetime;
  resultado : string;
}.

(** [workflow.models.TaskDependency] *)
Record TaskDependency := {
  td_task : uuid;
  td_depends_on : uuid;
  dependency_type : string;
}.

(** [core.models.Notification] *)
Record Notification := {
  n_user : uuid;
  n_expediente : option uuid;
  n_type : string;
  n_title : string;
  n_message : string;
}.

(** The persisted state.  Tables the code only appends to and never looks
    up by key are lists in creation order; [tareas_depende_de] is the
    automatic through table of [Task.depende_de], rows (from_task,
    to_task); [task_dependencies] is the table of [TaskDependency], which
    is not declared as that through table. *)
Record Store := {
  workflow_estados : list WorkflowState;
  departamentos : list Department;
  usuarios : list User;
  expedientes : gmap uuid Expediente;
  workflow_transiciones : list WorkflowTransition;
  tareas : gmap uuid Task;
  tareas_depende_de : list (uuid * uuid);
  task_dependencies : list TaskDependency;
  notificaciones : list Notification;
}.

(** ** Errors *)

Inductive Error :=
  | Http404
  | PermissionDenied (msg : string)
  | ValidationError (msg : string)
  | KeyError (key : string)
  | DoesNotExist
  | IntegrityError
  | RecursionError.

Inductive Result (A : Type) :=
  | Ok (a : A)
  | Raise (e : Error).
Arguments Ok {A} a.
Arguments Raise {A} e.

#[global] Instance Result_ret : MRet Result := λ A a, Ok a.
#[global] Instance Result_bind : MBind Result := λ A B f m,
  match m with
  | Ok a => f a
  | Raise e => Raise e
  end.

(** The names the specification gives to the failures of [add_dependency]
    and of a transition, with the message the source raises them with. *)
Definition CircularDependency : Error :=
  ValidationError "Esta dependencia crearía un ciclo circular".
Definition CrossCaseDependency : Error :=
  ValidationError "Las tareas deben pertenecer al mismo expediente".
Definition SameState : Error :=
  ValidationError "No se puede transicionar al mismo estado".
Definition SameDepartment : Error :=
  ValidationError "El departamento destino debe ser diferente".
Definition MissingRejectionReason : Error :=
  ValidationError
    "El motivo de rechazo es obligatorio para transiciones a estado rechazado".

Definition is_ValidationError (e : Error) : bool :=
  match e with ValidationError _ => true | _ => false end.

(** The store a request leaves behind: the handler's on success, the old
    one when the handler raised. *)
Definition commit {A} (s : Store) (r : Result (A * Store)) : Store :=
  match r with
  | Ok (_, s') => s'
  | Raise _ => s
  end.

(** ** Record updates and saves *)

Definition set_estado_workflow (e : Expediente) (st : WorkflowState) : Expediente :=
  {| exp_id := exp_id e; numero_expediente := numero_expediente e;
     estado_actual := estado_actual e;
     departamento_actual := departamento_actual e;
     estado_workflow := st;
     creado_por := creado_por e; fecha_inicio := fecha_inicio e;
     fecha_completado := fecha_completado e |}.

Definition set_departamento_actual (e : Expediente) (d : Department) : Expediente :=
  {| exp_id := exp_id e; numero_expediente := numero_expediente e;
     estado_actual := estado_actual e;
     departamento_actual := d;
     estado_workflow := estado_workflow e;
     creado_por := creado_por e; fecha_inicio := fecha_inicio e;
     fecha_completado := fecha_completado e |}.

Definition set_estado_actual (e : Expediente) (st : EstadoExpediente) : Expediente :=
  {| exp_id := exp_id e; numero_expediente := numero_expediente e;
     estado_actual := st;
     departamento_actual := departamento_actual e;
     estado_workflow := estado_workflow e;
     creado_por := creado_por e; fecha_inicio := fecha_inicio e;
     fecha_completado := fecha_completado e |}.

Definition set_fecha_completado (e : Expediente) (t : option datetime) : Expediente :=
  {| exp_id := exp_id e; numero_expediente := numero_expediente e;
     estado_actual := estado_actual e;
     departamento_actual := departamento_actual e;
     estado_workflow := estado_workflow e;
     creado_por := creado_por e; fecha_inicio := fecha_inicio e;
     fecha_completado := t |}.

Definition with_expedientes (s : Store) (m : gmap uuid Expediente) : Store :=
  {| workflow_estados := workflow_estados s; departamentos := departamentos s;
     usuarios := usuarios s; expedientes := m;
     workflow_transiciones := workflow_transiciones s; tareas := tareas s;
     tareas_depende_de := tareas_depende_de s;
     task_dependencies := task_dependencies s;
     notificaciones := notificaciones s |}.

Definition with_transiciones (s : Store) (l : list WorkflowTransition) : Store :=
  {| workflow_estados := workflow_estados s; departamentos := departamentos s;
     usuarios := usuarios s; expedientes := expedientes s;
     workflow_transiciones := l; tareas := tareas s;
     tareas_depende_de := tareas_depende_de s;
     task_dependencies := task_dependencies s;
     notificaciones := notificaciones s |}.

Definition with_tareas (s : Store) (m : gmap uuid Task) : Store :=
  {| workflow_estados := workflow_estados s; departamentos := departamentos s;
     usuarios := usuarios s; expedientes := expedientes s;
     workflow_transiciones := workflow_transiciones s; tareas := m;
     tareas_depende_de := tareas_depende_de s;
     task_dependencies := task_dependencies s;
     notificaciones := notificaciones s |}.

Definition with_depende_de (s : Store) (l : list (uuid * uuid)) : Store :=
  {| workflow_estados := workflow_estados s; departamentos := departamentos s;
     usuarios := usuarios s; expedientes := expedientes s;
     workflow_transiciones := workflow_transiciones s; tareas := tareas s;
     tareas_depende_de := l;
     task_dependencies := task_dependencies s;
     notificaciones := notificaciones s |}.

Definition with_task_dependencies (s : Store) (l : list TaskDependency) : Store :=
  {| workflow_estados := workflow_estados s; departamentos := departamentos s;
     usuarios := usuarios s; expedientes := expedientes s;
     workflow_transiciones := workflow_transiciones s; tareas := tareas s;
     tareas_depende_de := tareas_depende_de s;
     task_dependencies := l;
     notificaciones := notificaciones s |}.

Definition with_notificaciones (s : Store) (l : list Notification) : Store :=
  {| workflow_estados := workflow_estados s; departamentos := departamentos s;
     usuarios := usuarios s; expedientes := expedientes s;
     workflow_transiciones := workflow_transiciones s; tareas := tareas s;
     tareas_depende_de := tareas_depende_de s;
     task_dependencies := task_dependencies s;
     notificaciones := l |}.

(** [expediente.save()] *)
Definition save_expediente (s : Store) (e : Expediente) : Store :=
  with_expedientes s (<[exp_id e := e]> (expedientes s)).

(** [task.save()] *)
Definition save_task (s : Store) (t : Task) : Store :=
  with_tareas s (<[t_id t := t]> (tareas s)).

(** [WorkflowTransition.objects.create(...)] *)
Definition create_transition (s : Store) (tr : WorkflowTransition) : Store :=
  with_transiciones s (workflow_transiciones s ++ [tr]).

(** [Notification.objects.create(...)] *)
Definition create_notification (s : Store) (n : Notification) : Store :=
  with_notificaciones s (notificaciones s ++ [n]).

(** Equality of model instances is equality of primary keys. *)
Definition ws_eqb (a b : WorkflowState) : bool := bool_decide (ws_id a = ws_id b).
Definition dept_eqb (a b : Department) : bool := bool_decide (dept_id a = dept_id b).

(** [user.role in ['department_head', 'supervisor', 'admin']] *)
Definition is_head_role (u : User) : bool :=
  bool_decide (user_role u ∈ ["department_head"; "supervisor"; "admin"]).

(** [needle in haystack] on strings. *)
Fixpoint str_contains (needle haystack : string) : bool :=
  String.prefix needle haystack ||
  match haystack with
  | EmptyString => false
  | String _ rest => str_contains needle rest
  end.

(** ** Query sets *)

(** [qs.order_by(key)]: ascending by [key].  Rows of equal key come in
    the order of the table; the database leaves their order open, also
    between two queries, so the properties below are stated without
    relying on it or under the hypothesis that the keys are distinct. *)
Definition key_le {A} (key : A → N) : relation A :=
  λ a b, (key a ≤ key b)%N.

#[global] Instance key_le_dec {A} (key : A → N) : RelDecision (key_le key).
Proof. intros a b. unfold key_le. apply _. Defined.

Definition order_by {A} (key : A → N) (l : list A) : list A :=
  merge_sort (key_le key) l.

(** The rows of the through table seen from one end. *)
Definition depende_de_ids (s : Store) (pk : uuid) : list uuid :=
  (filter (λ r, r.1 = pk) (tareas_depende_de s)).*2.

Definition dependientes_ids (s : Store) (pk : uuid) : list uuid :=
  (filter (λ r, r.2 = pk) (tareas_depende_de s)).*1.

(** Every task that is an end of some row of the through table. *)
Definition graph_nodes (s : Store) : gset uuid :=
  list_to_set (tareas_depende_de s).*1 ∪ list_to_set (tareas_depende_de s).*2.

(** ** The cycle check

    The nested function [check_dependencies] of
    [_would_create_circular_dependency], which [TaskViewSet] and
    [TaskSerializer] both define with the same body.  The set [visited] of
    the enclosing call is shared by all recursive calls, so it is threaded
    through; recursion is bounded by [fuel], and [None] is running out of
    it.  The recursion limit of the interpreter is not modelled. *)
Section check_dependencies.
Variable depende_de_all : uuid → list uuid.
Variable task_id : uuid.

Fixpoint for_each_dep (check : gset uuid → uuid → option (bool * gset uuid))
    (visited : gset uuid) (deps : list uuid) : option (bool * gset uuid) :=
  match deps with
  | [] => Some (false, visited)
  | dep :: rest =>
      if decide (dep = task_id) then Some (true, visited)
      else match check visited dep with
           | None => None
           | Some (true, visited') => Some (true, visited')
           | Some (false, visited') => for_each_dep check visited' rest
           end
  end.

Fixpoint check_dependencies (fuel : nat) (visited : gset uuid)
    (current_task : uuid) : option (bool * gset uuid) :=
  match fuel with
  | O => None
  | S fuel' =>
      if decide (current_task ∈ visited) then Some (true, visited)
      else for_each_dep (check_dependencies fuel')
             ({[current_task]} ∪ visited) (depende_de_all current_task)
  end.
End check_dependencies.

(** ** [workflow.models.Task] *)
Module Task.

(** The filter [estado__in=['pendiente', 'en_progreso']] on the task
    with primary key [pk]. *)
Definition estado_in_pendiente_en_progreso (s : Store) (pk : uuid) : bool :=
  match tareas s !! pk with
  | Some t => bool_decide (estado t ∈ [pendiente; en_progreso])
  | None => false
  end.

(** [self.depende_de.filter(estado__in=['pendiente', 'en_progreso'])] *)
Definition unfinished_dependencies (s : Store) (self : Task) : list uuid :=
  filter (λ d, estado_in_pendiente_en_progreso s d)
         (depende_de_ids s (t_id self)).

Definition can_be_started (s : Store) (self : Task) : bool :=
  negb (bool_decide (unfinished_dependencies s self ≠ [])).

Definition mark_as_completed (s : Store) (now : datetime) (self : Task)
    (usuario : uuid) (resultado : string) : Task * Store :=
  let self' :=
    {| t_id := t_id self; t_expediente := t_expediente self;
       t_departamento := t_departamento self;
       usuario_asignado := Some usuario;
       titulo := titulo self; descripcion := descripcion self;
       tipo := tipo self; prioridad := prioridad self;
       estado := completada;
       fecha_vencimiento := fecha_vencimiento self;
       fecha_completacion := Some now;
       resultado := resultado |} in
  (self', save_task s self').

(** [is_overdue]: the truth value of the chain of [and]. *)
Definition is_overdue (now : datetime) (self : Task) : bool :=
  match fecha_vencimiento self with
  | Some due =>
      bool_decide (due < now)%Z && bool_decide (estado self ≠ completada)
  | None => false
  end.

Section ordering.
(** [Task.Meta.ordering] applied to the tasks of a query set: a function
    of the table of tasks, whose columns it reads. *)
Variable ordering : gmap uuid Task → list uuid → list uuid.

(** [self.depende_de.all()] *)
Definition depende_de_all (s : Store) (pk : uuid) : list uuid :=
  ordering (tareas s) (depende_de_ids s pk).

(** [self.dependientes.all()] *)
Definition dependientes_all (s : Store) (pk : uuid) : list uuid :=
  ordering (tareas s) (dependientes_ids s pk).

(** [_would_create_circular_dependency(task, dependency)] of the view
    set and of the serializer.  The fuel is one more than the number
    of tasks the through table mentions. *)
Definition would_create_circular_dependency (s : Store)
    (task dependency : uuid) : option bool :=
  fst <$> check_dependencies (depende_de_all s) task
            (S (size (graph_nodes s))) ∅ dependency.
End ordering.
End Task.

(** ** [workflow.serializers.ExpedienteSerializer] *)

(** The [validated_data] of the creation of an expediente, the keys
    that are columns of [Expediente] here.  [creado_por] is the keyword
    argument of [serializer.save] in [perform_create]; [estado_actual] and
    [fecha_completado] are writable fields of the serializer, [None] when
    the request leaves them out. *)
Record ExpedienteData := {
  ed_numero_expediente : string;
  ed_estado_actual : option EstadoExpediente;
  ed_fecha_completado : option datetime;
  ed_creado_por : uuid;
}.

Module ExpedienteSerializer.

(** [obj.tareas]: the tasks of the expediente. *)
Definition tareas_all (s : Store) (obj : Expediente) : gmap uuid Task :=
  filter (λ kv, t_expediente kv.2 = exp_id obj) (tareas s).

Definition get_total_tasks (s : Store) (obj : Expediente) : nat :=
  size (tareas_all s obj).

Definition get_pending_tasks (s : Store) (obj : Expediente) : nat :=
  size (filter (λ kv, estado kv.2 = pendiente) (tareas_all s obj)).

Definition get_completed_tasks (s : Store) (obj : Expediente) : nat :=
  size (filter (λ kv, estado kv.2 = completada) (tareas_all s obj)).

(** [sum(1 for task in obj.tareas.all() if task.is_overdue())]; the calls
    of [timezone.now()] are one instant. *)
Definition get_overdue_tasks (s : Store) (now : datetime) (obj : Expediente)
    : nat :=
  size (filter (λ kv, Task.is_overdue now kv.2 = true) (tareas_all s obj)).

(** [create(validated_data)].  The state is the first of those with
    [order] 1, the department the first active one by [workflow_order];
    then [super().create], the insertion of the row under the new primary
    key [pk], whose columns [departamento_actual] is NOT NULL and
    [numero_expediente] is unique. *)
Definition create (s : Store) (now : datetime) (pk : uuid)
    (validated_data : ExpedienteData) : Result (Expediente * Store) :=
  match head (order_by ws_order
                (filter (λ st, ws_order st = 1%N) (workflow_estados s))) with
  | None =>
      Raise (ValidationError "No se encontró el estado inicial del workflow")
  | Some initial_state =>
      let initial_department :=
        head (order_by dept_workflow_order
                (filter (λ d, dept_is_active d = true) (departamentos s))) in
      match initial_department with
      | None => Raise IntegrityError
      | Some initial_department =>
          if bool_decide (is_Some (expedientes s !! pk))
             || bool_decide
                  (map_Exists
                     (λ _ e, numero_expediente e
                             = ed_numero_expediente validated_data)
                     (expedientes s))
          then Raise IntegrityError
          else
            let expediente :=
              {| exp_id := pk;
                 numero_expediente := ed_numero_expediente validated_data;
                 estado_actual :=
                   default iniciado (ed_estado_actual validated_data);
                 departamento_actual := initial_department;
                 estado_workflow := initial_state;
                 creado_por := ed_creado_por validated_data;
                 fecha_inicio := Some now;
                 fecha_completado := ed_fecha_completado validated_data |} in
            Ok (expediente, save_expediente s expediente)
      end
  end.

End ExpedienteSerializer.

(** ** [workflow.serializers.WorkflowTransitionSerializer] *)

(** The dictionary [data] / [validated_data] of the serializer, related
    fields resolved to instances.  A key the request may leave out is an
    option; an absent [comentarios], [motivo_rechazo] or [metadata] is the
    model default.  [data_usuario] is the key [usuario], which [create]
    indexes: [Meta.read_only_fields] lists the field, so [is_valid] never
    puts it into [validated_data], and it is there only when the caller
    passes it to [serializer.save] as a keyword. *)
Record TransitionData := {
  data_expediente : option Expediente;
  data_hacia_estado : option WorkflowState;
  data_hacia_departamento : option Department;
  data_usuario : option uuid;
  data_comentarios : string;
  data_motivo_rechazo : string;
  data_metadata : string;
}.

Module WorkflowTransitionSerializer.
Section lower.
(** [str.lower] *)
Variable lower : string → string.

Definition validate (data : TransitionData) : Result TransitionData :=
  match data_expediente data, data_hacia_estado data with
  | Some expediente, Some hacia_estado =>
      if ws_eqb (estado_workflow expediente) hacia_estado
      then Raise SameState
      else if negb (ws_is_final hacia_estado)
              && match data_hacia_departamento data with
                 | Some d => dept_eqb (departamento_actual expediente) d
                 | None => false
                 end
      then Raise SameDepartment
      else if bool_decide (lower (ws_name hacia_estado) = "rechazado")
              && bool_decide (data_motivo_rechazo data = EmptyString)
      then Raise MissingRejectionReason
      else Ok data
  | _, _ =>
      Raise (ValidationError "Expediente y estado destino son requeridos")
  end.

(** The if/elif chain of [create] that sets the status of the
    expediente from the name of the new workflow state. *)
Definition update_status (now : datetime) (expediente : Expediente)
    (hacia_estado : WorkflowState) : Expediente :=
  let name := lower (ws_name hacia_estado) in
  if bool_decide (name = "completado") then
    set_fecha_completado (set_estado_actual expediente completado) (Some now)
  else if bool_decide (name = "rechazado") then
    set_estado_actual expediente rechazado
  else if bool_decide (name = "en apelación") then
    set_estado_actual expediente en_apelacion
  else if str_contains "revisión" name then
    set_estado_actual expediente en_revision
  else
    set_estado_actual expediente aprobado.

(** [super().create(validated_data)]: the insertion of the row; its
    column [hacia_departamento] is NOT NULL. *)
Definition insert_transition (s : Store) (now : datetime)
    (validated_data : TransitionData) (expediente : Expediente)
    (hacia_estado : WorkflowState) (usuario : uuid)
    (desde_estado : WorkflowState) (desde_departamento : Department)
    : Result (WorkflowTransition * Store) :=
  match data_hacia_departamento validated_data with
  | None => Raise IntegrityError
  | Some hacia_departamento =>
      let transition :=
        {| wt_expediente := exp_id expediente;
           desde_estado := Some desde_estado;
           hacia_estado := hacia_estado;
           desde_departamento := Some desde_departamento;
           hacia_departamento := hacia_departamento;
           wt_usuario := usuario;
           comentarios := data_comentarios validated_data;
           motivo_rechazo := data_motivo_rechazo validated_data;
           wt_metadata := data_metadata validated_data;
           wt_created_at := now |} in
      Ok (transition, create_transition s transition)
  end.

Definition create (s : Store) (now : datetime)
    (validated_data : TransitionData)
    : Result (WorkflowTransition * Store) :=
  match data_expediente validated_data with
  | None => Raise (KeyError "expediente")
  | Some expediente =>
  match data_hacia_estado validated_data with
  | None => Raise (KeyError "hacia_estado")
  | Some hacia_estado =>
  let hacia_departamento := data_hacia_departamento validated_data in
  match data_usuario validated_data with
  | None => Raise (KeyError "usuario")
  | Some usuario =>
      '(transition, s) ←
        insert_transition s now validated_data expediente hacia_estado
          usuario (estado_workflow expediente)
          (departamento_actual expediente);
      let expediente := set_estado_workflow expediente hacia_estado in
      let expediente :=
        match hacia_departamento with
        | Some d => set_departamento_actual expediente d
        | None => expediente
        end in
      let expediente := update_status now expediente hacia_estado in
      Ok (transition, save_expediente s expediente)
  end end end.

(** The data without the key [usuario]. *)
Definition without_usuario (data : TransitionData) : TransitionData :=
  {| data_expediente := data_expediente data;
     data_hacia_estado := data_hacia_estado data;
     data_hacia_departamento := data_hacia_departamento data;
     data_usuario := None;
     data_comentarios := data_comentarios data;
     data_motivo_rechazo := data_motivo_rechazo data;
     data_metadata := data_metadata data |}.

(** [serializer.is_valid()]: the fields of the framework, then
    [validate].  The three related fields are required and not nullable;
    the read-only field [usuario] is left out of the result whatever the
    data hold for it. *)
Definition is_valid (data : TransitionData) : Result TransitionData :=
  match data_expediente data, data_hacia_estado data,
        data_hacia_departamento data with
  | Some _, Some _, Some _ => validate (without_usuario data)
  | _, _, _ => Raise (ValidationError "This field may not be null.")
  end.

(** [validate] and then [create] on data that hold the acting user: the
    transition path as an operation that is given its actor, which is
    [serializer.save(usuario=...)].  The one caller in the source, the view
    [transition], calls [serializer.save()] without the keyword: see
    [ExpedienteViewSet.transition]. *)
Definition save (s : Store) (now : datetime) (data : TransitionData)
    : Result (WorkflowTransition * Store) :=
  validated_data ← validate data;
  create s now validated_data.
End lower.
End WorkflowTransitionSerializer.

(** ** [workflow.views.ExpedienteViewSet] *)
Module ExpedienteViewSet.

(** The column [estado_workflow] is NOT NULL, so [not current_state] of
    the guard is always false. *)
Definition _get_available_transitions (s : Store) (expediente : Expediente)
    : list WorkflowState :=
  let current_state := estado_workflow expediente in
  if ws_is_final current_state then []
  else
    take 3 (order_by ws_order
              (filter (λ st, (ws_order current_state < ws_order st)%N)
                      (workflow_estados s))).

(** The column [departamento_actual] is NOT NULL, so the guard
    [if not current_dept] of the source never fires. *)
Definition _get_next_departments (s : Store) (expediente : Expediente)
    : list Department :=
  let current_dept := departamento_actual expediente in
  take 3 (order_by dept_workflow_order
            (filter (λ d, (dept_workflow_order current_dept
                             < dept_workflow_order d)%N
                          ∧ dept_is_active d = true)
                    (departamentos s))).

(** [get_queryset]: the expedientes the user is shown. *)
Definition get_queryset (s : Store) (user : User) : gmap uuid Expediente :=
  let queryset := expedientes s in
  if user_is_superuser user then queryset
  else if is_head_role user then
    filter (λ kv, Some (dept_id (departamento_actual kv.2))
                  = user_department user) queryset
  else
    filter (λ kv, Some (dept_id (departamento_actual kv.2))
                  = user_department user
                  ∨ map_Exists
                      (λ _ t, t_expediente t = kv.1
                              ∧ usuario_asignado t = Some (user_id user))
                      (tareas s)) queryset.

Definition _can_transition_expediente (user : User) (expediente : Expediente)
    : bool :=
  if user_is_superuser user then true
  else if is_head_role user
  then bool_decide (user_department user
                    = Some (dept_id (departamento_actual expediente)))
  else bool_decide (user_department user
                    = Some (dept_id (departamento_actual expediente))).

(** [target_users] of [_create_transition_notification] *)
Definition target_users (s : Store) (transition : WorkflowTransition)
    : list User :=
  filter (λ u, user_department u
               = Some (dept_id (hacia_departamento transition))
               ∧ user_is_active u = true)
         (usuarios s).

(** [_create_transition_notification(transition)]; [expediente] is the
    instance [transition.expediente]. *)
Definition _create_transition_notification (s : Store)
    (transition : WorkflowTransition) (expediente : Expediente) : Store :=
  foldl (λ s user,
           create_notification s
             {| n_user := user_id user;
                n_expediente := Some (exp_id expediente);
                n_type := "workflow_update";
                n_title := "Transición de Expediente";
                n_message :=
                  "El expediente " +:+ numero_expediente expediente
                  +:+ " ha sido transferido a su departamento. Estado actual: "
                  +:+ ws_name (hacia_estado transition) |})
        s (target_users s transition).

Section timedelta.
(** [timezone.timedelta(days=hours/24)], a duration computed in floating
    point, as a function of the number of hours. *)
Variable timedelta_of_hours : N → Z.

(** [_auto_create_tasks_for_department(expediente, department)]; [pk] is
    the primary key of the new task. *)
Definition _auto_create_tasks_for_department (s : Store) (now : datetime)
    (pk : uuid) (expediente : Expediente) (department : Department)
    : Result Store :=
  if bool_decide (dept_code department ∈ ["JURIDICO"; "TECNICO"; "FINANCIERO"])
  then
    if bool_decide (is_Some (tareas s !! pk)) then Raise IntegrityError
    else
      Ok (save_task s
            {| t_id := pk; t_expediente := exp_id expediente;
               t_departamento := department;
               usuario_asignado := None;
               titulo := "Revisión en " +:+ dept_name department;
               descripcion :=
                 "Revisar expediente en departamento de "
                 +:+ dept_name department;
               tipo := "revision"; prioridad := "alta";
               estado := pendiente;
               fecha_vencimiento :=
                 Some (now + timedelta_of_hours
                               (dept_response_time_hours department))%Z;
               fecha_completacion := None;
               resultado := EmptyString |})
  else Ok s.

(** [str.lower] *)
Variable lower : string → string.

(** [transition]: POST expedientes/{pk}/transition/.  [get_object] looks
    the primary key up in the query set of the user; [request_data] holds
    the keys the view reads from the body of the request, as the fields of
    the serializer read them (related fields resolved to instances, text
    trimmed); [task_pk] is the primary key of the automatic task.  The
    serializer is built on data that hold the user under [usuario],
    validated, and saved without a keyword.  A refused validation is the
    response 400 with the errors of the serializer, here the raised
    validation error; in each case nothing is written. *)
Definition transition (s : Store) (now : datetime) (task_pk : uuid)
    (user : User) (pk : uuid) (request_data : TransitionData)
    : Result (WorkflowTransition * Store) :=
  match get_queryset s user !! pk with
  | None => Raise Http404
  | Some expediente =>
      if negb (_can_transition_expediente user expediente)
      then Raise (PermissionDenied
                    "No tiene permisos para transicionar este expediente")
      else
        let data :=
          {| data_expediente := Some expediente;
             data_hacia_estado := data_hacia_estado request_data;
             data_hacia_departamento := data_hacia_departamento request_data;
             data_usuario := Some (user_id user);
             data_comentarios := data_comentarios request_data;
             data_motivo_rechazo := data_motivo_rechazo request_data;
             data_metadata := data_metadata request_data |} in
        validated_data ← WorkflowTransitionSerializer.is_valid lower data;
        '(transition, s) ←
          WorkflowTransitionSerializer.create lower s now validated_data;
        let s := _create_transition_notification s transition expediente in
        s ← _auto_create_tasks_for_department s now task_pk expediente
               (hacia_departamento transition);
        Ok (transition, s)
  end.
End timedelta.

End ExpedienteViewSet.

(** ** [workflow.serializers.TaskSerializer] *)

(** The [validated_data] of a (partial) update of a task: one option per
    writable field, [None] when the request leaves the field out. *)
Record TaskData := {
  vd_expediente : option uuid;
  vd_departamento : option Department;
  vd_usuario_asignado : option (option User);
  vd_titulo : option string;
  vd_descripcion : option string;
  vd_tipo : option string;
  vd_prioridad : option string;
  vd_estado : option EstadoTarea;
  vd_fecha_vencimiento : option (option datetime);
  vd_resultado : option string;
  vd_depende_de : option (list Task);
}.

(** [instance.depende_de.set(value)]: the rows of [pk] to tasks outside
    [value] are deleted, the tasks of [value] without a row get one. *)
Definition depende_de_set (s : Store) (pk : uuid) (value : list uuid) : Store :=
  let old := depende_de_ids s pk in
  let kept := filter (λ r, r.1 ≠ pk ∨ r.2 ∈ value) (tareas_depende_de s) in
  let added := (λ d, (pk, d)) <$> filter (λ d, d ∉ old) (remove_dups value) in
  with_depende_de s (kept ++ added).

Module TaskSerializer.
Section ordering.
Variable ordering : gmap uuid Task → list uuid → list uuid.

Definition _would_create_circular_dependency (s : Store)
    (task dependency : Task) : option bool :=
  Task.would_create_circular_dependency ordering s
    (t_id task) (t_id dependency).

Definition validate_fecha_vencimiento (now : datetime)
    (value : option datetime) : Result (option datetime) :=
  match value with
  | Some v =>
      if bool_decide (v < now)%Z
      then Raise (ValidationError
                    "La fecha de vencimiento no puede ser en el pasado")
      else Ok value
  | None => Ok value
  end.

Definition validate_usuario_asignado (instance : Task)
    (value : option User) : Result (option User) :=
  match value with
  | Some u =>
      if bool_decide (user_department u
                        ≠ Some (dept_id (t_departamento instance)))
      then Raise (ValidationError
                    ("El usuario asignado debe pertenecer al departamento "
                       +:+ dept_name (t_departamento instance)))
      else Ok value
  | None => Ok value
  end.

(** The loop of [validate_depende_de] over the tasks of [value]. *)
Fixpoint check_each_dependency (s : Store) (instance : Task)
    (value : list Task) : Result unit :=
  match value with
  | [] => Ok ()
  | dep_task :: rest =>
      if bool_decide (t_id dep_task = t_id instance)
      then Raise (ValidationError "Una tarea no puede depender de sí misma")
      else match _would_create_circular_dependency s instance dep_task with
           | None => Raise RecursionError
           | Some true =>
               Raise (ValidationError
                        ("La dependencia crearía un ciclo circular con "
                           +:+ titulo dep_task))
           | Some false => check_each_dependency s instance rest
           end
  end.

Definition validate_depende_de (s : Store) (instance : Task)
    (value : list Task) : Result (list Task) :=
  _ ← check_each_dependency s instance value;
  Ok value.

(** [serializer.is_valid()]: the field validators, in the order of
    [Meta.fields].  The framework runs them all and reports every failure
    in one error; the result here is the first failure. *)
Definition is_valid (s : Store) (now : datetime) (instance : Task)
    (data : TaskData) : Result TaskData :=
  _ ← from_option (validate_usuario_asignado instance) (Ok None)
        (vd_usuario_asignado data);
  _ ← from_option (validate_fecha_vencimiento now) (Ok None)
        (vd_fecha_vencimiento data);
  _ ← from_option (validate_depende_de s instance) (Ok [])
        (vd_depende_de data);
  Ok data.

(** [update(instance, validated_data)]: the two special cases on
    [estado], then [super().update], which assigns every key of
    [validated_data] to the instance, saves it and sets the
    many-to-many field. *)
Definition update (s : Store) (now : datetime) (instance : Task)
    (validated_data : TaskData) : Task * Store :=
  let completing :=
    bool_decide (vd_estado validated_data = Some completada)
    && bool_decide (estado instance ≠ completada) in
  let new_fecha_completacion :=
    if completing then Some now else fecha_completacion instance in
  let new_resultado :=
    if completing
       && bool_decide (default EmptyString (vd_resultado validated_data)
                      = EmptyString)
    then Some "Tarea completada automáticamente"
    else vd_resultado validated_data in
  let new_usuario_asignado :=
    if bool_decide (vd_estado validated_data = Some cancelada)
    then Some None
    else fmap (M:=option) (fmap (M:=option) user_id)
           (vd_usuario_asignado validated_data) in
  let instance' :=
    {| t_id := t_id instance;
       t_expediente :=
         default (t_expediente instance) (vd_expediente validated_data);
       t_departamento :=
         default (t_departamento instance) (vd_departamento validated_data);
       usuario_asignado :=
         default (usuario_asignado instance) new_usuario_asignado;
       titulo := default (titulo instance) (vd_titulo validated_data);
       descripcion :=
         default (descripcion instance) (vd_descripcion validated_data);
       tipo := default (tipo instance) (vd_tipo validated_data);
       prioridad :=
         default (prioridad instance) (vd_prioridad validated_data);
       estado := default (estado instance) (vd_estado validated_data);
       fecha_vencimiento :=
         default (fecha_vencimiento instance)
                 (vd_fecha_vencimiento validated_data);
       fecha_completacion := new_fecha_completacion;
       resultado := default (resultado instance) new_resultado |} in
  let s := save_task s instance' in
  let s :=
    match vd_depende_de validated_data with
    | Some value => depende_de_set s (t_id instance) (map t_id value)
    | None => s
    end in
  (instance', s).

(** [serializer.is_valid()] and then [serializer.save()] on an
    existing task. *)
Definition save (s : Store) (now : datetime) (instance : Task)
    (data : TaskData) : Result (Task * Store) :=
  validated_data ← is_valid s now instance data;
  Ok (update s now instance validated_data).
End ordering.
End TaskSerializer.

(** ** [workflow.views.TaskViewSet] *)

(** The one-character string of a double quote. *)
Definition dquote : string := String (Ascii.ascii_of_N 34) EmptyString.

Module TaskViewSet.

(** [self.get_object()] on the primary key of the URL. *)
Definition get_object (s : Store) (pk : uuid) : Result Task :=
  match tareas s !! pk with
  | Some task => Ok task
  | None => Raise Http404
  end.

Definition _can_complete_task (user : User) (task : Task) : bool :=
  if user_is_superuser user then true
  else if is_head_role user
  then bool_decide (user_department user = Some (dept_id (t_departamento task)))
  else bool_decide (usuario_asignado task = Some (user_id user)).

Definition _can_modify_dependencies (user : User) (task : Task) : bool :=
  if user_is_superuser user then true
  else if is_head_role user
  then bool_decide (user_department user = Some (dept_id (t_departamento task)))
  else bool_decide (usuario_asignado task = Some (user_id user)).

(** The body of the loop of [_check_dependent_tasks] for one dependent
    task. *)
Definition notify_if_startable (s : Store) (dependent_pk : uuid) : Store :=
  match tareas s !! dependent_pk with
  | None => s
  | Some dependent =>
      if Task.can_be_started s dependent
         && bool_decide (estado dependent = pendiente)
      then match usuario_asignado dependent with
           | Some u =>
               create_notification s
                 {| n_user := u;
                    n_expediente := Some (t_expediente dependent);
                    n_type := "task_assigned";
                    n_title := "Tarea Disponible";
                    n_message :=
                      "La tarea " +:+ dquote +:+ titulo dependent +:+ dquote
                      +:+ " ya puede ser iniciada ya que se completaron sus dependencias" |}
           | None => s
           end
      else s
  end.

(** [expediente.tareas.filter(estado__in=['pendiente', 'en_progreso'])] *)
Definition pending_tasks (s : Store) (expediente : Expediente)
    : gmap uuid Task :=
  filter (λ kv, t_expediente kv.2 = exp_id expediente
                ∧ estado kv.2 ∈ [pendiente; en_progreso])
         (tareas s).

Definition _check_expediente_completion (s : Store) (now : datetime)
    (expediente : Expediente) : Store :=
  if bool_decide (size (pending_tasks s expediente) = 0) then
    let current_state := estado_workflow expediente in
    if negb (ws_is_final current_state) then
      match head (order_by ws_order
                    (filter (λ st, (ws_order current_state < ws_order st)%N)
                            (workflow_estados s))) with
      | Some next_state =>
          let s :=
            create_transition s
              {| wt_expediente := exp_id expediente;
                 desde_estado := Some current_state;
                 hacia_estado := next_state;
                 desde_departamento := Some (departamento_actual expediente);
                 hacia_departamento := departamento_actual expediente;
                 wt_usuario := creado_por expediente;
                 comentarios :=
                   "Transición automática: Todas las tareas completadas";
                 motivo_rechazo := EmptyString;
                 wt_metadata := "{}";
                 wt_created_at := now |} in
          save_expediente s (set_estado_workflow expediente next_state)
      | None => s
      end
    else s
  else s.

(** [get_queryset]: the tasks the user is shown. *)
Definition get_queryset (s : Store) (user : User) : gmap uuid Task :=
  let queryset := tareas s in
  if user_is_superuser user then queryset
  else if is_head_role user then
    filter (λ kv, Some (dept_id (t_departamento kv.2)) = user_department user)
           queryset
  else
    filter (λ kv, usuario_asignado kv.2 = Some (user_id user)
                  ∨ Some (dept_id (t_departamento kv.2))
                    = user_department user) queryset.

Definition _can_assign_task (user : User) (task : Task) : bool :=
  if user_is_superuser user then true
  else if is_head_role user
  then bool_decide (user_department user = Some (dept_id (t_departamento task)))
  else bool_decide (usuario_asignado task = Some (user_id user)).

Section ordering.
Variable ordering : gmap uuid Task → list uuid → list uuid.

Definition _would_create_circular_dependency (s : Store)
    (task dependency : Task) : option bool :=
  Task.would_create_circular_dependency ordering s
    (t_id task) (t_id dependency).

Definition _check_dependent_tasks (s : Store) (completed_task : Task)
    : Store :=
  foldl notify_if_startable s
        (Task.dependientes_all ordering s (t_id completed_task)).

(** [complete]: POST tasks/{pk}/complete/ *)
Definition complete (s : Store) (now : datetime) (user : User)
    (pk : uuid) (resultado : option string) : Result (Task * Store) :=
  task ← get_object s pk;
  if negb (_can_complete_task user task)
  then Raise (PermissionDenied "No tiene permisos para completar esta tarea")
  else
    let resultado := default "Tarea completada" resultado in
    let '(task, s) :=
      Task.mark_as_completed s now task (user_id user) resultado in
    let s := _check_dependent_tasks s task in
    match expedientes s !! t_expediente task with
    | None => Raise DoesNotExist
    | Some expediente =>
        Ok (task, _check_expediente_completion s now expediente)
    end.

(** [TaskDependency.objects.get_or_create(task=..., depends_on=...,
    defaults={'dependency_type': ...})] *)
Definition get_or_create_dependency (s : Store) (task depends_on : uuid)
    (dependency_type : string) : Store :=
  if bool_decide (Exists (λ r, td_task r = task ∧ td_depends_on r = depends_on)
                         (task_dependencies s))
  then s
  else with_task_dependencies s
         (task_dependencies s
            ++ [{| td_task := task; td_depends_on := depends_on;
                   dependency_type := dependency_type |}]).

(** [add_dependency]: POST tasks/{pk}/add_dependency/ *)
Definition add_dependency (s : Store) (user : User) (pk : uuid)
    (depends_on_id : option uuid) (dependency_type : option string)
    : Result (string * Store) :=
  task ← get_object s pk;
  if negb (_can_modify_dependencies user task)
  then Raise (PermissionDenied "No tiene permisos para modificar dependencias")
  else
    match depends_on_id with
    | None =>
        Raise (ValidationError
                 "Se requiere el ID de la tarea de la que depende")
    | Some depends_on_id =>
    match tareas s !! depends_on_id with
    | None => Raise (ValidationError "Tarea de dependencia no encontrada")
    | Some depends_on_task =>
        if bool_decide (t_expediente task ≠ t_expediente depends_on_task)
        then Raise CrossCaseDependency
        else
          match _would_create_circular_dependency s task depends_on_task with
          | None => Raise RecursionError
          | Some true => Raise CircularDependency
          | Some false =>
              Ok ("Dependencia agregada exitosamente",
                  get_or_create_dependency s (t_id task)
                    (t_id depends_on_task)
                    (default "finish_to_start" dependency_type))
          end
    end end.

(** [dependencies]: GET tasks/{pk}/dependencies/.  The reverse name of
    the foreign key [TaskDependency.task] is [dependency_forward], so
    [Task.objects.filter(dependency_forward__task=task)] is the tasks
    joined with the rows that have them as [task], restricted to the rows
    whose [task] is [task]; a task is returned once per row.  Likewise
    for [dependency_backward] and [depends_on]. *)
Definition dependencies (s : Store) (task : Task) : list Task * list Task :=
  let dependencies :=
    omap (λ pk, tareas s !! pk)
         (ordering (tareas s)
            (td_task <$> filter (λ r, td_task r = t_id task)
                                (task_dependencies s))) in
  let dependents :=
    omap (λ pk, tareas s !! pk)
         (ordering (tareas s)
            (td_depends_on <$> filter (λ r, td_depends_on r = t_id task)
                                      (task_dependencies s))) in
  (dependencies, dependents).

(** The generic update of the view set: PATCH tasks/{pk}/ *)
Definition partial_update (s : Store) (now : datetime) (pk : uuid)
    (data : TaskData) : Result (Task * Store) :=
  instance ← get_object s pk;
  TaskSerializer.save ordering s now instance data.
End ordering.
End TaskViewSet.

(** ** [workflow.views.WorkflowTransitionViewSet] *)
Module WorkflowTransitionViewSet.

(** [get_queryset]: the transitions the user is shown.  A filter on a
    nullable column against the user's department, itself nullable,
    matches NULL with NULL. *)
Definition get_queryset (s : Store) (user : User) : list WorkflowTransition :=
  let queryset := workflow_transiciones s in
  if user_is_superuser user then queryset
  else if is_head_role user then
    filter (λ tr, dept_id <$> desde_departamento tr = user_department user
                  ∨ Some (dept_id (hacia_departamento tr))
                    = user_department user) queryset
  else
    let expediente_ids :=
      dom (filter (λ kv, Some (dept_id (departamento_actual kv.2))
                         = user_department user
                         ∨ map_Exists
                             (λ _ t, t_expediente t = kv.1
                                     ∧ usuario_asignado t
                                       = Some (user_id user))
                             (tareas s))
                  (expedientes s)) in
    filter (λ tr, wt_expediente tr ∈ expediente_ids) queryset.

End WorkflowTransitionViewSet.

(** ** Requests

    Four operations that write to the store, as one type of requests; a
    request that raises leaves the store unchanged.  [PostTransition] is
    the transition path of the serializer given its actor
    ([WorkflowTransitionSerializer.save]), on the expediente resolved from
    its primary key as the related field of the serializer does; it is not
    the view [ExpedienteViewSet.transition].  The other three are handlers
    of [TaskViewSet].  The generic create, update and delete of the view
    sets, [assign] and [assign_task] are not requests of this type: a
    property stated for every sequence of requests is a property of these
    four operations. *)
Inductive Request :=
  | PostTransition (now : datetime) (expediente_pk : uuid) (data : TransitionData)
  | PostComplete (now : datetime) (user : User) (pk : uuid)
                 (resultado : option string)
  | PostAddDependency (user : User) (pk : uuid) (depends_on_id : option uuid)
                      (dependency_type : option string)
  | PatchTask (now : datetime) (pk : uuid) (data : TaskData).

Definition with_expediente (data : TransitionData) (e : option Expediente)
    : TransitionData :=
  {| data_expediente := e;
     data_hacia_estado := data_hacia_estado data;
     data_hacia_departamento := data_hacia_departamento data;
     data_usuario := data_usuario data;
     data_comentarios := data_comentarios data;
     data_motivo_rechazo := data_motivo_rechazo data;
     data_metadata := data_metadata data |}.

Definition with_motivo_rechazo (data : TransitionData) (motivo : string)
    : TransitionData :=
  {| data_expediente := data_expediente data;
     data_hacia_estado := data_hacia_estado data;
     data_hacia_departamento := data_hacia_departamento data;
     data_usuario := data_usuario data;
     data_comentarios := data_comentarios data;
     data_motivo_rechazo := motivo;
     data_metadata := data_metadata data |}.

Section engine.
Variable lower : string → string.
Variable ordering : gmap uuid Task → list uuid → list uuid.

Definition handle (s : Store) (r : Request) : Store :=
  match r with
  | PostTransition now pk data =>
      commit s (WorkflowTransitionSerializer.save lower s now
                  (with_expediente data (expedientes s !! pk)))
  | PostComplete now user pk resultado =>
      commit s (TaskViewSet.complete ordering s now user pk resultado)
  | PostAddDependency user pk depends_on_id dependency_type =>
      commit s (TaskViewSet.add_dependency ordering s user pk depends_on_id
                  dependency_type)
  | PatchTask now pk data =>
      commit s (TaskViewSet.partial_update ordering s now pk data)
  end.

Definition run (s : Store) (requests : list Request) : Store :=
  foldl handle s requests.
End engine.

(** ** Instances of the two parameters, for running the model *)

(** [str.lower] on a string whose cased characters are the ASCII letters:
    A-Z go to a-z and every other byte stays. *)
Definition lower_ascii (c : Ascii.ascii) : Ascii.ascii :=
  let n := Ascii.N_of_ascii c in
  if bool_decide (65 ≤ n ≤ 90)%N then Ascii.ascii_of_N (n + 32) else c.

Fixpoint ascii_lower (s : string) : string :=
  match s with
  | EmptyString => EmptyString
  | String c rest => String (lower_ascii c) (ascii_lower rest)
  end.

(** A query set returned in the order of its rows. *)
Definition row_order : gmap uuid Task → list uuid → list uuid := λ _ l, l.

(** A task query that changes only [depende_de]. *)
Definition only_depende_de (value : list Task) : TaskData :=
  {| vd_expediente := None; vd_departamento := None;
     vd_usuario_asignado := None; vd_titulo := None; vd_descripcion := None;
     vd_tipo := None; vd_prioridad := None; vd_estado := None;
     vd_fecha_vencimiento := None; vd_resultado := None;
     vd_depende_de := Some value |}.

(** A task query that changes only [estado], with an optional
    [resultado]. *)
Definition only_estado (e : EstadoTarea) (res : option string) : TaskData :=
  {| vd_expediente := None; vd_departamento := None;
     vd_usuario_asignado := None; vd_titulo := None; vd_descripcion := None;
     vd_tipo := None; vd_prioridad := None; vd_estado := Some e;
     vd_fecha_vencimiento := None; vd_resultado := res;
     vd_depende_de := None |}.

(** ** Predicates of the specification *)

(** Every direct dependency of [t] has status completed. *)
Definition all_dependencies_completed (s : Store) (t : Task) : Prop :=
  ∀ d dt, d ∈ depende_de_ids s (t_id t) → tareas s !! d = Some dt →
          estado dt = completada.

(** Some direct dependency of [t] is pending or in progress. *)
Definition some_dependency_unfinished (s : Store) (t : Task) : Prop :=
  ∃ d dt, d ∈ depende_de_ids s (t_id t) ∧ tareas s !! d = Some dt
          ∧ (estado dt = pendiente ∨ estado dt = en_progreso).

(** The table of [TaskDependency] has a row (task, depends_on). *)
Definition has_dependency_row (s : Store) (task depends_on : uuid) : Prop :=
  ∃ r, r ∈ task_dependencies s
       ∧ td_task r = task ∧ td_depends_on r = depends_on.

(** The table of [TaskDependency] and the relation [depende_de] hold the
    same pairs. *)
Definition relations_agree (s : Store) : Prop :=
  ∀ task depends_on,
    has_dependency_row s task depends_on
    ↔ depends_on ∈ depende_de_ids s task.

(** The completion time of every expediente is set exactly when its
    status is completado. *)
Definition timestamp_iff_completed (s : Store) : Prop :=
  map_Forall (λ _ e, is_Some (fecha_completado e)
                     ↔ estado_actual e = completado)
             (expedientes s).

(** Every expediente is stored under its own primary key. *)
Definition expedientes_keyed (s : Store) : Prop :=
  map_Forall (λ k e, exp_id e = k) (expedientes s).

(** ** A small installation, for running the model *)

Definition st_inicio : WorkflowState :=
  {| ws_id := 1; ws_name := "Inicio"; ws_is_final := false; ws_order := 1 |}.
Definition st_revision : WorkflowState :=
  {| ws_id := 2; ws_name := "En Revisión Legal"; ws_is_final := false;
     ws_order := 2 |}.
Definition st_completado : WorkflowState :=
  {| ws_id := 3; ws_name := "Completado"; ws_is_final := true; ws_order := 3 |}.
Definition st_rechazado : WorkflowState :=
  {| ws_id := 4; ws_name := "Rechazado"; ws_is_final := true; ws_order := 4 |}.
Definition st_apelacion : WorkflowState :=
  {| ws_id := 5; ws_name := "En Apelación"; ws_is_final := false;
     ws_order := 5 |}.

Definition dept_juridico : Department :=
  {| dept_id := 1; dept_name := "Jurídico"; dept_code := "JURIDICO";
     dept_workflow_order := 1; dept_can_process_parallel := false;
     dept_response_time_hours := 48; dept_is_active := true |}.
Definition dept_tecnico : Department :=
  {| dept_id := 2; dept_name := "Técnico"; dept_code := "TECNICO";
     dept_workflow_order := 2; dept_can_process_parallel := true;
     dept_response_time_hours := 72; dept_is_active := true |}.
Definition dept_financiero : Department :=
  {| dept_id := 3; dept_name := "Financiero"; dept_code := "FINANCIERO";
     dept_workflow_order := 3; dept_can_process_parallel := false;
     dept_response_time_hours := 24; dept_is_active := true |}.

Definition superuser : User :=
  {| user_id := 1; user_is_superuser := true; user_is_active := true;
     user_role := "admin"; user_department := Some 1%N |}.

Definition analista : User :=
  {| user_id := 2; user_is_superuser := false; user_is_active := true;
     user_role := "analyst"; user_department := Some 1%N |}.

(** Expediente 1, created by user 1, in the first department. *)
Definition expediente_en (st : WorkflowState) (status : EstadoExpediente)
    (completed_at : option datetime) : Expediente :=
  {| exp_id := 1; numero_expediente := "EXP-001"; estado_actual := status;
     departamento_actual := dept_juridico; estado_workflow := st;
     creado_por := 1; fecha_inicio := Some 0%Z;
     fecha_completado := completed_at |}.

(** A task of expediente 1, assigned to user 2. *)
Definition tarea (pk : uuid) (e : EstadoTarea) : Task :=
  {| t_id := pk; t_expediente := 1; t_departamento := dept_juridico;
     usuario_asignado := Some 2%N; titulo := "Revisar"; descripcion := "Revisar";
     tipo := "revision"; prioridad := "media"; estado := e;
     fecha_vencimiento := None; fecha_completacion := None;
     resultado := EmptyString |}.

Definition installation (e : Expediente) (tasks : list Task)
    (rows : list (uuid * uuid)) : Store :=
  {| workflow_estados :=
       [st_inicio; st_revision; st_completado; st_rechazado; st_apelacion];
     departamentos := [dept_juridico; dept_tecnico; dept_financiero];
     usuarios := [superuser; analista];
     expedientes := {[ exp_id e := e ]};
     workflow_transiciones := [];
     tareas := list_to_map ((λ t, (t_id t, t)) <$> tasks);
     tareas_depende_de := rows;
     task_dependencies := [];
     notificaciones := [] |}.

(** A new expediente. *)
Definition expediente_nuevo : Expediente := expediente_en st_inicio iniciado None.

(** A transition request for expediente 1 by user 1. *)
Definition transition_data (e : Expediente) (to_state : WorkflowState)
    (to_dept : Department) (motivo : string) : TransitionData :=
  {| data_expediente := Some e;
     data_hacia_estado := Some to_state;
     data_hacia_departamento := Some to_dept;
     data_usuario := Some 1%N;
     data_comentarios := "Avance";
     data_motivo_rechazo := motivo;
     data_metadata := "{}" |}.

(** Expediente 1 with the pending tasks 11 and 12 and no dependency. *)
Definition dos_tareas : Store :=
  installation expediente_nuevo [tarea 11 pendiente; tarea 12 pendiente] [].

(** Expediente 1 with task 11 in progress and the pending task 12, which
    depends on task 11. *)
Definition tarea_y_dependiente : Store :=
  installation expediente_nuevo [tarea 11 en_progreso; tarea 12 pendiente]
    [(12, 11)]%N.

(** Expediente 1 with task 11 in progress and no other task. *)
Definition una_tarea : Store :=
  installation expediente_nuevo [tarea 11 en_progreso] [].

(** Expediente 1 with the pending tasks 11 (A), 12 (B), 13 (C) and 14 (D)
    and no dependency. *)
Definition cuatro_tareas : Store :=
  installation expediente_nuevo
    [tarea 11 pendiente; tarea 12 pendiente; tarea 13 pendiente;
     tarea 14 pendiente] [].

(** Expediente 1 with the diamond over the tasks 11 to 14 stored in
    [depende_de], and task 15 without dependencies. *)
Definition diamante_y_otra : Store :=
  installation expediente_nuevo
    [tarea 11 pendiente; tarea 12 pendiente; tarea 13 pendiente;
     tarea 14 pendiente; tarea 15 pendiente]
    [(12, 11); (13, 11); (14, 12); (14, 13)]%N.

(** ** Predicates of the dependency graph *)

(** Task [a] has a row to task [b] in the through table of
    [Task.depende_de]: [a] depends on [b]. *)
Definition depends_on (s : Store) : relation uuid :=
  λ a b, (a, b) ∈ tareas_depende_de s.

(** No task reaches itself along [depende_de]. *)
Definition depende_de_acyclic (s : Store) : Prop :=
  ∀ x, ¬ tc (depends_on s) x x.

(** The pairs (task, depends_on) of the table of [TaskDependency], whose
    [unique_together] asks that no pair occurs twice. *)
Definition dependency_pairs (s : Store) : list (uuid * uuid) :=
  (λ r, (td_task r, td_depends_on r)) <$> task_dependencies s.

(** * Properties *)

(** ** Facts about the cycle check *)

Section check_dependencies_facts.
Variable depende_de_all : uuid → list uuid.
Variable task_id : uuid.

Abbreviation check := (check_dependencies depende_de_all task_id).
Abbreviation loop := (for_each_dep task_id).

(** The loop only adds to [visited] when the check it calls does. *)
Lemma for_each_dep_visited
    (chk : gset uuid → uuid → option (bool * gset uuid)) :
  (∀ v d b v', chk v d = Some (b, v') → v ⊆ v') →
  ∀ deps v b v', loop chk v deps = Some (b, v') → v ⊆ v'.
Proof.
  intros Hchk deps. induction deps as [|d deps IH]; intros v b v' H; simpl in H.
  - by inversion H.
  - destruct (decide (d = task_id)); [by inversion H|].
    destruct (chk v d) as [[[] v1]|] eqn:E; try done.
    + inversion H; subst. eauto.
    + etrans; [eapply Hchk, E | eapply IH, H].
Qed.

Lemma check_dependencies_visited fuel v c b v' :
  check fuel v c = Some (b, v') → v ⊆ v'.
Proof.
  revert v c b v'. induction fuel as [|fuel IH]; intros v c b v' H; [done|].
  simpl in H. destruct (decide (c ∈ v)); [by inversion H|].
  apply for_each_dep_visited in H; [set_solver|]. eauto.
Qed.

(** More fuel does not change a result. *)
Lemma for_each_dep_ext
    (chk chk' : gset uuid → uuid → option (bool * gset uuid)) :
  (∀ v d r, chk v d = Some r → chk' v d = Some r) →
  ∀ deps v r, loop chk v deps = Some r → loop chk' v deps = Some r.
Proof.
  intros Hchk deps. induction deps as [|d deps IH]; intros v r H; simpl in *.
  - done.
  - destruct (decide (d = task_id)); [done|].
    destruct (chk v d) as [[[] v1]|] eqn:E; try done;
      rewrite (Hchk _ _ _ E); eauto.
Qed.

Lemma check_dependencies_fuel_mono (n m : nat) v c r :
  (n ≤ m)%nat → check n v c = Some r → check m v c = Some r.
Proof.
  revert m v c r. induction n as [|n IH]; intros m v c r Hle H; [done|].
  destruct m as [|m]; [lia|]. simpl in *.
  destruct (decide (c ∈ v)); [done|].
  eapply for_each_dep_ext; [|exact H]. intros; apply IH; [lia|done].
Qed.

Lemma check_dependencies_fuel_agree (n m : nat) v c r r' :
  check n v c = Some r → check m v c = Some r' → r = r'.
Proof.
  intros H H'. destruct (decide (n ≤ m)%nat).
  - apply (check_dependencies_fuel_mono n m) in H; [congruence|done].
  - apply (check_dependencies_fuel_mono m n) in H'; [congruence|lia].
Qed.

(** Termination: every task with a dependency lies in the finite set
    [nodes], each call that recurses puts a new task of [nodes] into
    [visited], so fuel beyond the number of unvisited tasks is never used
    up. *)
Variable nodes : gset uuid.
Hypothesis depende_de_all_nodes : ∀ c d, d ∈ depende_de_all c → c ∈ nodes.

Lemma check_dependencies_enough_fuel (fuel : nat) v c :
  (size (nodes ∖ v) < fuel)%nat → is_Some (check fuel v c).
Proof.
  revert v c. induction fuel as [|fuel IH]; intros v c Hlt; [lia|].
  simpl. destruct (decide (c ∈ v)); [eauto|].
  assert (∀ deps w, (size (nodes ∖ w) < fuel)%nat →
            is_Some (loop (check fuel) w deps)) as Hloop.
  { intros deps. induction deps as [|d deps IHd]; intros w Hw; simpl; [eauto|].
    destruct (decide (d = task_id)); [eauto|].
    destruct (IH w d Hw) as [[[] w'] E]; rewrite E; [eauto|].
    apply IHd. apply check_dependencies_visited in E.
    eapply Nat.le_lt_trans; [|exact Hw].
    apply subseteq_size. set_solver. }
  destruct (depende_de_all c) as [|d deps] eqn:E; [simpl; eauto|].
  rewrite <- E. apply Hloop.
  assert (c ∈ nodes) by (apply (depende_de_all_nodes c d); rewrite E; left).
  assert (nodes ∖ ({[c]} ∪ v) ⊂ nodes ∖ v) as Hsub by set_solver.
  apply subset_size in Hsub. lia.
Qed.
End check_dependencies_facts.

(** ** [can_be_started] *)

Lemma estado_in_pendiente_en_progreso_true s d :
  Task.estado_in_pendiente_en_progreso s d = true ↔
  ∃ dt, tareas s !! d = Some dt
        ∧ (estado dt = pendiente ∨ estado dt = en_progreso).
Proof.
  unfold Task.estado_in_pendiente_en_progreso. split.
  - destruct (tareas s !! d) as [dt|]; [|done]. intros H.
    apply bool_decide_eq_true in H. exists dt. split; [done|].
    set_solver.
  - intros (dt & -> & H). apply bool_decide_eq_true. set_solver.
Qed.

(** [can_be_started] is true exactly when no direct dependency is
    pending or in progress. *)
Lemma can_be_started_iff s t :
  Task.can_be_started s t = true ↔ ¬ some_dependency_unfinished s t.
Proof.
  unfold Task.can_be_started, Task.unfinished_dependencies,
    some_dependency_unfinished.
  rewrite negb_true_iff, bool_decide_eq_false. split.
  - intros H (d & dt & Hd & Hdt & He). apply H. intros Hnil.
    assert (d ∈ filter (λ d, Task.estado_in_pendiente_en_progreso s d)
                  (depende_de_ids s (t_id t))) as Hin.
    { apply list_elem_of_filter. split; [|done].
      apply Is_true_true, estado_in_pendiente_en_progreso_true. eauto. }
    rewrite Hnil in Hin. by apply elem_of_nil in Hin.
  - intros H Hne. apply Hne.
    destruct (filter _ _) as [|d l] eqn:E; [done|]. exfalso. apply H.
    assert (d ∈ d :: l) as Hin by left. rewrite <- E in Hin.
    apply list_elem_of_filter in Hin as [Hp Hin].
    apply Is_true_true, estado_in_pendiente_en_progreso_true in Hp
      as (dt & ? & ?).
    eauto 6.
Qed.

Lemma can_be_started_false_of_unfinished s t :
  some_dependency_unfinished s t → Task.can_be_started s t = false.
Proof.
  intros H. destruct (Task.can_be_started s t) eqn:E; [|done].
  by apply can_be_started_iff in E.
Qed.

Lemma can_be_started_of_all_completed s t :
  all_dependencies_completed s t → Task.can_be_started s t = true.
Proof.
  intros H. apply can_be_started_iff. intros (d & dt & Hd & Hdt & He).
  specialize (H d dt Hd Hdt). destruct He; congruence.
Qed.

(** C6 (defect): task 12 depends on task 11, which was cancelled.
    [can_be_started] answers true although not every direct dependency is
    completed; it is false as soon as one is pending or in progress, as
    [can_be_started_false_of_unfinished] shows for every store. *)
Theorem can_be_started_with_cancelled_dependency :
  let s := installation expediente_nuevo
             [tarea 11 cancelada; tarea 12 pendiente] [(12, 11)]%N in
  Task.can_be_started s (tarea 12 pendiente) = true
  ∧ ¬ all_dependencies_completed s (tarea 12 pendiente).
Proof.
  split; [by vm_compute|].
  intros H. specialize (H 11%N (tarea 11 cancelada)).
  assert (cancelada = completada) as E; [|discriminate E].
  apply H; [|by vm_compute].
  replace (depende_de_ids _ _) with [11%N] by (by vm_compute). left.
Qed.

(** ** The next states and departments of an expediente *)

#[global] Instance key_le_transitive {A} (key : A → N) : Transitive (key_le key).
Proof. intros a b c. unfold key_le. lia. Qed.

#[global] Instance key_le_total {A} (key : A → N) : Total (key_le key).
Proof. intros a b. unfold key_le. lia. Qed.

Lemma StronglySorted_take {A} (R : relation A) (n : nat) (l : list A) :
  StronglySorted R l → StronglySorted R (take n l).
Proof.
  intros H. revert n. induction H as [|x l Hl IH Hx]; intros [|n]; simpl;
    try constructor; auto using Forall_take.
Qed.

(** What [qs.filter(P).order_by(key)[:n]] returns: at most [n] rows of the
    table, each satisfying [P], in ascending order of [key]. *)
Lemma order_by_filter_take {A} (key : A → N) (P : A → Prop)
    `{∀ x, Decision (P x)} (n : nat) (table : list A) :
  let result := take n (order_by key (filter P table)) in
  (length result ≤ n)%nat
  ∧ Forall (λ x, x ∈ table ∧ P x) result
  ∧ StronglySorted (key_le key) result.
Proof.
  simpl. split; [|split].
  - rewrite length_take. lia.
  - apply Forall_take. unfold order_by.
    rewrite merge_sort_Permutation. apply Forall_forall.
    intros x Hx. by apply list_elem_of_filter in Hx as [? ?].
  - apply StronglySorted_take. unfold order_by.
    apply StronglySorted_merge_sort; apply _.
Qed.

(** The head of an ordered query set has the least key. *)
Lemma order_by_head_least {A} (key : A → N) (l : list A) (x : A) :
  head (order_by key l) = Some x →
  x ∈ l ∧ ∀ y, y ∈ l → (key x ≤ key y)%N.
Proof.
  unfold order_by. intros Hhd.
  pose proof (StronglySorted_merge_sort (key_le key) l) as Hs.
  pose proof (merge_sort_Permutation (key_le key) l) as Hp.
  destruct (merge_sort (key_le key) l) as [|z zs]; [done|].
  simpl in Hhd. injection Hhd as ->. split.
  - rewrite <- Hp. left.
  - intros y Hy. rewrite <- Hp in Hy.
    apply StronglySorted_inv in Hs as [_ Hall].
    apply elem_of_cons in Hy as [->|Hy]; [done|].
    rewrite Forall_forall in Hall. by apply Hall.
Qed.

Lemma order_by_head_None {A} (key : A → N) (l : list A) :
  head (order_by key l) = None → l = [].
Proof.
  unfold order_by. intros Hhd.
  pose proof (merge_sort_Permutation (key_le key) l) as Hp.
  destruct (merge_sort (key_le key) l); [|done].
  by apply Permutation_nil_l in Hp.
Qed.

(** What [qs.filter(P).order_by(key)[:n]] returns, whatever the order of
    rows of equal key: as many rows as satisfy [P], up to [n]; together
    with the rows left out they are the rows that satisfy [P], each as
    often as the table has it; and no row left out has a smaller key than
    a row returned. *)
Lemma order_by_filter_take_least {A} (key : A → N) (P : A → Prop)
    `{∀ x, Decision (P x)} (n : nat) (table : list A) :
  let result := take n (order_by key (filter P table)) in
  length result = (n `min` length (filter P table))%nat
  ∧ ∃ rest,
      (result ++ rest)%list ≡ₚ filter P table
      ∧ Forall (λ x, Forall (λ y, (key x ≤ key y)%N) rest) result.
Proof.
  simpl. unfold order_by.
  pose proof (merge_sort_Permutation (key_le key) (filter P table)) as Hp.
  pose proof (StronglySorted_merge_sort (key_le key) (filter P table)) as Hs.
  split.
  - rewrite length_take. by rewrite Hp.
  - exists (drop n (merge_sort (key_le key) (filter P table))).
    rewrite take_drop. split; [done|].
    rewrite <- (take_drop n (merge_sort _ _)) in Hs.
    apply Forall_forall. intros x Hx. apply Forall_forall. intros y Hy.
    by apply (StronglySorted_app_1_elem_of (key_le key) _ _ x y Hs).
Qed.

(** C8 (as stated): an expediente in the final state Completado, in the
    first department.  The next-departments query does not look at the
    state and returns the two later departments. *)
Lemma next_departments_of_final_state :
  let e := expediente_en st_completado completado (Some 5%Z) in
  let s := installation e [] [] in
  ws_is_final (estado_workflow e) = true
  ∧ ExpedienteViewSet._get_next_departments s e = [dept_tecnico; dept_financiero].
Proof. by vm_compute. Qed.

(** C8 (amended): both queries are functions of the store that return a
    value and no store.  The next-states query returns the empty list when
    the current workflow state is final; in every case it returns at most 3
    states of the table, each of order strictly greater than the current
    one, in ascending order.  When the state is not final it returns as
    many states as have a greater order, up to 3, and they are those of
    least order: with the states left out they make up the states of
    greater order, and no state left out has a smaller order than a
    returned one.  The next-departments query returns, whatever the state,
    at most 3 active departments of the table, each of workflow_order
    strictly greater than the current one, in ascending order: as many as
    there are, up to 3, and those of least workflow_order. *)
Theorem next_states_and_departments (s : Store) (e : Expediente) :
  (ws_is_final (estado_workflow e) = true →
   ExpedienteViewSet._get_available_transitions s e = [])
  ∧ (let result := ExpedienteViewSet._get_available_transitions s e in
     (length result ≤ 3)%nat
     ∧ Forall (λ st, st ∈ workflow_estados s
                     ∧ (ws_order (estado_workflow e) < ws_order st)%N) result
     ∧ StronglySorted (key_le ws_order) result)
  ∧ (let result := ExpedienteViewSet._get_next_departments s e in
     (length result ≤ 3)%nat
     ∧ Forall (λ d, d ∈ departamentos s
                    ∧ dept_is_active d = true
                    ∧ (dept_workflow_order (departamento_actual e)
                         < dept_workflow_order d)%N) result
     ∧ StronglySorted (key_le dept_workflow_order) result)
  ∧ (ws_is_final (estado_workflow e) = false →
     let result := ExpedienteViewSet._get_available_transitions s e in
     let greater :=
       filter (λ st, (ws_order (estado_workflow e) < ws_order st)%N)
              (workflow_estados s) in
     length result = (3 `min` length greater)%nat
     ∧ ∃ rest,
         (result ++ rest)%list ≡ₚ greater
         ∧ Forall (λ st, Forall (λ st', (ws_order st ≤ ws_order st')%N) rest)
                  result)
  ∧ (let result := ExpedienteViewSet._get_next_departments s e in
     let greater :=
       filter (λ d, (dept_workflow_order (departamento_actual e)
                       < dept_workflow_order d)%N
                    ∧ dept_is_active d = true)
              (departamentos s) in
     length result = (3 `min` length greater)%nat
     ∧ ∃ rest,
         (result ++ rest)%list ≡ₚ greater
         ∧ Forall (λ d, Forall (λ d', (dept_workflow_order d
                                         ≤ dept_workflow_order d')%N) rest)
                  result).
Proof.
  split; [|split; [|split; [|split]]].
  - intros Hfinal. unfold ExpedienteViewSet._get_available_transitions.
    by rewrite Hfinal.
  - unfold ExpedienteViewSet._get_available_transitions.
    destruct (ws_is_final (estado_workflow e)); simpl.
    + repeat split; [lia|constructor|constructor].
    + apply (order_by_filter_take ws_order
               (λ st, (ws_order (estado_workflow e) < ws_order st)%N)).
  - unfold ExpedienteViewSet._get_next_departments.
    pose proof (order_by_filter_take dept_workflow_order
      (λ d, (dept_workflow_order (departamento_actual e)
               < dept_workflow_order d)%N ∧ dept_is_active d = true)
      3 (departamentos s)) as (Hlen & Hall & Hsorted).
    simpl. split; [done|]. split; [|done].
    eapply Forall_impl; [exact Hall|]. simpl. tauto.
  - intros Hfinal. unfold ExpedienteViewSet._get_available_transitions.
    rewrite Hfinal.
    apply (order_by_filter_take_least ws_order
             (λ st, (ws_order (estado_workflow e) < ws_order st)%N)).
  - unfold ExpedienteViewSet._get_next_departments.
    apply (order_by_filter_take_least dept_workflow_order
             (λ d, (dept_workflow_order (departamento_actual e)
                      < dept_workflow_order d)%N ∧ dept_is_active d = true)).
Qed.

(** ** Transitions *)

Section transitions.
Variable lower : string → string.

Abbreviation validate := (WorkflowTransitionSerializer.validate lower).
Abbreviation create := (WorkflowTransitionSerializer.create lower).
Abbreviation update_status := (WorkflowTransitionSerializer.update_status lower).

(** [update_status] writes the status, and the completion time in one
    branch; nothing else. *)
Lemma update_status_frame now e st :
  exp_id (update_status now e st) = exp_id e
  ∧ estado_workflow (update_status now e st) = estado_workflow e
  ∧ departamento_actual (update_status now e st) = departamento_actual e
  ∧ creado_por (update_status now e st) = creado_por e.
Proof.
  unfold WorkflowTransitionSerializer.update_status.
  repeat case_bool_decide; try destruct (str_contains _ _); done.
Qed.

(** The fixed mapping from the name of the new state to the status. *)
Lemma update_status_mapping now e st :
  let name := lower (ws_name st) in
  let e' := update_status now e st in
  (name = "completado" →
   estado_actual e' = completado ∧ fecha_completado e' = Some now)
  ∧ (name = "rechazado" →
     estado_actual e' = rechazado ∧ fecha_completado e' = fecha_completado e)
  ∧ (name = "en apelación" →
     estado_actual e' = en_apelacion
     ∧ fecha_completado e' = fecha_completado e)
  ∧ (str_contains "revisión" name = true →
     estado_actual e' = en_revision
     ∧ fecha_completado e' = fecha_completado e)
  ∧ (name ≠ "completado" → name ≠ "rechazado" → name ≠ "en apelación" →
     str_contains "revisión" name = false →
     estado_actual e' = aprobado ∧ fecha_completado e' = fecha_completado e).
Proof.
  simpl. unfold WorkflowTransitionSerializer.update_status.
  repeat split; intros;
    repeat case_bool_decide; try done;
    repeat match goal with
           | H : lower _ = _, H' : str_contains _ (lower _) = _ |- _ =>
               rewrite H in H'; vm_compute in H'; discriminate H'
           | H : lower _ = _, H' : lower _ = _ |- _ =>
               rewrite H in H'; discriminate H'
           | H : str_contains ?p ?n = _ |- context [str_contains ?p ?n] =>
               rewrite H
           end; try done.
Qed.

(** C3: when [create] succeeds, the expediente, the new state, the new
    department and the acting user were given; the new transition record
    is the one row added to the history and carries the state and the
    department the expediente had at the call as its from-fields;
    afterwards the stored expediente has the new state and the new
    department, and its status follows the name of the new state:
    completado (with the completion time stamped), rechazado,
    en_apelacion, en_revision for a name that contains the review
    substring, aprobado for every other name. *)
Theorem create_effects s now vd tr s' :
  create s now vd = Ok (tr, s') →
  ∃ e to_state to_dept usuario,
    data_expediente vd = Some e
    ∧ data_hacia_estado vd = Some to_state
    ∧ data_hacia_departamento vd = Some to_dept
    ∧ data_usuario vd = Some usuario
    ∧ wt_expediente tr = exp_id e
    ∧ desde_estado tr = Some (estado_workflow e)
    ∧ desde_departamento tr = Some (departamento_actual e)
    ∧ hacia_estado tr = to_state
    ∧ hacia_departamento tr = to_dept
    ∧ wt_usuario tr = usuario
    ∧ workflow_transiciones s' = (workflow_transiciones s ++ [tr])%list
    ∧ ∃ e', expedientes s' !! exp_id e = Some e'
        ∧ estado_workflow e' = to_state
        ∧ departamento_actual e' = to_dept
        ∧ (lower (ws_name to_state) = "completado" →
           estado_actual e' = completado ∧ fecha_completado e' = Some now)
        ∧ (lower (ws_name to_state) = "rechazado" →
           estado_actual e' = rechazado)
        ∧ (lower (ws_name to_state) = "en apelación" →
           estado_actual e' = en_apelacion)
        ∧ (str_contains "revisión" (lower (ws_name to_state)) = true →
           estado_actual e' = en_revision)
        ∧ (lower (ws_name to_state) ≠ "completado" →
           lower (ws_name to_state) ≠ "rechazado" →
           lower (ws_name to_state) ≠ "en apelación" →
           str_contains "revisión" (lower (ws_name to_state)) = false →
           estado_actual e' = aprobado).
Proof.
  unfold WorkflowTransitionSerializer.create,
    WorkflowTransitionSerializer.insert_transition.
  destruct (data_expediente vd) as [e|]; [|done].
  destruct (data_hacia_estado vd) as [st|]; [|done].
  destruct (data_usuario vd) as [u|]; [|done].
  destruct (data_hacia_departamento vd) as [d|]; [|done].
  simpl. intros H. injection H as <- <-.
  exists e, st, d, u. repeat (split; [done|]).
  exists (update_status now (set_departamento_actual
                               (set_estado_workflow e st) d) st).
  destruct (update_status_frame now
              (set_departamento_actual (set_estado_workflow e st) d) st)
    as (Hid & Hst & Hd & _).
  destruct (update_status_mapping now
              (set_departamento_actual (set_estado_workflow e st) d) st)
    as (H1 & H2 & H3 & H4 & H5). simpl in *.
  split.
  { unfold save_expediente. simpl. rewrite Hid. simpl.
    apply lookup_insert_eq. }
  repeat split; try done; naive_solver.
Qed.

(** A transition to the rejection state with an empty reason is refused
    with a validation error, whatever else the request holds. *)
Lemma validate_rejection_without_reason data st :
  data_hacia_estado data = Some st →
  lower (ws_name st) = "rechazado" →
  data_motivo_rechazo data = EmptyString →
  ∃ msg, validate data = Raise (ValidationError msg).
Proof.
  intros Hst Hname Hmotivo. unfold WorkflowTransitionSerializer.validate.
  rewrite Hst. destruct (data_expediente data) as [e|]; [|eauto].
  destruct (ws_eqb _ _); [unfold SameState; eauto|].
  destruct (_ && _); [unfold SameDepartment; eauto|].
  rewrite Hname, Hmotivo. simpl. unfold MissingRejectionReason; eauto.
Qed.

End transitions.

(** C3 at work: expediente 1, new and in the first department, moves to
    the state En Revisión Legal in the second department. *)
Lemma create_effects_witness :
  ∃ tr s',
    WorkflowTransitionSerializer.create ascii_lower
      (installation expediente_nuevo [] []) 7
      (transition_data expediente_nuevo st_revision dept_tecnico EmptyString)
    = Ok (tr, s')
    ∧ desde_estado tr = Some st_inicio
    ∧ desde_departamento tr = Some dept_juridico
    ∧ ∃ e', expedientes s' !! 1%N = Some e'
        ∧ estado_workflow e' = st_revision
        ∧ departamento_actual e' = dept_tecnico
        ∧ estado_actual e' = en_revision.
Proof.
  destruct (WorkflowTransitionSerializer.create ascii_lower
              (installation expediente_nuevo [] []) 7
              (transition_data expediente_nuevo st_revision dept_tecnico
                 EmptyString)) as [[tr s']|err] eqn:E;
    [|by vm_compute in E].
  exists tr, s'. split; [done|].
  destruct (create_effects ascii_lower _ _ _ _ _ E)
    as (e & st & d & u & He & Hst & Hd & _ & _ & Hfrom & Hfromd & _ & _ & _
        & _ & e' & Hlook & Hst' & Hd' & _ & _ & _ & Hrev & _).
  simpl in He, Hst, Hd.
  injection He as <-. injection Hst as <-. injection Hd as <-.
  repeat (split; [done|]).
  exists e'. repeat (split; [done|]). apply Hrev. by vm_compute.
Defined.

(** ** The view [transition] *)

Section transition_view.
Variable timedelta_of_hours : N → Z.
Variable lower : string → string.

Abbreviation transition :=
  (ExpedienteViewSet.transition timedelta_of_hours lower).

(** [validate] accepts or refuses; it does not change the data. *)
Lemma validate_ok data vd :
  WorkflowTransitionSerializer.validate lower data = Ok vd → vd = data.
Proof.
  unfold WorkflowTransitionSerializer.validate.
  repeat case_match; by intros [= <-].
Qed.

(** What [is_valid] returns holds no [usuario]. *)
Lemma is_valid_without_usuario data vd :
  WorkflowTransitionSerializer.is_valid lower data = Ok vd →
  vd = WorkflowTransitionSerializer.without_usuario data.
Proof.
  unfold WorkflowTransitionSerializer.is_valid.
  repeat case_match; try done; apply validate_ok.
Qed.

(** [create] on validated data without [usuario] raises the [KeyError] of
    its fourth line, before any write. *)
Lemma create_without_usuario s now data e st :
  data_expediente data = Some e →
  data_hacia_estado data = Some st →
  WorkflowTransitionSerializer.create lower s now
    (WorkflowTransitionSerializer.without_usuario data)
  = Raise (KeyError "usuario").
Proof.
  intros He Hst. unfold WorkflowTransitionSerializer.create. simpl.
  by rewrite He, Hst.
Qed.

(** C4 (defect): a request to the view [transition] for a visible
    expediente the user may move, to the rejection state.  With an empty
    reason the request is refused with a validation error, which is the
    error for the missing reason when the request is acceptable apart from
    the reason (another state than the current one; a final state or
    another department than the current one).  With a reason the same
    request does not succeed: the serializer is saved without the acting
    user, [create] raises [KeyError] on the key [usuario], and neither a
    transition record nor a change of the expediente is stored. *)
Theorem rejection_with_reason_fails s now task_pk user pk e st request_data :
  ExpedienteViewSet.get_queryset s user !! pk = Some e →
  ExpedienteViewSet._can_transition_expediente user e = true →
  data_hacia_estado request_data = Some st →
  lower (ws_name st) = "rechazado" →
  (∃ msg, transition s now task_pk user pk
            (with_motivo_rechazo request_data EmptyString)
          = Raise (ValidationError msg))
  ∧ ∀ d,
      data_hacia_departamento request_data = Some d →
      ws_id (estado_workflow e) ≠ ws_id st →
      (ws_is_final st = true ∨ dept_id (departamento_actual e) ≠ dept_id d) →
      transition s now task_pk user pk
        (with_motivo_rechazo request_data EmptyString)
      = Raise MissingRejectionReason
      ∧ ∀ motivo,
          motivo ≠ EmptyString →
          transition s now task_pk user pk
            (with_motivo_rechazo request_data motivo)
          = Raise (KeyError "usuario")
          ∧ commit s (transition s now task_pk user pk
                        (with_motivo_rechazo request_data motivo)) = s.
Proof.
  intros Hvis Hperm Hst Hname. split.
  - unfold ExpedienteViewSet.transition. rewrite Hvis, Hperm. simpl.
    unfold WorkflowTransitionSerializer.is_valid. simpl. rewrite Hst.
    destruct (data_hacia_departamento request_data) as [d|]; [|by eexists].
    match goal with
    | |- context [WorkflowTransitionSerializer.validate lower ?dt] =>
        destruct (validate_rejection_without_reason lower dt st)
          as [msg ->]; try done
    end.
    by exists msg.
  - intros d Hd Hne Hdept.
    assert (∀ m, transition s now task_pk user pk
                   (with_motivo_rechazo request_data m)
                 = if bool_decide (m = EmptyString)
                   then Raise MissingRejectionReason
                   else Raise (KeyError "usuario")) as Hview.
    { intros m. unfold ExpedienteViewSet.transition.
      rewrite Hvis, Hperm. simpl.
      unfold WorkflowTransitionSerializer.is_valid. simpl. rewrite Hst, Hd.
      unfold WorkflowTransitionSerializer.validate. simpl.
      rewrite Hname. unfold ws_eqb, dept_eqb.
      rewrite (bool_decide_eq_false_2 _ Hne).
      assert (negb (ws_is_final st)
              && bool_decide (dept_id (departamento_actual e) = dept_id d)
              = false) as ->.
      { destruct Hdept as [->|Hdd]; [done|].
        rewrite (bool_decide_eq_false_2 _ Hdd). apply andb_false_r. }
      rewrite bool_decide_eq_true_2 by done. simpl.
      case_bool_decide; [done|]. simpl.
      done. }
    split.
    + by rewrite Hview.
    + intros motivo Hmotivo. rewrite Hview.
      by rewrite (bool_decide_eq_false_2 _ Hmotivo).
Qed.

(** X29: no request to the view [transition] succeeds.  A request that passes
    the permission check and the validation raises [KeyError] on the key
    [usuario]: the field is read-only, so the validated data do not hold
    it, and the view passes no keyword to [serializer.save].  No transition
    record, notification or automatic task is ever stored by the view. *)
Theorem transition_view_never_succeeds s now task_pk user pk request_data :
  (∃ err, transition s now task_pk user pk request_data = Raise err)
  ∧ commit s (transition s now task_pk user pk request_data) = s
  ∧ ∀ vd e,
      ExpedienteViewSet.get_queryset s user !! pk = Some e →
      ExpedienteViewSet._can_transition_expediente user e = true →
      WorkflowTransitionSerializer.is_valid lower
        {| data_expediente := Some e;
           data_hacia_estado := data_hacia_estado request_data;
           data_hacia_departamento := data_hacia_departamento request_data;
           data_usuario := Some (user_id user);
           data_comentarios := data_comentarios request_data;
           data_motivo_rechazo := data_motivo_rechazo request_data;
           data_metadata := data_metadata request_data |} = Ok vd →
      transition s now task_pk user pk request_data
      = Raise (KeyError "usuario").
Proof.
  assert (∀ vd e,
      ExpedienteViewSet.get_queryset s user !! pk = Some e →
      ExpedienteViewSet._can_transition_expediente user e = true →
      WorkflowTransitionSerializer.is_valid lower
        {| data_expediente := Some e;
           data_hacia_estado := data_hacia_estado request_data;
           data_hacia_departamento := data_hacia_departamento request_data;
           data_usuario := Some (user_id user);
           data_comentarios := data_comentarios request_data;
           data_motivo_rechazo := data_motivo_rechazo request_data;
           data_metadata := data_metadata request_data |} = Ok vd →
      transition s now task_pk user pk request_data
      = Raise (KeyError "usuario")) as Hkey.
  { intros vd e Hvis Hperm Hvalid. unfold ExpedienteViewSet.transition.
    rewrite Hvis, Hperm. simpl. rewrite Hvalid. simpl.
    pose proof (is_valid_without_usuario _ _ Hvalid) as ->.
    unfold WorkflowTransitionSerializer.is_valid in Hvalid. simpl in Hvalid.
    destruct (data_hacia_estado request_data) as [st|] eqn:Hst; [|done].
    by rewrite (create_without_usuario s now _ e st). }
  assert (∃ err, transition s now task_pk user pk request_data = Raise err)
    as [err Herr].
  { destruct (ExpedienteViewSet.get_queryset s user !! pk) as [e|] eqn:Hvis.
    - destruct (ExpedienteViewSet._can_transition_expediente user e)
        eqn:Hperm.
      + destruct (WorkflowTransitionSerializer.is_valid lower
          {| data_expediente := Some e;
             data_hacia_estado := data_hacia_estado request_data;
             data_hacia_departamento := data_hacia_departamento request_data;
             data_usuario := Some (user_id user);
             data_comentarios := data_comentarios request_data;
             data_motivo_rechazo := data_motivo_rechazo request_data;
             data_metadata := data_metadata request_data |})
          as [vd|err] eqn:Hvalid.
        * eexists. by apply (Hkey vd e).
        * exists err. unfold ExpedienteViewSet.transition.
          rewrite Hvis, Hperm. simpl. by rewrite Hvalid.
      + eexists. unfold ExpedienteViewSet.transition.
        by rewrite Hvis, Hperm.
    - eexists. unfold ExpedienteViewSet.transition. by rewrite Hvis. }
  split; [by exists err|]. split; [by rewrite Herr|done].
Qed.
End transition_view.

(** C4 at work: expediente 1 is new and in the first department; a
    superuser asks for its rejection, in the second department, without
    and with a reason. *)
Lemma rejection_with_reason_fails_witness :
  let s := installation expediente_nuevo [] [] in
  let request := transition_data expediente_nuevo st_rechazado dept_tecnico "x" in
  ExpedienteViewSet.transition (λ h, Z.of_N h) ascii_lower s 7 21 superuser 1
    (with_motivo_rechazo request EmptyString)
  = Raise MissingRejectionReason
  ∧ ExpedienteViewSet.transition (λ h, Z.of_N h) ascii_lower s 7 21
      superuser 1
      (with_motivo_rechazo request "Falta el titulo de propiedad")
    = Raise (KeyError "usuario").
Proof.
  intros s request.
  assert (ExpedienteViewSet.get_queryset s superuser !! 1%N
          = Some expediente_nuevo) as Hvis by (by vm_compute).
  assert (ExpedienteViewSet._can_transition_expediente superuser
            expediente_nuevo = true) as Hperm by (by vm_compute).
  assert (data_hacia_estado request = Some st_rechazado) as Hst by done.
  assert (ascii_lower (ws_name st_rechazado) = "rechazado") as Hname
    by (by vm_compute).
  pose proof (rejection_with_reason_fails (λ h, Z.of_N h) ascii_lower s 7 21
                superuser 1 expediente_nuevo st_rechazado request
                Hvis Hperm Hst Hname) as [_ H].
  assert (ws_id (estado_workflow expediente_nuevo) ≠ ws_id st_rechazado)
    as Hne by (by vm_compute).
  assert (ws_is_final st_rechazado = true
          ∨ dept_id (departamento_actual expediente_nuevo)
            ≠ dept_id dept_tecnico) as Hdept by (by right; vm_compute).
  destruct (H dept_tecnico eq_refl Hne Hdept) as [Hempty Hreason].
  split; [exact Hempty|].
  by destruct (Hreason "Falta el titulo de propiedad").
Defined.

(** ** The dependency graph *)

(** The nested function reads the graph through [depende_de_all] only. *)
Lemma check_dependencies_ext (deps deps' : uuid → list uuid) task
    (fuel : nat) v c :
  (∀ x, deps x = deps' x) →
  check_dependencies deps task fuel v c
  = check_dependencies deps' task fuel v c.
Proof.
  intros Hext. revert v c. induction fuel as [|fuel IH]; intros v c; [done|].
  simpl. destruct (decide (c ∈ v)); [done|]. rewrite <- Hext.
  generalize ({[c]} ∪ v). induction (deps c) as [|d l IHl]; intros w; [done|].
  simpl. destruct (decide (d = task)); [done|]. rewrite IH.
  destruct (check_dependencies deps' task fuel w d) as [[[] w']|]; auto.
Qed.

Lemma depende_de_ids_elem s c d :
  d ∈ depende_de_ids s c ↔ (c, d) ∈ tareas_depende_de s.
Proof.
  unfold depende_de_ids. rewrite list_elem_of_fmap. split.
  - intros ([c' d'] & -> & Hin). apply list_elem_of_filter in Hin as [Hc Hin].
    simpl in Hc. by subst.
  - intros Hin. exists (c, d). split; [done|].
    by apply list_elem_of_filter.
Qed.

Lemma depende_de_ids_nodes s c d :
  d ∈ depende_de_ids s c → c ∈ graph_nodes s.
Proof.
  rewrite depende_de_ids_elem. intros Hin. unfold graph_nodes.
  apply elem_of_union_l, elem_of_list_to_set, list_elem_of_fmap.
  by exists (c, d).
Qed.

(** [get_or_create] writes to the table of [TaskDependency] only, and
    afterwards the table has a row for the pair. *)
Lemma get_or_create_dependency_frame s t d ty :
  let s' := TaskViewSet.get_or_create_dependency s t d ty in
  tareas s' = tareas s
  ∧ tareas_depende_de s' = tareas_depende_de s
  ∧ expedientes s' = expedientes s
  ∧ workflow_transiciones s' = workflow_transiciones s
  ∧ notificaciones s' = notificaciones s.
Proof.
  simpl. unfold TaskViewSet.get_or_create_dependency.
  by case_bool_decide.
Qed.

Lemma get_or_create_dependency_row s t d ty :
  ∃ r, r ∈ task_dependencies (TaskViewSet.get_or_create_dependency s t d ty)
       ∧ td_task r = t ∧ td_depends_on r = d.
Proof.
  unfold TaskViewSet.get_or_create_dependency. case_bool_decide as H.
  - apply Exists_exists in H as (r & Hin & ? & ?). eauto.
  - eexists. split; [simpl; apply elem_of_app; right; left|done].
Qed.

Section dependency_graph.
Variable ordering : gmap uuid Task → list uuid → list uuid.
Hypothesis ordering_perm : ∀ m l, ordering m l ≡ₚ l.

Lemma depende_de_all_nodes s c d :
  d ∈ Task.depende_de_all ordering s c → c ∈ graph_nodes s.
Proof.
  unfold Task.depende_de_all. rewrite ordering_perm.
  apply depende_de_ids_nodes.
Qed.

Lemma depende_de_all_nil s c :
  depende_de_ids s c = [] → Task.depende_de_all ordering s c = [].
Proof.
  intros H. unfold Task.depende_de_all. rewrite H.
  apply Permutation_nil_r, ordering_perm.
Qed.

Lemma depende_de_all_singleton s c d :
  depende_de_ids s c = [d] → Task.depende_de_all ordering s c = [d].
Proof.
  intros H. unfold Task.depende_de_all. rewrite H.
  apply Permutation_singleton_r, ordering_perm.
Qed.

(** The cycle check always returns: its fuel is never used up. *)
Lemma would_create_circular_dependency_total s task dependency :
  is_Some (Task.would_create_circular_dependency ordering s task dependency).
Proof.
  unfold Task.would_create_circular_dependency.
  destruct (check_dependencies_enough_fuel (Task.depende_de_all ordering s)
              task (graph_nodes s) (depende_de_all_nodes s)
              (S (size (graph_nodes s))) ∅ dependency) as [r Hr].
  - apply Nat.lt_succ_r, subseteq_size. set_solver.
  - rewrite Hr. by eexists.
Qed.

(** A run of the nested function with any fuel that suffices gives the
    answer of the check. *)
Lemma would_create_circular_dependency_run s task dependency (n : nat) b v :
  check_dependencies (Task.depende_de_all ordering s) task n ∅ dependency
    = Some (b, v) →
  Task.would_create_circular_dependency ordering s task dependency = Some b.
Proof.
  intros Hn.
  destruct (would_create_circular_dependency_total s task dependency)
    as [b' Hb'].
  rewrite Hb'. unfold Task.would_create_circular_dependency in Hb'.
  destruct (check_dependencies _ _ (S _) _ _) as [[b'' v'']|] eqn:E; [|done].
  pose proof (check_dependencies_fuel_agree _ _ _ _ _ _ _ _ Hn E) as Heq.
  by simplify_eq/=.
Qed.

Lemma would_create_circular_dependency_no_deps s task dependency :
  depende_de_ids s dependency = [] →
  Task.would_create_circular_dependency ordering s task dependency
    = Some false.
Proof.
  intros H. apply (would_create_circular_dependency_run _ _ _ 1 false
                     ({[dependency]} ∪ ∅)).
  simpl. rewrite decide_False by set_solver.
  by rewrite depende_de_all_nil.
Qed.

(** The check reads the through table of [depende_de] and the table of
    tasks, nothing else. *)
Lemma would_create_circular_dependency_ext s s' task dependency :
  tareas s' = tareas s → tareas_depende_de s' = tareas_depende_de s →
  Task.would_create_circular_dependency ordering s' task dependency
  = Task.would_create_circular_dependency ordering s task dependency.
Proof.
  intros Ht Hr. unfold Task.would_create_circular_dependency, graph_nodes.
  rewrite Hr. f_equal. apply check_dependencies_ext. intros c.
  unfold Task.depende_de_all, depende_de_ids. by rewrite Ht, Hr.
Qed.
End dependency_graph.

(** ** [add_dependency] *)

Lemma can_be_started_ext s s' t :
  tareas s' = tareas s → tareas_depende_de s' = tareas_depende_de s →
  Task.can_be_started s' t = Task.can_be_started s t.
Proof.
  intros Ht Hr.
  unfold Task.can_be_started, Task.unfinished_dependencies, depende_de_ids,
    Task.estado_in_pendiente_en_progreso.
  destruct s, s'. simpl in *. by subst.
Qed.

Section add_dependency_facts.
Variable ordering : gmap uuid Task → list uuid → list uuid.
Hypothesis ordering_perm : ∀ m l, ordering m l ≡ₚ l.

Abbreviation add_dependency := (TaskViewSet.add_dependency ordering).

(** The call is accepted when the check finds no cycle. *)
Lemma add_dependency_accepted s user task dep ty :
  tareas s !! t_id task = Some task →
  tareas s !! t_id dep = Some dep →
  t_expediente task = t_expediente dep →
  TaskViewSet._can_modify_dependencies user task = true →
  Task.would_create_circular_dependency ordering s (t_id task) (t_id dep)
    = Some false →
  add_dependency s user (t_id task) (Some (t_id dep)) ty
  = Ok ("Dependencia agregada exitosamente",
        TaskViewSet.get_or_create_dependency s (t_id task) (t_id dep)
          (default "finish_to_start" ty)).
Proof.
  intros Ht Hd He Hp Hc.
  unfold TaskViewSet.add_dependency, TaskViewSet.get_object.
  rewrite Ht. simpl. rewrite Hp. simpl. rewrite Hd.
  rewrite bool_decide_eq_false_2 by (by intros ?).
  unfold TaskViewSet._would_create_circular_dependency. by rewrite Hc.
Qed.

(** The call is refused when the check finds a cycle. *)
Lemma add_dependency_refused s user task dep ty :
  tareas s !! t_id task = Some task →
  tareas s !! t_id dep = Some dep →
  t_expediente task = t_expediente dep →
  TaskViewSet._can_modify_dependencies user task = true →
  Task.would_create_circular_dependency ordering s (t_id task) (t_id dep)
    = Some true →
  add_dependency s user (t_id task) (Some (t_id dep)) ty
  = Raise CircularDependency.
Proof.
  intros Ht Hd He Hp Hc.
  unfold TaskViewSet.add_dependency, TaskViewSet.get_object.
  rewrite Ht. simpl. rewrite Hp. simpl. rewrite Hd.
  rewrite bool_decide_eq_false_2 by (by intros ?).
  unfold TaskViewSet._would_create_circular_dependency. by rewrite Hc.
Qed.

(** What a successful call did: one [get_or_create] on the table of
    [TaskDependency]. *)
Lemma add_dependency_ok_inv s user pk depends_on_id ty msg s' :
  add_dependency s user pk depends_on_id ty = Ok (msg, s') →
  ∃ task dep d,
    tareas s !! pk = Some task ∧ depends_on_id = Some d
    ∧ tareas s !! d = Some dep
    ∧ s' = TaskViewSet.get_or_create_dependency s (t_id task) (t_id dep)
             (default "finish_to_start" ty).
Proof.
  unfold TaskViewSet.add_dependency, TaskViewSet.get_object.
  destruct (tareas s !! pk) as [task|]; [|done]. simpl.
  destruct (negb _); [done|].
  destruct depends_on_id as [d|]; [|done].
  destruct (tareas s !! d) as [dep|] eqn:Hdep; [|done].
  case_bool_decide; [done|].
  destruct (TaskViewSet._would_create_circular_dependency _ _ _ _)
    as [[]|]; try done.
  intros Hok. injection Hok as <- <-. by exists task, dep, d.
Qed.

(** C1 (defect): for two tasks A and B of one expediente with no prior
    dependencies, [add_dependency] with (A, B) is accepted, and so is
    [add_dependency] with (B, A) after it: the second call does not fail
    with CircularDependency, and afterwards the row for B depending on A
    is stored.  The first call wrote a [TaskDependency] row; the check of
    the second call reads [depende_de], which no call wrote to. *)
Theorem add_dependency_accepts_reverse s user tA tB ty1 ty2 :
  tareas s !! t_id tA = Some tA →
  tareas s !! t_id tB = Some tB →
  t_expediente tA = t_expediente tB →
  depende_de_ids s (t_id tA) = [] →
  depende_de_ids s (t_id tB) = [] →
  TaskViewSet._can_modify_dependencies user tA = true →
  TaskViewSet._can_modify_dependencies user tB = true →
  ∃ msg1 s1 msg2 s2,
    add_dependency s user (t_id tA) (Some (t_id tB)) ty1 = Ok (msg1, s1)
    ∧ add_dependency s1 user (t_id tB) (Some (t_id tA)) ty2 = Ok (msg2, s2)
    ∧ has_dependency_row s2 (t_id tA) (t_id tB)
    ∧ has_dependency_row s2 (t_id tB) (t_id tA).
Proof.
  intros HA HB He HdA HdB HpA HpB.
  set (s1 := TaskViewSet.get_or_create_dependency s (t_id tA) (t_id tB)
               (default "finish_to_start" ty1)).
  set (s2 := TaskViewSet.get_or_create_dependency s1 (t_id tB) (t_id tA)
               (default "finish_to_start" ty2)).
  destruct (get_or_create_dependency_frame s (t_id tA) (t_id tB)
              (default "finish_to_start" ty1)) as (Ht1 & Hr1 & _).
  fold s1 in Ht1, Hr1.
  exists "Dependencia agregada exitosamente", s1,
         "Dependencia agregada exitosamente", s2.
  split; [|split; [|split]].
  - apply add_dependency_accepted; try done.
    by apply would_create_circular_dependency_no_deps.
  - apply add_dependency_accepted; try done; try (by rewrite Ht1).
    apply would_create_circular_dependency_no_deps; [done|].
    unfold depende_de_ids in *. by rewrite Hr1.
  - destruct (get_or_create_dependency_row s (t_id tA) (t_id tB)
                (default "finish_to_start" ty1)) as (r & Hin & ? & ?).
    exists r. split; [|done]. fold s1 in Hin.
    unfold s2, TaskViewSet.get_or_create_dependency.
    case_bool_decide; [done|]. simpl. apply elem_of_app. by left.
  - apply get_or_create_dependency_row.
Qed.

(** C2 (defect): a successful [add_dependency] of a pair that [depende_de]
    does not hold writes the [TaskDependency] row and leaves [depende_de]
    as it was, so the two relations differ afterwards; the cycle check and
    [can_be_started] answer after the call what they answered before it. *)
Theorem add_dependency_not_observed s user tT tD ty msg s' :
  tareas s !! t_id tT = Some tT →
  tareas s !! t_id tD = Some tD →
  t_id tD ∉ depende_de_ids s (t_id tT) →
  add_dependency s user (t_id tT) (Some (t_id tD)) ty = Ok (msg, s') →
  has_dependency_row s' (t_id tT) (t_id tD)
  ∧ (t_id tD ∉ depende_de_ids s' (t_id tT))
  ∧ ¬ relations_agree s'
  ∧ (∀ task dependency,
       Task.would_create_circular_dependency ordering s' task dependency
       = Task.would_create_circular_dependency ordering s task dependency)
  ∧ (∀ t, Task.can_be_started s' t = Task.can_be_started s t).
Proof.
  intros HT HD Hnew Hok.
  apply add_dependency_ok_inv in Hok as (task & dep & d & Ht & Hd & Hdep & ->).
  injection Hd as <-. rewrite HT in Ht. injection Ht as <-.
  rewrite HD in Hdep. injection Hdep as <-.
  destruct (get_or_create_dependency_frame s (t_id tT) (t_id tD)
              (default "finish_to_start" ty)) as (Ht & Hr & _).
  pose proof (get_or_create_dependency_row s (t_id tT) (t_id tD)
                (default "finish_to_start" ty)) as Hrow.
  assert (t_id tD ∉ depende_de_ids
            (TaskViewSet.get_or_create_dependency s (t_id tT) (t_id tD)
               (default "finish_to_start" ty)) (t_id tT)) as Hnew'.
  { unfold depende_de_ids in *. by rewrite Hr. }
  split; [done|]. split; [done|]. split; [|split].
  - intros Hagree. by apply Hnew', Hagree.
  - intros. by apply would_create_circular_dependency_ext.
  - intros. by apply can_be_started_ext.
Qed.
End add_dependency_facts.

Lemma row_order_perm (m : gmap uuid Task) (l : list uuid) : row_order m l ≡ₚ l.
Proof. reflexivity. Qed.

(** C1 at work: tasks 11 and 12 of expediente 1, a superuser asking. *)
Lemma add_dependency_accepts_reverse_witness :
  ∃ msg1 s1 msg2 s2,
    TaskViewSet.add_dependency row_order dos_tareas superuser 11
      (Some 12%N) None = Ok (msg1, s1)
    ∧ TaskViewSet.add_dependency row_order s1 superuser 12
        (Some 11%N) None = Ok (msg2, s2)
    ∧ has_dependency_row s2 11 12
    ∧ has_dependency_row s2 12 11.
Proof.
  apply (add_dependency_accepts_reverse row_order row_order_perm dos_tareas
           superuser (tarea 11 pendiente) (tarea 12 pendiente) None None);
    by vm_compute.
Defined.

(** The two calls of C1, evaluated: both succeed and the table of
    [TaskDependency] ends with the two rows of a cycle. *)
Example add_dependency_cycle_stored :
  task_dependencies
    (run ascii_lower row_order dos_tareas
       [PostAddDependency superuser 11 (Some 12%N) None;
        PostAddDependency superuser 12 (Some 11%N) None])
  = [ {| td_task := 11; td_depends_on := 12;
         dependency_type := "finish_to_start" |};
      {| td_task := 12; td_depends_on := 11;
         dependency_type := "finish_to_start" |} ].
Proof. by vm_compute. Qed.

(** C2 at work: after task 11 was made to depend on task 12 through
    [add_dependency], the row exists, [depende_de] of task 11 does not hold
    task 12, and task 11 can be started although task 12 is pending. *)
Lemma add_dependency_not_observed_witness :
  ∃ msg s',
    TaskViewSet.add_dependency row_order dos_tareas superuser 11
      (Some 12%N) None = Ok (msg, s')
    ∧ has_dependency_row s' 11 12
    ∧ (12%N ∉ depende_de_ids s' 11)
    ∧ ¬ relations_agree s'
    ∧ Task.can_be_started s' (tarea 11 pendiente) = true.
Proof.
  destruct (TaskViewSet.add_dependency row_order dos_tareas superuser 11
              (Some 12%N) None) as [[msg s']|err] eqn:E;
    [|by vm_compute in E].
  exists msg, s'. split; [done|].
  destruct (add_dependency_not_observed row_order dos_tareas
              superuser (tarea 11 pendiente) (tarea 12 pendiente) None msg s')
    as (Hrow & Hnot & Hdiff & _ & Hstart);
    [by vm_compute|by vm_compute| |exact E|].
  { replace (depende_de_ids _ _) with (@nil N) by (by vm_compute).
    apply not_elem_of_nil. }
  repeat (split; [done|]). rewrite Hstart. by vm_compute.
Defined.

(** ** The diamond built with [add_dependency] *)

(** [get_or_create] keeps the rows of the table. *)
Lemma get_or_create_dependency_keeps s t d ty a b :
  has_dependency_row s a b →
  has_dependency_row (TaskViewSet.get_or_create_dependency s t d ty) a b.
Proof.
  intros (r & Hin & Ha & Hb). exists r. split; [|done].
  unfold TaskViewSet.get_or_create_dependency.
  case_bool_decide; [done|]. simpl. apply elem_of_app. by left.
Qed.

Section diamond_add_dependency.
Variable ordering : gmap uuid Task → list uuid → list uuid.
Hypothesis ordering_perm : ∀ m l, ordering m l ≡ₚ l.

(** While [depende_de] holds no row for the dependency, [add_dependency]
    is accepted, writes the row of [TaskDependency] and nothing to
    [depende_de] or to the tasks. *)
Lemma add_dependency_without_depende_de s user task dep ty :
  tareas s !! t_id task = Some task →
  tareas s !! t_id dep = Some dep →
  t_expediente task = t_expediente dep →
  TaskViewSet._can_modify_dependencies user task = true →
  depende_de_ids s (t_id dep) = [] →
  ∃ s',
    TaskViewSet.add_dependency ordering s user (t_id task)
      (Some (t_id dep)) ty
    = Ok ("Dependencia agregada exitosamente", s')
    ∧ tareas s' = tareas s
    ∧ tareas_depende_de s' = tareas_depende_de s
    ∧ has_dependency_row s' (t_id task) (t_id dep)
    ∧ ∀ a b, has_dependency_row s a b → has_dependency_row s' a b.
Proof.
  intros Ht Hd He Hp Hnil.
  destruct (get_or_create_dependency_frame s (t_id task) (t_id dep)
              (default "finish_to_start" ty)) as (Htar & Hrows & _).
  eexists. split; [|split; [exact Htar|split; [exact Hrows|split]]].
  - apply (add_dependency_accepted ordering); try done.
    by apply would_create_circular_dependency_no_deps.
  - apply get_or_create_dependency_row.
  - intros a b. apply get_or_create_dependency_keeps.
Qed.

(** C7 (defect): four tasks A, B, C, D of one expediente without
    dependencies, a user who may modify the dependencies of each.  The
    four calls of [add_dependency] that build the diamond (B on A, C on A,
    D on B, D on C) succeed, and so does [add_dependency] with (A, D)
    after them: it does not fail with CircularDependency.  Afterwards the
    table of [TaskDependency] holds the rows of the cycle A, D, B, A and of
    the cycle A, D, C, A, and [depende_de], which the check reads, is as
    it was before the first call. *)
Theorem diamond_by_add_dependency_accepts_cycle s user tA tB tC tD ty :
  tareas s !! t_id tA = Some tA →
  tareas s !! t_id tB = Some tB →
  tareas s !! t_id tC = Some tC →
  tareas s !! t_id tD = Some tD →
  t_expediente tB = t_expediente tA →
  t_expediente tC = t_expediente tA →
  t_expediente tD = t_expediente tA →
  depende_de_ids s (t_id tA) = [] →
  depende_de_ids s (t_id tB) = [] →
  depende_de_ids s (t_id tC) = [] →
  depende_de_ids s (t_id tD) = [] →
  TaskViewSet._can_modify_dependencies user tA = true →
  TaskViewSet._can_modify_dependencies user tB = true →
  TaskViewSet._can_modify_dependencies user tC = true →
  TaskViewSet._can_modify_dependencies user tD = true →
  ∃ msg s1 s2 s3 s4 s5,
    TaskViewSet.add_dependency ordering s user (t_id tB) (Some (t_id tA)) ty
      = Ok (msg, s1)
    ∧ TaskViewSet.add_dependency ordering s1 user (t_id tC) (Some (t_id tA)) ty
      = Ok (msg, s2)
    ∧ TaskViewSet.add_dependency ordering s2 user (t_id tD) (Some (t_id tB)) ty
      = Ok (msg, s3)
    ∧ TaskViewSet.add_dependency ordering s3 user (t_id tD) (Some (t_id tC)) ty
      = Ok (msg, s4)
    ∧ TaskViewSet.add_dependency ordering s4 user (t_id tA) (Some (t_id tD)) ty
      = Ok (msg, s5)
    ∧ has_dependency_row s5 (t_id tB) (t_id tA)
    ∧ has_dependency_row s5 (t_id tC) (t_id tA)
    ∧ has_dependency_row s5 (t_id tD) (t_id tB)
    ∧ has_dependency_row s5 (t_id tD) (t_id tC)
    ∧ has_dependency_row s5 (t_id tA) (t_id tD)
    ∧ tareas_depende_de s5 = tareas_depende_de s.
Proof.
  intros HA HB HC HD HeB HeC HeD HdA HdB HdC HdD HpA HpB HpC HpD.
  destruct (add_dependency_without_depende_de s user tB tA ty)
    as (s1 & H1 & Ht1 & Hr1 & Hrow1 & Hk1); try done.
  destruct (add_dependency_without_depende_de s1 user tC tA ty)
    as (s2 & H2 & Ht2 & Hr2 & Hrow2 & Hk2);
    try done; try (by rewrite Ht1);
    try (unfold depende_de_ids in *; by rewrite Hr1).
  destruct (add_dependency_without_depende_de s2 user tD tB ty)
    as (s3 & H3 & Ht3 & Hr3 & Hrow3 & Hk3);
    try (by rewrite Ht2, Ht1); try congruence;
    try (unfold depende_de_ids in *; by rewrite Hr2, Hr1).
  destruct (add_dependency_without_depende_de s3 user tD tC ty)
    as (s4 & H4 & Ht4 & Hr4 & Hrow4 & Hk4);
    try (by rewrite Ht3, Ht2, Ht1); try congruence;
    try (unfold depende_de_ids in *; by rewrite Hr3, Hr2, Hr1).
  destruct (add_dependency_without_depende_de s4 user tA tD ty)
    as (s5 & H5 & Ht5 & Hr5 & Hrow5 & Hk5);
    try (by rewrite Ht4, Ht3, Ht2, Ht1); try congruence;
    try (unfold depende_de_ids in *; by rewrite Hr4, Hr3, Hr2, Hr1).
  exists "Dependencia agregada exitosamente", s1, s2, s3, s4, s5.
  repeat (split; [done|]).
  split; [by apply Hk5, Hk4, Hk3, Hk2|].
  split; [by apply Hk5, Hk4, Hk3|].
  split; [by apply Hk5, Hk4|].
  split; [by apply Hk5|].
  split; [done|]. by rewrite Hr5, Hr4, Hr3, Hr2, Hr1.
Qed.
End diamond_add_dependency.

(** C7 at work: the tasks 11 (A), 12 (B), 13 (C) and 14 (D) of
    expediente 1, a superuser asking. *)
Lemma diamond_by_add_dependency_accepts_cycle_witness :
  ∃ msg s1 s2 s3 s4 s5,
    TaskViewSet.add_dependency row_order cuatro_tareas superuser 12
      (Some 11%N) None = Ok (msg, s1)
    ∧ TaskViewSet.add_dependency row_order s1 superuser 13
        (Some 11%N) None = Ok (msg, s2)
    ∧ TaskViewSet.add_dependency row_order s2 superuser 14
        (Some 12%N) None = Ok (msg, s3)
    ∧ TaskViewSet.add_dependency row_order s3 superuser 14
        (Some 13%N) None = Ok (msg, s4)
    ∧ TaskViewSet.add_dependency row_order s4 superuser 11
        (Some 14%N) None = Ok (msg, s5)
    ∧ has_dependency_row s5 12 11
    ∧ has_dependency_row s5 13 11
    ∧ has_dependency_row s5 14 12
    ∧ has_dependency_row s5 14 13
    ∧ has_dependency_row s5 11 14
    ∧ tareas_depende_de s5 = tareas_depende_de cuatro_tareas.
Proof.
  apply (diamond_by_add_dependency_accepts_cycle row_order row_order_perm
           cuatro_tareas superuser (tarea 11 pendiente) (tarea 12 pendiente)
           (tarea 13 pendiente) (tarea 14 pendiente) None);
    by vm_compute.
Defined.

(** The five calls of C7, evaluated: the table of [TaskDependency] ends
    with the five rows and [depende_de] is empty. *)
Example diamond_cycle_stored :
  let s5 :=
    run ascii_lower row_order cuatro_tareas
      [PostAddDependency superuser 12 (Some 11%N) None;
       PostAddDependency superuser 13 (Some 11%N) None;
       PostAddDependency superuser 14 (Some 12%N) None;
       PostAddDependency superuser 14 (Some 13%N) None;
       PostAddDependency superuser 11 (Some 14%N) None] in
  dependency_pairs s5 = [(12, 11); (13, 11); (14, 12); (14, 13); (11, 14)]%N
  ∧ tareas_depende_de s5 = [].
Proof. by vm_compute. Qed.

(** ** Completing a task *)

(** [_check_dependent_tasks] writes notifications only. *)
Lemma notify_if_startable_frame s pk :
  let s' := TaskViewSet.notify_if_startable s pk in
  tareas s' = tareas s
  ∧ tareas_depende_de s' = tareas_depende_de s
  ∧ expedientes s' = expedientes s
  ∧ workflow_transiciones s' = workflow_transiciones s
  ∧ workflow_estados s' = workflow_estados s
  ∧ task_dependencies s' = task_dependencies s.
Proof.
  simpl. unfold TaskViewSet.notify_if_startable.
  destruct (tareas s !! pk) as [t|]; [|done].
  destruct (_ && _); [|done]. by destruct (usuario_asignado t).
Qed.

Lemma check_dependent_tasks_frame ordering s t :
  let s' := TaskViewSet._check_dependent_tasks ordering s t in
  tareas s' = tareas s
  ∧ tareas_depende_de s' = tareas_depende_de s
  ∧ expedientes s' = expedientes s
  ∧ workflow_transiciones s' = workflow_transiciones s
  ∧ workflow_estados s' = workflow_estados s
  ∧ task_dependencies s' = task_dependencies s.
Proof.
  simpl. unfold TaskViewSet._check_dependent_tasks.
  generalize (Task.dependientes_all ordering s (t_id t)). intros l.
  revert s. induction l as [|pk l IH]; intros s; [done|]. simpl.
  destruct (IH (TaskViewSet.notify_if_startable s pk))
    as (-> & -> & -> & -> & -> & ->).
  apply notify_if_startable_frame.
Qed.

(** What the automatic advance does when it fires: one transition record
    to a state of least order above the current one, from and to the
    current department, in the name of the creator, with the fixed
    comment; the expediente gets the new workflow state, and its status
    and completion time stay as they were. *)
Lemma check_expediente_completion_advances s now e :
  size (TaskViewSet.pending_tasks s e) = 0%nat →
  ws_is_final (estado_workflow e) = false →
  (∃ st, st ∈ workflow_estados s
         ∧ (ws_order (estado_workflow e) < ws_order st)%N) →
  ∃ next,
    next ∈ workflow_estados s
    ∧ (ws_order (estado_workflow e) < ws_order next)%N
    ∧ (∀ st, st ∈ workflow_estados s →
             (ws_order (estado_workflow e) < ws_order st)%N →
             (ws_order next ≤ ws_order st)%N)
    ∧ TaskViewSet._check_expediente_completion s now e
      = save_expediente
          (create_transition s
             {| wt_expediente := exp_id e;
                desde_estado := Some (estado_workflow e);
                hacia_estado := next;
                desde_departamento := Some (departamento_actual e);
                hacia_departamento := departamento_actual e;
                wt_usuario := creado_por e;
                comentarios :=
                  "Transición automática: Todas las tareas completadas";
                motivo_rechazo := EmptyString;
                wt_metadata := "{}";
                wt_created_at := now |})
          (set_estado_workflow e next).
Proof.
  intros Hnone Hfinal (st & Hst & Hlt).
  unfold TaskViewSet._check_expediente_completion.
  rewrite bool_decide_eq_true_2 by done. rewrite Hfinal. simpl.
  destruct (head _) as [next|] eqn:Hhd.
  - apply order_by_head_least in Hhd as [Hin Hleast].
    apply list_elem_of_filter in Hin as [Hgt Hin].
    exists next. repeat (split; [done|]). split; [|done].
    intros st' Hst' Hlt'. apply Hleast. by apply list_elem_of_filter.
  - apply order_by_head_None in Hhd.
    assert (st ∈ filter (λ st, (ws_order (estado_workflow e) < ws_order st)%N)
                   (workflow_estados s)) as Hin
      by (by apply list_elem_of_filter).
    rewrite Hhd in Hin. by apply elem_of_nil in Hin.
Qed.

(** X13: Completing the last unfinished task of an expediente whose state is
    not final and has a state above it: the call succeeds, exactly one
    transition record is added, as [check_expediente_completion_advances]
    describes it, and the stored expediente has the new workflow state,
    its department, status and completion time as before. *)
Lemma complete_advances ordering s now user task resultado e :
  tareas s !! t_id task = Some task →
  TaskViewSet._can_complete_task user task = true →
  expedientes s !! t_expediente task = Some e →
  exp_id e = t_expediente task →
  (∀ k t, tareas s !! k = Some t → k ≠ t_id task →
          t_expediente t = exp_id e →
          estado t ≠ pendiente ∧ estado t ≠ en_progreso) →
  ws_is_final (estado_workflow e) = false →
  (∃ st, st ∈ workflow_estados s
         ∧ (ws_order (estado_workflow e) < ws_order st)%N) →
  ∃ task' s' next tr,
    TaskViewSet.complete ordering s now user (t_id task) resultado
      = Ok (task', s')
    ∧ workflow_transiciones s' = (workflow_transiciones s ++ [tr])%list
    ∧ next ∈ workflow_estados s
    ∧ (ws_order (estado_workflow e) < ws_order next)%N
    ∧ (∀ st, st ∈ workflow_estados s →
             (ws_order (estado_workflow e) < ws_order st)%N →
             (ws_order next ≤ ws_order st)%N)
    ∧ desde_estado tr = Some (estado_workflow e)
    ∧ hacia_estado tr = next
    ∧ desde_departamento tr = Some (departamento_actual e)
    ∧ hacia_departamento tr = departamento_actual e
    ∧ wt_usuario tr = creado_por e
    ∧ comentarios tr = "Transición automática: Todas las tareas completadas"
    ∧ ∃ e', expedientes s' !! exp_id e = Some e'
        ∧ estado_workflow e' = next
        ∧ departamento_actual e' = departamento_actual e
        ∧ estado_actual e' = estado_actual e
        ∧ fecha_completado e' = fecha_completado e.
Proof.
  intros Hlook Hperm He Hid Hlast Hfinal Hnext.
  unfold TaskViewSet.complete, TaskViewSet.get_object.
  rewrite Hlook. simpl. rewrite Hperm. simpl.
  match goal with
  | |- context [TaskViewSet._check_dependent_tasks ordering ?s1 ?t1] =>
      destruct (check_dependent_tasks_frame ordering s1 t1)
        as (Htar & _ & Hexp & Htr & Hest & _);
      set (task' := t1) in *
  end.
  set (s2 := TaskViewSet._check_dependent_tasks ordering (save_task s task')
               task') in *.
  change (expedientes s2 = expedientes s) in Hexp.
  change (workflow_transiciones s2 = workflow_transiciones s) in Htr.
  change (workflow_estados s2 = workflow_estados s) in Hest.
  change (tareas s2 = <[t_id task := task']> (tareas s)) in Htar.
  change (t_expediente task') with (t_expediente task).
  rewrite Hexp, He.
  assert (size (TaskViewSet.pending_tasks s2 e) = 0%nat) as Hnone.
  { apply map_size_empty_iff, map_empty_filter_2.
    rewrite Htar. intros k t Hk [Hexp' Hin]. simpl in *.
    destruct (decide (t_id task = k)) as [<-|Hne].
    - rewrite lookup_insert_eq in Hk. injection Hk as <-. simpl in Hin.
      set_solver.
    - rewrite lookup_insert_ne in Hk by done.
      destruct (Hlast k t Hk (not_eq_sym Hne) Hexp') as [? ?]. set_solver. }
  destruct (check_expediente_completion_advances s2 now e Hnone Hfinal)
    as (next & Hin & Hlt & Hleast & ->).
  { by rewrite Hest. }
  rewrite Hest in Hin, Hleast.
  eexists task', _, next, _. split; [reflexivity|].
  split; [simpl; by rewrite Htr|].
  repeat (split; [done|]).
  exists (set_estado_workflow e next). split; [|done].
  unfold save_expediente. simpl. apply lookup_insert_eq.
Qed.

(** C5 (defect): expediente 1 is in the state En Revisión Legal with the
    status en_revision, and its only unfinished task is task 11.
    Completing task 11 adds exactly one transition record, to the next
    state by order (Completado), from and to the current department, in
    the name of the creator (user 1), with the fixed comment, and the
    expediente points to Completado.  The status and the completion time
    are not derived: they stay en_revision and unset, whereas [create] of
    the transition path, for the same new state, sets the status
    completado and stamps the completion time. *)
Theorem auto_advance_skips_status :
  let e := expediente_en st_revision en_revision None in
  let s := installation e [tarea 11 en_progreso] [] in
  (∃ task' s',
     TaskViewSet.complete row_order s 9 superuser 11 None = Ok (task', s')
     ∧ workflow_transiciones s'
       = [ {| wt_expediente := 1;
              desde_estado := Some st_revision;
              hacia_estado := st_completado;
              desde_departamento := Some dept_juridico;
              hacia_departamento := dept_juridico;
              wt_usuario := 1;
              comentarios :=
                "Transición automática: Todas las tareas completadas";
              motivo_rechazo := EmptyString;
              wt_metadata := "{}";
              wt_created_at := 9 |} ]
     ∧ expedientes s' !! 1%N
       = Some (expediente_en st_completado en_revision None))
  ∧ (∃ tr s',
       WorkflowTransitionSerializer.create ascii_lower s 9
         (transition_data e st_completado dept_juridico EmptyString)
       = Ok (tr, s')
       ∧ expedientes s' !! 1%N
         = Some (expediente_en st_completado completado (Some 9%Z))).
Proof.
  split.
  - eexists _, _. split; [by vm_compute|]. by vm_compute.
  - eexists _, _. split; [by vm_compute|]. by vm_compute.
Qed.

(** ** The completion time of an expediente *)

Lemma check_expediente_completion_cases s now e :
  TaskViewSet._check_expediente_completion s now e = s
  ∨ ∃ next tr,
      TaskViewSet._check_expediente_completion s now e
      = save_expediente (create_transition s tr) (set_estado_workflow e next).
Proof.
  unfold TaskViewSet._check_expediente_completion.
  case_bool_decide; [|by left].
  destruct (negb _); [|by left].
  destruct (head _) as [next|]; [|by left].
  right. by eexists _, _.
Qed.

(** The generic update writes the task and its [depende_de] rows. *)
Lemma task_update_frame s now instance data :
  let s' := (TaskSerializer.update s now instance data).2 in
  expedientes s' = expedientes s
  ∧ workflow_transiciones s' = workflow_transiciones s
  ∧ notificaciones s' = notificaciones s
  ∧ task_dependencies s' = task_dependencies s.
Proof.
  simpl. unfold TaskSerializer.update. simpl.
  by destruct (vd_depende_de data).
Qed.

(** The automatic advance writes the state pointer of the expediente it
    is given; status and completion time of every stored expediente are
    those it had, or those of the instance. *)
Lemma check_expediente_completion_keeps s now e k e' :
  expedientes (TaskViewSet._check_expediente_completion s now e) !! k
    = Some e' →
  expedientes s !! k = Some e'
  ∨ (k = exp_id e
     ∧ estado_actual e' = estado_actual e
     ∧ fecha_completado e' = fecha_completado e).
Proof.
  destruct (check_expediente_completion_cases s now e)
    as [->|(next & tr & ->)]; [by left|].
  unfold save_expediente. simpl.
  destruct (decide (k = exp_id e)) as [->|Hne].
  - rewrite lookup_insert_eq. intros [= <-]. by right.
  - rewrite lookup_insert_ne by done. by left.
Qed.

(** When a state of order 1 and an active department exist, the primary
    key is new and the number is not taken, the creation succeeds. *)
Lemma expediente_create_succeeds s now pk vd :
  (∃ st, st ∈ workflow_estados s ∧ ws_order st = 1%N) →
  (∃ d, d ∈ departamentos s ∧ dept_is_active d = true) →
  expedientes s !! pk = None →
  (∀ k e0, expedientes s !! k = Some e0 →
           numero_expediente e0 ≠ ed_numero_expediente vd) →
  ∃ e,
    ExpedienteSerializer.create s now pk vd = Ok (e, save_expediente s e)
    ∧ exp_id e = pk
    ∧ estado_actual e = default iniciado (ed_estado_actual vd)
    ∧ fecha_completado e = ed_fecha_completado vd.
Proof.
  intros (st & Hst & Hone) (d & Hd & Hact) Hpk Hnum.
  unfold ExpedienteSerializer.create.
  destruct (head (order_by ws_order _)) as [st'|] eqn:Hhead; cycle 1.
  { apply order_by_head_None in Hhead.
    assert (st ∈ filter (λ st, ws_order st = 1%N) (workflow_estados s))
      as Hin by (by apply list_elem_of_filter).
    rewrite Hhead in Hin. by apply not_elem_of_nil in Hin. }
  destruct (head (order_by dept_workflow_order _)) as [d'|] eqn:Hdhead;
    cycle 1.
  { apply order_by_head_None in Hdhead.
    assert (d ∈ filter (λ d, dept_is_active d = true) (departamentos s))
      as Hin by (by apply list_elem_of_filter).
    rewrite Hdhead in Hin. by apply not_elem_of_nil in Hin. }
  rewrite bool_decide_eq_false_2 by (rewrite Hpk; by intros [? ?]).
  rewrite bool_decide_eq_false_2
    by (intros (k & e0 & Hk & Heq); by apply (Hnum k e0)).
  simpl. by eexists.
Qed.

(** C9 (defect): the creation of an expediente stores the status and the
    completion time the request gives.  On a store with a state of order 1
    and an active department, under a new primary key and a number that is
    not taken, the creation succeeds; a request with the status completado
    and no completion time stores an expediente that is completado without
    a completion time, and a request with a completion time and another
    status (or none, which is iniciado) stores an expediente with a
    completion time that is not completado.  In both cases the completion
    time is not set exactly when the status is completado.  The automatic
    advance after the completion of a task does not restore it: it leaves
    the status and the completion time of every expediente as they are.
    Nor do the lines of [create] that derive the status from the name of
    the new state clear a completion time: for a name other than
    completado they set another status and leave the time; these lines run
    only when the acting user was passed to [save], which the view
    [transition] does not do. *)
Theorem creation_stores_completed_without_time s now pk vd :
  (∃ st, st ∈ workflow_estados s ∧ ws_order st = 1%N) →
  (∃ d, d ∈ departamentos s ∧ dept_is_active d = true) →
  expedientes s !! pk = None →
  (∀ k e0, expedientes s !! k = Some e0 →
           numero_expediente e0 ≠ ed_numero_expediente vd) →
  (∃ e s',
     ExpedienteSerializer.create s now pk vd = Ok (e, s')
     ∧ expedientes s' !! pk = Some e
     ∧ estado_actual e = default iniciado (ed_estado_actual vd)
     ∧ fecha_completado e = ed_fecha_completado vd
     ∧ (ed_estado_actual vd = Some completado →
        ed_fecha_completado vd = None →
        ¬ timestamp_iff_completed s')
     ∧ (ed_estado_actual vd ≠ Some completado →
        is_Some (ed_fecha_completado vd) →
        ¬ timestamp_iff_completed s'))
  ∧ (∀ s0 now0 e0 k e',
       expedientes (TaskViewSet._check_expediente_completion s0 now0 e0) !! k
         = Some e' →
       expedientes s0 !! k = Some e'
       ∨ (k = exp_id e0
          ∧ estado_actual e' = estado_actual e0
          ∧ fecha_completado e' = fecha_completado e0))
  ∧ (∀ lower now0 e0 st,
       let e' := WorkflowTransitionSerializer.update_status lower now0 e0 st in
       (lower (ws_name st) = "completado" →
        estado_actual e' = completado ∧ fecha_completado e' = Some now0)
       ∧ (lower (ws_name st) ≠ "completado" →
          estado_actual e' ≠ completado
          ∧ fecha_completado e' = fecha_completado e0)).
Proof.
  intros Hst Hd Hpk Hnum. split; [|split].
  - destruct (expediente_create_succeeds s now pk vd Hst Hd Hpk Hnum)
      as (e & Hc & Hid & Hstatus & Htime).
    assert (expedientes (save_expediente s e) !! pk = Some e) as Hstored.
    { unfold save_expediente. simpl. rewrite Hid. apply lookup_insert_eq. }
    exists e, (save_expediente s e). split_and!; try done.
    + intros Hcompleted Hnone Hinv.
      apply Hinv in Hstored. simpl in Hstored.
      rewrite Hstatus, Htime, Hcompleted, Hnone in Hstored. simpl in Hstored.
      destruct (proj2 Hstored eq_refl) as [x Hx]. discriminate Hx.
    + intros Hother Hsome Hinv.
      apply Hinv in Hstored. simpl in Hstored.
      rewrite Hstatus, Htime in Hstored.
      apply Hother. apply Hstored in Hsome.
      destruct (ed_estado_actual vd); simpl in Hsome; [by f_equal|done].
  - apply check_expediente_completion_keeps.
  - intros lower now0 e0 st. simpl.
    unfold WorkflowTransitionSerializer.update_status.
    split; intros Hname.
    + by rewrite bool_decide_eq_true_2.
    + rewrite bool_decide_eq_false_2 by done.
      repeat case_bool_decide; try destruct (str_contains _ _); done.
Qed.

(** C9 at work: on the installation with expediente 1, a second
    expediente is created with the status completado and no completion
    time. *)
Lemma creation_stores_completed_without_time_witness :
  let s := installation expediente_nuevo [] [] in
  let vd := {| ed_numero_expediente := "EXP-002";
               ed_estado_actual := Some completado;
               ed_fecha_completado := None; ed_creado_por := 1 |} in
  timestamp_iff_completed s
  ∧ ∃ e s',
      ExpedienteSerializer.create s 7 2 vd = Ok (e, s')
      ∧ expedientes s' !! 2%N = Some e
      ∧ estado_actual e = completado
      ∧ fecha_completado e = None
      ∧ ¬ timestamp_iff_completed s'.
Proof.
  intros s vd. split.
  { apply map_Forall_singleton. split; [by intros [? ?]|done]. }
  assert (∃ st, st ∈ workflow_estados s ∧ ws_order st = 1%N) as Hst.
  { exists st_inicio. split; [left|done]. }
  assert (∃ d, d ∈ departamentos s ∧ dept_is_active d = true) as Hd.
  { exists dept_juridico. split; [left|done]. }
  assert (expedientes s !! 2%N = None) as Hpk by (by vm_compute).
  assert (∀ k e0, expedientes s !! k = Some e0 →
                  numero_expediente e0 ≠ ed_numero_expediente vd) as Hnum.
  { intros k e0 Hk. unfold s, installation in Hk. simpl in Hk.
    apply lookup_singleton_Some in Hk as [_ <-]. by vm_compute. }
  destruct (creation_stores_completed_without_time s 7 2 vd Hst Hd Hpk Hnum)
    as ((e & s' & Hc & Hstored & Hstatus & Htime & Hbreaks & _) & _).
  exists e, s'. split_and!; try done. by apply Hbreaks.
Defined.

(** ** The generic update of a task *)

(** The field validators accept or refuse; they do not change the data. *)
Lemma is_valid_ok ordering s now instance data vd :
  TaskSerializer.is_valid ordering s now instance data = Ok vd → vd = data.
Proof.
  unfold TaskSerializer.is_valid.
  destruct (from_option _ _ (vd_usuario_asignado data)); [simpl|done].
  destruct (from_option _ _ (vd_fecha_vencimiento data)); [simpl|done].
  destruct (from_option _ _ (vd_depende_de data)); [simpl|done].
  by intros [= <-].
Qed.

(** C10: a generic update that sets the status of a task that is not yet
    completed to completada stores the task with that status and with the
    completion time stamped; the result text is the default when the
    request gives none (or an empty one) and the given text otherwise; no
    notification is created, no transition is recorded and no expediente
    changes. *)
Theorem generic_update_has_no_cascade ordering s now task data task' s' :
  tareas s !! t_id task = Some task →
  estado task ≠ completada →
  vd_estado data = Some completada →
  TaskViewSet.partial_update ordering s now (t_id task) data = Ok (task', s') →
  tareas s' !! t_id task = Some task'
  ∧ estado task' = completada
  ∧ fecha_completacion task' = Some now
  ∧ (vd_resultado data = None ∨ vd_resultado data = Some EmptyString →
     resultado task' = "Tarea completada automáticamente")
  ∧ (∀ r, vd_resultado data = Some r → r ≠ EmptyString → resultado task' = r)
  ∧ notificaciones s' = notificaciones s
  ∧ workflow_transiciones s' = workflow_transiciones s
  ∧ expedientes s' = expedientes s.
Proof.
  intros Hlook Hne Hest Hup.
  unfold TaskViewSet.partial_update, TaskViewSet.get_object in Hup.
  rewrite Hlook in Hup. simpl in Hup. unfold TaskSerializer.save in Hup.
  destruct (TaskSerializer.is_valid _ _ _ _ _) as [vd|] eqn:Ev; [|done].
  apply is_valid_ok in Ev as ->.
  simpl in Hup. unfold TaskSerializer.update in Hup.
  rewrite Hest in Hup.
  rewrite (bool_decide_eq_true_2 (Some completada = Some completada) eq_refl),
    (bool_decide_eq_true_2 _ Hne),
    (bool_decide_eq_false_2 (Some completada = Some cancelada)) in Hup
    by discriminate.
  simpl in Hup. injection Hup as <- <-. simpl.
  split.
  { destruct (vd_depende_de data); simpl; apply lookup_insert_eq. }
  repeat (split; [done|]). split; [|split].
  - by intros [->| ->].
  - intros r -> Hr. simpl. by rewrite bool_decide_eq_false_2.
  - by destruct (vd_depende_de data).
Qed.

(** C10 at work: task 11, on which the pending task 12 depends, is set to
    completada through the generic update. *)
Lemma generic_update_has_no_cascade_witness :
  ∃ task' s',
    TaskViewSet.partial_update row_order tarea_y_dependiente 9 11
      (only_estado completada None) = Ok (task', s')
    ∧ fecha_completacion task' = Some 9%Z
    ∧ resultado task' = "Tarea completada automáticamente"
    ∧ notificaciones s' = []
    ∧ workflow_transiciones s' = [].
Proof.
  destruct (TaskViewSet.partial_update row_order tarea_y_dependiente 9 11
              (only_estado completada None)) as [[task' s']|err] eqn:E;
    [|by vm_compute in E].
  exists task', s'. split; [done|].
  destruct (generic_update_has_no_cascade row_order tarea_y_dependiente 9
              (tarea 11 en_progreso) (only_estado completada None) task' s')
    as (_ & _ & Htime & Hres & _ & Hnot & Htr & _);
    [by vm_compute|discriminate|reflexivity|exact E|].
  split; [done|]. split; [apply Hres; by left|]. by split.
Defined.

(** The dedicated operation on the same stores, for comparison: it
    notifies the assignee of task 12, and with task 11 as the only task it
    records the automatic transition. *)
Example complete_cascades :
  (∃ task' s',
     TaskViewSet.complete row_order tarea_y_dependiente 9 superuser 11 None
     = Ok (task', s')
     ∧ notificaciones s'
       = [ {| n_user := 2; n_expediente := Some 1%N;
              n_type := "task_assigned"; n_title := "Tarea Disponible";
              n_message :=
                "La tarea " +:+ dquote +:+ "Revisar" +:+ dquote
                +:+ " ya puede ser iniciada ya que se completaron sus dependencias" |} ])
  ∧ (∃ task' s',
       TaskViewSet.complete row_order una_tarea 9 superuser 11 None
       = Ok (task', s')
       ∧ length (workflow_transiciones s') = 1%nat)
  ∧ (∃ task' s',
       TaskViewSet.partial_update row_order una_tarea 9 11
         (only_estado completada None) = Ok (task', s')
       ∧ length (workflow_transiciones s') = 0%nat).
Proof.
  split; [|split]; eexists _, _; (split; [by vm_compute|by vm_compute]).
Qed.

(** ** Writing [depende_de] through the update of a task *)

Lemma filter_none {A} (P : A → Prop) `{∀ x, Decision (P x)} (l : list A) :
  Forall (λ x, ¬ P x) l → filter P l = [].
Proof.
  induction 1 as [|x l Hx _ IH]; [done|].
  by rewrite filter_cons_False.
Qed.

Lemma filter_all {A} (P : A → Prop) `{∀ x, Decision (P x)} (l : list A) :
  Forall P l → filter P l = l.
Proof.
  induction 1 as [|x l Hx _ IH]; [done|].
  rewrite filter_cons_True by done. by rewrite IH.
Qed.

Lemma filter_nil_filter {A} (P Q : A → Prop) `{∀ x, Decision (P x)}
    `{∀ x, Decision (Q x)} (l : list A) :
  filter P l = [] → filter P (filter Q l) = [].
Proof.
  intros Hnil. apply filter_none, Forall_forall. intros x Hx HP.
  apply list_elem_of_filter in Hx as [_ Hx].
  by apply (filter_nil_not_elem_of P l x).
Qed.

(** [set] leaves the rows of the other tasks. *)
Lemma depende_de_set_other s pk value pk' :
  pk' ≠ pk →
  depende_de_ids (depende_de_set s pk value) pk' = depende_de_ids s pk'.
Proof.
  intros Hne. unfold depende_de_ids, depende_de_set. simpl.
  rewrite filter_app, fmap_app.
  rewrite list_filter_filter_l by (intros [a b]; simpl; intros ->; by left).
  rewrite (filter_none _ (_ <$> _)); [by rewrite app_nil_r|].
  apply Forall_fmap, Forall_forall. intros d _. simpl. congruence.
Qed.

(** On a task without dependencies [set] stores the given tasks, each
    once. *)
Lemma depende_de_set_self s pk value :
  depende_de_ids s pk = [] →
  depende_de_ids (depende_de_set s pk value) pk = remove_dups value.
Proof.
  intros Hnil. unfold depende_de_set. rewrite Hnil.
  unfold depende_de_ids in *. simpl.
  apply fmap_nil_inv in Hnil.
  rewrite filter_app, fmap_app, filter_nil_filter by done. simpl.
  rewrite (filter_all _ (_ <$> _))
    by (apply Forall_fmap, Forall_forall; by intros).
  rewrite <- list_fmap_compose.
  rewrite (filter_all (λ d, d ∉ [])) by (apply Forall_forall; intros; set_solver).
  clear. induction (remove_dups value) as [|x l IH]; [done|].
  rewrite fmap_cons. by f_equal.
Qed.

Lemma depende_de_set_tareas s pk value :
  tareas (depende_de_set s pk value) = tareas s.
Proof. done. Qed.

Lemma save_task_stored s t :
  tareas s !! t_id t = Some t → save_task s t = s.
Proof.
  intros H. unfold save_task, with_tareas. rewrite insert_id by done.
  by destruct s.
Qed.

(** A request that gives only [depende_de] and passes its validation
    leaves the task as it is and sets its rows. *)
Lemma partial_update_only_depende_de ordering s now t value :
  tareas s !! t_id t = Some t →
  TaskSerializer.check_each_dependency ordering s t value = Ok () →
  TaskViewSet.partial_update ordering s now (t_id t) (only_depende_de value)
  = Ok (t, depende_de_set s (t_id t) (map t_id value)).
Proof.
  intros Hlook Hcheck.
  unfold TaskViewSet.partial_update, TaskViewSet.get_object.
  rewrite Hlook. simpl.
  unfold TaskSerializer.save, TaskSerializer.is_valid. simpl.
  unfold TaskSerializer.validate_depende_de. rewrite Hcheck. simpl.
  unfold TaskSerializer.update. simpl.
  assert ({| t_id := t_id t; t_expediente := t_expediente t;
             t_departamento := t_departamento t;
             usuario_asignado := usuario_asignado t; titulo := titulo t;
             descripcion := descripcion t; tipo := tipo t;
             prioridad := prioridad t; estado := estado t;
             fecha_vencimiento := fecha_vencimiento t;
             fecha_completacion := fecha_completacion t;
             resultado := resultado t |} = t) as -> by (by destruct t).
  by rewrite save_task_stored.
Qed.

(** ** The diamond *)

Lemma check_dependencies_leaf deps task (n : nat) v c :
  deps c = [] → c ∉ v →
  check_dependencies deps task (S n) v c = Some (false, {[c]} ∪ v).
Proof. intros Hd Hc. simpl. by rewrite decide_False, Hd. Qed.

Lemma check_dependencies_hit deps task (n : nat) v c l :
  deps c = task :: l → c ∉ v →
  check_dependencies deps task (S n) v c = Some (true, {[c]} ∪ v).
Proof.
  intros Hd Hc. simpl. rewrite decide_False, Hd by done. simpl.
  by rewrite decide_True.
Qed.

Lemma check_dependencies_unfold deps task (n : nat) v c :
  check_dependencies deps task (S n) v c
  = if decide (c ∈ v) then Some (true, v)
    else for_each_dep task (check_dependencies deps task n)
           ({[c]} ∪ v) (deps c).
Proof. done. Qed.

Lemma for_each_dep_cons task chk v d rest :
  for_each_dep task chk v (d :: rest)
  = if decide (d = task) then Some (true, v)
    else match chk v d with
         | None => None
         | Some (true, v') => Some (true, v')
         | Some (false, v') => for_each_dep task chk v' rest
         end.
Proof. done. Qed.

Section diamond.
Variable ordering : gmap uuid Task → list uuid → list uuid.
Hypothesis ordering_perm : ∀ m l, ordering m l ≡ₚ l.

(** A dependency whose only dependency has none: no cycle is reported. *)
Lemma would_create_over_one_edge s task dep d :
  depende_de_ids s dep = [d] → depende_de_ids s d = [] →
  d ≠ task → d ≠ dep →
  Task.would_create_circular_dependency ordering s task dep = Some false.
Proof.
  intros Hdep Hd Hne1 Hne2.
  apply (would_create_circular_dependency_run ordering ordering_perm
           _ _ _ 2 false ({[d]} ∪ ({[dep]} ∪ ∅))).
  rewrite check_dependencies_unfold, decide_False by set_solver.
  rewrite (depende_de_all_singleton ordering ordering_perm _ _ _ Hdep).
  rewrite for_each_dep_cons, decide_False by done.
  rewrite (check_dependencies_leaf _ _ 0); [done| |set_solver].
  by apply depende_de_all_nil.
Qed.

(** A dependency with two dependencies that both depend on the task: the
    cycle is reported, whichever of the two the query returns first. *)
Lemma would_create_through_diamond s task dep b c :
  depende_de_ids s dep = [b; c] →
  depende_de_ids s b = [task] → depende_de_ids s c = [task] →
  b ≠ task → c ≠ task → b ≠ dep → c ≠ dep →
  Task.would_create_circular_dependency ordering s task dep = Some true.
Proof.
  intros Hdep Hb Hc Hbt Hct Hbd Hcd.
  assert (∀ x, x ≠ dep → depende_de_ids s x = [task] →
            check_dependencies (Task.depende_de_all ordering s) task 1
              ({[dep]} ∪ ∅) x = Some (true, {[x]} ∪ ({[dep]} ∪ ∅))) as Hhit.
  { intros x Hx Hdeps. apply (check_dependencies_hit _ _ _ _ _ []).
    - by apply depende_de_all_singleton.
    - set_solver. }
  assert (Task.depende_de_all ordering s dep = [b; c]
          ∨ Task.depende_de_all ordering s dep = [c; b]) as [Hord|Hord].
  { unfold Task.depende_de_all. rewrite Hdep.
    apply Permutation_length_2_inv. symmetry. apply ordering_perm. }
  - apply (would_create_circular_dependency_run ordering ordering_perm
             _ _ _ 2 true ({[b]} ∪ ({[dep]} ∪ ∅))).
    rewrite check_dependencies_unfold, decide_False by set_solver.
    rewrite Hord, for_each_dep_cons, decide_False by done.
    by rewrite (Hhit b Hbd Hb).
  - apply (would_create_circular_dependency_run ordering ordering_perm
             _ _ _ 2 true ({[c]} ∪ ({[dep]} ∪ ∅))).
    rewrite check_dependencies_unfold, decide_False by set_solver.
    rewrite Hord, for_each_dep_cons, decide_False by done.
    by rewrite (Hhit c Hcd Hc).
Qed.
(** X28: four tasks A, B, C, D without dependencies, A and D in one
    expediente.  Making B depend on A, C depend on A and D depend on B
    and C, each through the update of the task's [depende_de], succeeds
    at every step and stores the diamond.  After that [add_dependency]
    with (A, D) fails with CircularDependency: A is not a direct
    dependency of D, the check finds it behind B or C, whichever the query
    returns first.  On the store with the diamond the check returns an
    answer for every pair of tasks. *)
Theorem diamond_then_cycle_refused s now1 now2 now3 user tA tB tC tD ty :
  tareas s !! t_id tA = Some tA →
  tareas s !! t_id tB = Some tB →
  tareas s !! t_id tC = Some tC →
  tareas s !! t_id tD = Some tD →
  NoDup [t_id tA; t_id tB; t_id tC; t_id tD] →
  t_expediente tA = t_expediente tD →
  depende_de_ids s (t_id tA) = [] →
  depende_de_ids s (t_id tB) = [] →
  depende_de_ids s (t_id tC) = [] →
  depende_de_ids s (t_id tD) = [] →
  TaskViewSet._can_modify_dependencies user tA = true →
  ∃ s1 s2 s3,
    TaskViewSet.partial_update ordering s now1 (t_id tB)
      (only_depende_de [tA]) = Ok (tB, s1)
    ∧ TaskViewSet.partial_update ordering s1 now2 (t_id tC)
        (only_depende_de [tA]) = Ok (tC, s2)
    ∧ TaskViewSet.partial_update ordering s2 now3 (t_id tD)
        (only_depende_de [tB; tC]) = Ok (tD, s3)
    ∧ depende_de_ids s3 (t_id tD) = [t_id tB; t_id tC]
    ∧ depende_de_ids s3 (t_id tB) = [t_id tA]
    ∧ depende_de_ids s3 (t_id tC) = [t_id tA]
    ∧ depende_de_ids s3 (t_id tA) = []
    ∧ TaskViewSet.add_dependency ordering s3 user (t_id tA)
        (Some (t_id tD)) ty = Raise CircularDependency
    ∧ (∀ task dependency,
         is_Some (Task.would_create_circular_dependency ordering s3
                    task dependency)).
Proof.
  intros HA HB HC HD Hnodup Hexp HdA HdB HdC HdD Hperm.
  assert (t_id tA ≠ t_id tB ∧ t_id tA ≠ t_id tC ∧ t_id tA ≠ t_id tD
          ∧ t_id tB ≠ t_id tC ∧ t_id tB ≠ t_id tD ∧ t_id tC ≠ t_id tD)
    as (Hab & Hac & Had & Hbc & Hbd & Hcd).
  { repeat (apply NoDup_cons in Hnodup as [? Hnodup]). set_solver. }
  set (s1 := depende_de_set s (t_id tB) [t_id tA]).
  set (s2 := depende_de_set s1 (t_id tC) [t_id tA]).
  set (s3 := depende_de_set s2 (t_id tD) [t_id tB; t_id tC]).
  (* the rows of the four tasks in the three stores *)
  assert (depende_de_ids s1 (t_id tA) = []) as H1A
    by (unfold s1; by rewrite depende_de_set_other).
  assert (depende_de_ids s1 (t_id tB) = [t_id tA]) as H1B
    by (unfold s1; by rewrite depende_de_set_self).
  assert (depende_de_ids s1 (t_id tC) = []) as H1C
    by (unfold s1; by rewrite depende_de_set_other).
  assert (depende_de_ids s1 (t_id tD) = []) as H1D
    by (unfold s1; by rewrite depende_de_set_other).
  assert (depende_de_ids s2 (t_id tA) = []) as H2A
    by (unfold s2; by rewrite depende_de_set_other).
  assert (depende_de_ids s2 (t_id tB) = [t_id tA]) as H2B
    by (unfold s2; by rewrite depende_de_set_other).
  assert (depende_de_ids s2 (t_id tC) = [t_id tA]) as H2C
    by (unfold s2; by rewrite depende_de_set_self).
  assert (depende_de_ids s2 (t_id tD) = []) as H2D
    by (unfold s2; by rewrite depende_de_set_other).
  assert (depende_de_ids s3 (t_id tA) = []) as H3A
    by (unfold s3; by rewrite depende_de_set_other).
  assert (depende_de_ids s3 (t_id tB) = [t_id tA]) as H3B
    by (unfold s3; by rewrite depende_de_set_other).
  assert (depende_de_ids s3 (t_id tC) = [t_id tA]) as H3C
    by (unfold s3; by rewrite depende_de_set_other).
  assert (depende_de_ids s3 (t_id tD) = [t_id tB; t_id tC]) as H3D.
  { unfold s3. rewrite depende_de_set_self by done. simpl.
    destruct (decide_rel elem_of (t_id tB) [t_id tC]) as [Hin|_]; [|done].
    apply list_elem_of_singleton in Hin. by destruct Hbc. }
  exists s1, s2, s3. split; [|split; [|split]].
  - apply partial_update_only_depende_de; [done|]. simpl.
    rewrite bool_decide_eq_false_2 by done.
    unfold TaskSerializer._would_create_circular_dependency.
    by rewrite (would_create_circular_dependency_no_deps ordering
                  ordering_perm).
  - apply (partial_update_only_depende_de ordering s1); [done|]. simpl.
    rewrite bool_decide_eq_false_2 by done.
    unfold TaskSerializer._would_create_circular_dependency.
    by rewrite (would_create_circular_dependency_no_deps ordering
                  ordering_perm).
  - apply (partial_update_only_depende_de ordering s2); [done|]. simpl.
    rewrite bool_decide_eq_false_2 by done.
    unfold TaskSerializer._would_create_circular_dependency.
    rewrite (would_create_over_one_edge s2 (t_id tD) (t_id tB) (t_id tA))
      by done.
    rewrite bool_decide_eq_false_2 by done.
    by rewrite (would_create_over_one_edge s2 (t_id tD) (t_id tC) (t_id tA))
      by done.
  - repeat (split; [done|]). split.
    + apply (add_dependency_refused ordering s3); try done.
      apply (would_create_through_diamond s3 _ _ (t_id tB) (t_id tC));
        by try done.
    + intros. by apply would_create_circular_dependency_total.
Qed.
End diamond.

(** X28 at work: the diamond over the tasks 11, 12, 13 and 14, stored
    through the update of [depende_de]. *)
Lemma diamond_then_cycle_refused_witness :
  ∃ s1 s2 s3,
    TaskViewSet.partial_update row_order cuatro_tareas 1 12
      (only_depende_de [tarea 11 pendiente]) = Ok (tarea 12 pendiente, s1)
    ∧ TaskViewSet.partial_update row_order s1 2 13
        (only_depende_de [tarea 11 pendiente]) = Ok (tarea 13 pendiente, s2)
    ∧ TaskViewSet.partial_update row_order s2 3 14
        (only_depende_de [tarea 12 pendiente; tarea 13 pendiente])
      = Ok (tarea 14 pendiente, s3)
    ∧ tareas_depende_de s3 = [(12, 11); (13, 11); (14, 12); (14, 13)]%N
    ∧ TaskViewSet.add_dependency row_order s3 superuser 11 (Some 14%N) None
      = Raise CircularDependency.
Proof.
  destruct (diamond_then_cycle_refused row_order row_order_perm cuatro_tareas
              1 2 3 superuser (tarea 11 pendiente) (tarea 12 pendiente)
              (tarea 13 pendiente) (tarea 14 pendiente) None)
    as (s1 & s2 & s3 & H1 & H2 & H3 & _ & _ & _ & _ & Hcycle & _);
    try (by vm_compute).
  { apply (bool_decide_unpack _). by vm_compute. }
  exists s1, s2, s3. repeat (split; [done|]). split; [|done].
  assert (s1 = depende_de_set cuatro_tareas 12 [11%N]) as ->.
  { assert (Ok (tarea 12 pendiente, s1)
            = Ok (tarea 12 pendiente, depende_de_set cuatro_tareas 12 [11%N]))
      as Heq by (rewrite <- H1; by vm_compute).
    by injection Heq. }
  assert (s2 = depende_de_set (depende_de_set cuatro_tareas 12 [11%N])
                 13 [11%N]) as ->.
  { assert (Ok (tarea 13 pendiente, s2)
            = Ok (tarea 13 pendiente,
                  depende_de_set (depende_de_set cuatro_tareas 12 [11%N])
                    13 [11%N]))
      as Heq by (rewrite <- H2; by vm_compute).
    by injection Heq. }
  assert (Ok (tarea 14 pendiente, s3)
          = Ok (tarea 14 pendiente,
                depende_de_set
                  (depende_de_set (depende_de_set cuatro_tareas 12 [11%N])
                     13 [11%N]) 14 [12%N; 13%N]))
    as Heq by (rewrite <- H3; by vm_compute).
  injection Heq as ->. by vm_compute.
Defined.

(** What the tracking of visited tasks does beyond finding the task: the
    nested function also answers true when it meets a task for the second
    time.  Task 15 is no dependency of any task, yet making it depend on
    task 14, the top of the diamond, is refused by both paths: the walk
    from 14 meets task 11 behind 12 and again behind 13. *)
Example reconvergence_reported_as_cycle :
  (15%N ∉ (tareas_depende_de diamante_y_otra).*2)
  ∧ TaskViewSet.add_dependency row_order diamante_y_otra superuser 15
      (Some 14%N) None = Raise CircularDependency
  ∧ TaskViewSet.partial_update row_order diamante_y_otra 1 15
      (only_depende_de [tarea 14 pendiente])
    = Raise (ValidationError
               "La dependencia crearía un ciclo circular con Revisar").
Proof.
  split; [|split; by vm_compute].
  replace ((tareas_depende_de diamante_y_otra).*2)
    with [11%N; 11%N; 12%N; 13%N] by (by vm_compute).
  set_solver.
Qed.

(** ** Soundness of the cycle check *)

Section check_dependencies_sound.
Variable deps : uuid → list uuid.
Variable task : uuid.

(** A loop that answers false has visited every task of its list, none
    of which is [task], and every task it newly visited has all its
    dependencies visited, none of which is [task]. *)
Lemma for_each_dep_false
    (chk : gset uuid → uuid → option (bool * gset uuid)) :
  (∀ v d v', chk v d = Some (false, v') →
     (d ∉ v) ∧ d ∈ v' ∧ v ⊆ v'
     ∧ ∀ x, x ∈ v' → x ∉ v → ∀ y, y ∈ deps x → y ≠ task ∧ y ∈ v') →
  ∀ l v v', for_each_dep task chk v l = Some (false, v') →
    v ⊆ v'
    ∧ (∀ y, y ∈ l → y ≠ task ∧ y ∈ v')
    ∧ ∀ x, x ∈ v' → x ∉ v → ∀ y, y ∈ deps x → y ≠ task ∧ y ∈ v'.
Proof.
  intros Hchk l. induction l as [|d l IH]; intros v v' E; simpl in E.
  - simplify_eq. split_and!; [done|set_solver|done].
  - destruct (decide (d = task)) as [|Hd]; [done|].
    destruct (chk v d) as [[[] v1]|] eqn:E1; [done| |done].
    destruct (Hchk _ _ _ E1) as (Hdv & Hdv1 & Hsub1 & Hcl1).
    destruct (IH _ _ E) as (Hsub & Hl & Hcl).
    split_and!.
    + set_solver.
    + intros y [->|Hy]%elem_of_cons; [split; [done|set_solver]|by apply Hl].
    + intros x Hx Hxv y Hy.
      destruct (decide (x ∈ v1)) as [Hx1|Hx1].
      * destruct (Hcl1 x Hx1 Hxv y Hy). split; [done|set_solver].
      * by apply (Hcl x).
Qed.

Lemma check_dependencies_false (fuel : nat) v c v' :
  check_dependencies deps task fuel v c = Some (false, v') →
  (c ∉ v) ∧ c ∈ v' ∧ v ⊆ v'
  ∧ ∀ x, x ∈ v' → x ∉ v → ∀ y, y ∈ deps x → y ≠ task ∧ y ∈ v'.
Proof.
  revert v c v'. induction fuel as [|fuel IH]; intros v c v' E; [done|].
  simpl in E. destruct (decide (c ∈ v)) as [|Hc]; [done|].
  destruct (for_each_dep_false _ IH _ _ _ E) as (Hsub & Hl & Hcl).
  split_and!; [done|set_solver|set_solver|].
  intros x Hx Hxv y Hy. destruct (decide (x = c)) as [->|Hne].
  - by apply Hl.
  - apply (Hcl x); [done|set_solver|done].
Qed.

(** A check that answers false from an empty [visited] has closed its
    set of visited tasks under the dependencies: [task] is not reachable
    from the task it started at. *)
Lemma check_dependencies_false_unreachable (fuel : nat) c v' :
  check_dependencies deps task fuel ∅ c = Some (false, v') →
  ¬ tc (λ a b, b ∈ deps a) c task.
Proof.
  intros E. destruct (check_dependencies_false _ _ _ _ E) as (_ & Hc & _ & Hcl).
  assert (∀ x z, tc (λ a b, b ∈ deps a) x z → x ∈ v' → z ≠ task ∧ z ∈ v')
    as Hreach.
  { intros x z Htc. induction Htc as [x y Hxy|x y z Hxy _ IH]; intros Hx.
    - apply (Hcl x); [done|set_solver|done].
    - apply IH. apply (Hcl x); [done|set_solver|done]. }
  intros Htc. by destruct (Hreach _ _ Htc Hc).
Qed.
End check_dependencies_sound.

Lemma tc_impl {A} (R R' : relation A) x y :
  (∀ a b, R a b → R' a b) → tc R x y → tc R' x y.
Proof.
  intros HR Htc. induction Htc as [x y Hxy|x y z Hxy _ IH].
  - apply tc_once. by apply HR.
  - eapply tc_l; [by apply HR|done].
Qed.

(** A path to [p] from another node can be cut at its first arrival: it
    uses no edge that leaves [p]. *)
Lemma tc_first_arrival `{EqDecision A} (R : relation A) (p x : A) :
  tc R x p → x ≠ p → tc (λ a b, R a b ∧ a ≠ p) x p.
Proof.
  intros Htc. remember p as z eqn:Hz. revert Hz.
  induction Htc as [x y Hxy|x y z Hxy Hyz IH]; intros -> Hx.
  - by apply tc_once.
  - destruct (decide (y = p)) as [->|Hy].
    + by apply tc_once.
    + eapply tc_l; [done|]. by apply IH.
Qed.

(** A path uses no edge that leaves [p], or it passes through [p]. *)
Lemma tc_through `{EqDecision A} (R : relation A) (p x y : A) :
  tc R x y →
  tc (λ a b, R a b ∧ a ≠ p) x y ∨ (rtc R x p ∧ tc R p y).
Proof.
  intros Htc. induction Htc as [x y Hxy|x y z Hxy Hyz IH].
  - destruct (decide (x = p)) as [->|Hx].
    + right. split; [done|by apply tc_once].
    + left. by apply tc_once.
  - destruct (decide (x = p)) as [->|Hx].
    + right. split; [done|by eapply tc_l].
    + destruct IH as [IH|[IH1 IH2]].
      * left. by eapply tc_l.
      * right. split; [by eapply rtc_l|done].
Qed.

Lemma depende_de_set_edges s pk value a b :
  depends_on (depende_de_set s pk value) a b →
  (a ≠ pk → depends_on s a b) ∧ (a = pk → b ∈ value).
Proof.
  unfold depends_on, depende_de_set. simpl.
  rewrite elem_of_app, list_elem_of_filter, list_elem_of_fmap. simpl.
  intros [[Hor Hin]|(d & [= -> ->] & Hd)].
  - split; [done|]. intros ->. by destruct Hor.
  - apply list_elem_of_filter in Hd as [_ Hd]. rewrite elem_of_remove_dups in Hd.
    split; [by intros []|done].
Qed.

(** Replacing the dependencies of [pk] by tasks from which [pk] cannot be
    reached closes no cycle. *)
Lemma depende_de_set_acyclic s pk value :
  depende_de_acyclic s →
  (∀ d, d ∈ value → d ≠ pk ∧ ¬ tc (depends_on s) d pk) →
  depende_de_acyclic (depende_de_set s pk value).
Proof.
  intros Hac Hval x Hcyc.
  assert (∀ u w, tc (λ a b, depends_on (depende_de_set s pk value) a b
                            ∧ a ≠ pk) u w → tc (depends_on s) u w) as Hold.
  { intros u w. apply tc_impl. intros a b [Hab Ha].
    by apply (depende_de_set_edges _ _ _ _ _ Hab). }
  destruct (tc_through _ pk _ _ Hcyc) as [H|[H1 H2]].
  - by apply (Hac x), Hold.
  - assert (tc (depends_on (depende_de_set s pk value)) pk pk) as Hpk
      by (by eapply tc_rtc_r).
    inversion Hpk as [? ? Hedge|? d ? Hedge Hback]; subst.
    + apply depende_de_set_edges in Hedge as [_ Hin].
      by destruct (Hval pk (Hin eq_refl)).
    + apply depende_de_set_edges in Hedge as [_ Hin].
      destruct (Hval d (Hin eq_refl)) as [Hd Hno].
      by apply Hno, Hold, tc_first_arrival.
Qed.

Section acyclicity.
Variable lower : string → string.
Variable ordering : gmap uuid Task → list uuid → list uuid.
Hypothesis ordering_perm : ∀ m l, ordering m l ≡ₚ l.

Lemma depende_de_all_elem s a b :
  b ∈ Task.depende_de_all ordering s a ↔ depends_on s a b.
Proof.
  unfold Task.depende_de_all, depends_on.
  by rewrite ordering_perm, depende_de_ids_elem.
Qed.

(** The check answers false only when the task cannot be reached from
    the dependency. *)
Lemma would_create_false_unreachable s task dep :
  Task.would_create_circular_dependency ordering s task dep = Some false →
  ¬ tc (depends_on s) dep task.
Proof.
  unfold Task.would_create_circular_dependency. intros E Htc.
  destruct (check_dependencies _ _ _ _ _) as [[b v]|] eqn:E1; [|done].
  simpl in E. simplify_eq.
  apply check_dependencies_false_unreachable in E1. apply E1.
  eapply tc_impl; [|done]. intros a b. by rewrite depende_de_all_elem.
Qed.

Lemma check_each_dependency_ok s instance value :
  TaskSerializer.check_each_dependency ordering s instance value = Ok () →
  ∀ dep, dep ∈ value →
    t_id dep ≠ t_id instance
    ∧ Task.would_create_circular_dependency ordering s
        (t_id instance) (t_id dep) = Some false.
Proof.
  induction value as [|d value IH]; intros E dep Hdep; [by inv Hdep|].
  simpl in E. case_bool_decide as Hself; [done|].
  unfold TaskSerializer._would_create_circular_dependency in E.
  destruct (Task.would_create_circular_dependency _ _ _ _) as [[]|] eqn:E1;
    try done.
  apply elem_of_cons in Hdep as [->|Hdep]; [done|by apply IH].
Qed.

Lemma task_save_acyclic s now instance data t' s' :
  TaskSerializer.save ordering s now instance data = Ok (t', s') →
  depende_de_acyclic s → depende_de_acyclic s'.
Proof.
  unfold TaskSerializer.save. intros E Hac.
  destruct (TaskSerializer.is_valid _ _ _ _ _) as [vd|] eqn:Ev; [|done].
  pose proof (is_valid_ok _ _ _ _ _ _ Ev) as ->.
  simpl in E. unfold TaskSerializer.update in E. simplify_eq.
  destruct (vd_depende_de data) as [value|] eqn:Ed; [|done].
  apply depende_de_set_acyclic; [done|].
  intros d [dep [-> Hdep]]%list_elem_of_fmap.
  unfold TaskSerializer.is_valid in Ev. rewrite Ed in Ev. simpl in Ev.
  destruct (from_option _ _ (vd_usuario_asignado data)); [|done].
  destruct (from_option _ _ (vd_fecha_vencimiento data)); [|done].
  simpl in Ev. unfold TaskSerializer.validate_depende_de in Ev.
  destruct (TaskSerializer.check_each_dependency _ _ _ _) as [[]|] eqn:Ec;
    [|done].
  destruct (check_each_dependency_ok _ _ _ Ec _ Hdep) as [Hne Hcheck].
  split; [done|]. intros Htc.
  by apply (would_create_false_unreachable _ _ _ Hcheck).
Qed.

(** A transition writes the table of transitions and its expediente, and
    nothing about tasks. *)
Lemma transition_save_frame s now data tr s' :
  WorkflowTransitionSerializer.save lower s now data = Ok (tr, s') →
  tareas s' = tareas s
  ∧ tareas_depende_de s' = tareas_depende_de s
  ∧ task_dependencies s' = task_dependencies s
  ∧ notificaciones s' = notificaciones s.
Proof.
  unfold WorkflowTransitionSerializer.save. intros Hsave.
  destruct (WorkflowTransitionSerializer.validate lower data) as [vd|];
    [|done]. simpl in Hsave.
  unfold WorkflowTransitionSerializer.create,
    WorkflowTransitionSerializer.insert_transition in Hsave.
  destruct (data_expediente vd) as [e|]; [|done].
  destruct (data_hacia_estado vd) as [st|]; [|done].
  destruct (data_usuario vd) as [u|]; [|done].
  destruct (data_hacia_departamento vd) as [d|]; [|done].
  simpl in Hsave. by injection Hsave as _ <-.
Qed.

(** [complete] writes no dependency of either table. *)
Lemma complete_frame s now user pk res t' s' :
  TaskViewSet.complete ordering s now user pk res = Ok (t', s') →
  tareas_depende_de s' = tareas_depende_de s
  ∧ task_dependencies s' = task_dependencies s.
Proof.
  unfold TaskViewSet.complete, TaskViewSet.get_object. intros Hc.
  destruct (tareas s !! pk) as [task|]; [|done]. simpl in Hc.
  destruct (negb _); [done|]. simpl in Hc.
  match type of Hc with
  | context [TaskViewSet._check_dependent_tasks ordering ?s1 ?t1] =>
      destruct (check_dependent_tasks_frame ordering s1 t1)
        as (_ & Hrows & _ & _ & _ & Htd);
      set (s2 := TaskViewSet._check_dependent_tasks ordering s1 t1) in *
  end.
  simpl in Hrows, Htd.
  destruct (expedientes s2 !! t_expediente task) as [e|] eqn:He; [|done].
  injection Hc as _ <-.
  destruct (check_expediente_completion_cases s2 now e)
    as [->|(next & tr & ->)]; by rewrite <- Hrows, <- Htd.
Qed.

Lemma handle_acyclic s r :
  depende_de_acyclic s → depende_de_acyclic (handle lower ordering s r).
Proof.
  intros Hac.
  destruct r as [now pk data|now user pk res|user pk d ty|now pk data];
    simpl; unfold commit.
  - destruct (WorkflowTransitionSerializer.save _ _ _ _) as [[tr s']|] eqn:E;
      [|done].
    apply transition_save_frame in E as (_ & Hrows & _).
    unfold depende_de_acyclic, depends_on. by rewrite Hrows.
  - destruct (TaskViewSet.complete _ _ _ _ _ _) as [[t' s']|] eqn:E; [|done].
    apply complete_frame in E as [Hrows _].
    unfold depende_de_acyclic, depends_on. by rewrite Hrows.
  - destruct (TaskViewSet.add_dependency _ _ _ _ _ _) as [[msg s']|] eqn:E;
      [|done].
    apply add_dependency_ok_inv in E as (task & dep & d' & _ & _ & _ & ->).
    destruct (get_or_create_dependency_frame s (t_id task) (t_id dep)
                (default "finish_to_start" ty)) as (_ & Hrows & _).
    unfold depende_de_acyclic, depends_on. by rewrite Hrows.
  - destruct (TaskViewSet.partial_update _ _ _ _ _) as [[t' s']|] eqn:E;
      [|done].
    unfold TaskViewSet.partial_update, TaskViewSet.get_object in E.
    destruct (tareas s !! pk) as [instance|]; [|done]. simpl in E.
    by eapply task_save_acyclic.
Qed.

(** X1: The cycle check never misses a path: whenever [task] can be reached
    from [dependency] along [depende_de], so that the new row would close
    a cycle, the check answers true. *)
Theorem cycle_check_finds_every_path s task dependency :
  tc (depends_on s) dependency task →
  Task.would_create_circular_dependency ordering s task dependency
  = Some true.
Proof.
  intros Htc.
  destruct (would_create_circular_dependency_total ordering ordering_perm
              s task dependency) as [[] Hb]; [done|].
  by destruct (would_create_false_unreachable _ _ _ Hb).
Qed.

(** X2: The cycle check returns an answer on every store, whatever rows the
    through table holds (cycles included): the shared [visited] set lets
    it expand a task at most once.  The copy of the view set and the copy
    of the serializer give the same answer. *)
Theorem cycle_check_always_answers s (task dependency : Task) :
  ∃ b,
    TaskViewSet._would_create_circular_dependency ordering s task dependency
    = Some b
    ∧ TaskSerializer._would_create_circular_dependency ordering s
        task dependency = Some b.
Proof.
  destruct (would_create_circular_dependency_total ordering ordering_perm
              s (t_id task) (t_id dependency)) as [b Hb].
  by exists b.
Qed.

(** X4: No sequence of requests makes [depende_de] cyclic: the relation is
    written only by the task update, whose validation refuses every task
    from which the updated task can be reached. *)
Theorem depende_de_stays_acyclic s requests :
  depende_de_acyclic s →
  depende_de_acyclic (run lower ordering s requests).
Proof.
  revert s. induction requests as [|r requests IH]; intros s Hac; [done|].
  simpl. by apply IH, handle_acyclic.
Qed.
End acyclicity.

(** X1 at work. *)
Lemma cycle_check_finds_every_path_witness :
  tc (depends_on diamante_y_otra) 14%N 11%N
  ∧ Task.would_create_circular_dependency row_order diamante_y_otra 11 14
    = Some true.
Proof.
  assert (tc (depends_on diamante_y_otra) 14%N 11%N) as Htc.
  { apply tc_l with 12%N; [|apply tc_once]; unfold depends_on; simpl;
      set_solver. }
  split; [done|].
  exact (cycle_check_finds_every_path row_order row_order_perm
           diamante_y_otra 11 14 Htc).
Defined.

(** X2 at work. *)
Lemma cycle_check_always_answers_witness :
  ∃ b,
    TaskViewSet._would_create_circular_dependency row_order diamante_y_otra
      (tarea 11 pendiente) (tarea 14 pendiente) = Some b
    ∧ TaskSerializer._would_create_circular_dependency row_order
        diamante_y_otra (tarea 11 pendiente) (tarea 14 pendiente) = Some b.
Proof.
  exact (cycle_check_always_answers row_order row_order_perm
           diamante_y_otra (tarea 11 pendiente) (tarea 14 pendiente)).
Defined.

Lemma depende_de_acyclic_nil s :
  tareas_depende_de s = [] → depende_de_acyclic s.
Proof.
  intros Hnil x Htc. unfold depends_on in Htc. rewrite Hnil in Htc.
  inversion Htc as [? ? H|? ? ? H _]; by apply not_elem_of_nil in H.
Qed.

(** X4 at work: The diamond of tasks 11 to 14 is built by three updates, and the
    update that would close it into a cycle is refused. *)
Lemma depende_de_stays_acyclic_witness :
  depende_de_acyclic cuatro_tareas
  ∧ depende_de_acyclic
      (run ascii_lower row_order cuatro_tareas
         [PatchTask 1 12 (only_depende_de [tarea 11 pendiente]);
          PatchTask 2 13 (only_depende_de [tarea 11 pendiente]);
          PatchTask 3 14
            (only_depende_de [tarea 12 pendiente; tarea 13 pendiente]);
          PatchTask 4 11 (only_depende_de [tarea 14 pendiente])]).
Proof.
  assert (depende_de_acyclic cuatro_tareas) as Hac
    by (by apply depende_de_acyclic_nil).
  split; [done|].
  exact (depende_de_stays_acyclic ascii_lower row_order row_order_perm
           cuatro_tareas _ Hac).
Defined.

(** ** The table of [TaskDependency] *)

Lemma get_or_create_dependency_pairs s t d ty :
  NoDup (dependency_pairs s) →
  NoDup (dependency_pairs (TaskViewSet.get_or_create_dependency s t d ty)).
Proof.
  intros Hnd. unfold TaskViewSet.get_or_create_dependency.
  case_bool_decide as Hex; [done|].
  unfold dependency_pairs. simpl. rewrite fmap_app. simpl.
  apply NoDup_app. split_and!; [done| |apply NoDup_singleton].
  intros p Hp [= ->]%list_elem_of_singleton. apply Hex.
  apply list_elem_of_fmap in Hp as (r & [= -> ->] & Hr).
  apply Exists_exists. by exists r.
Qed.

(** A row that exists is found again: the second creation is the
    identity. *)
Lemma get_or_create_dependency_again s t d ty ty' :
  let s' := TaskViewSet.get_or_create_dependency s t d ty in
  TaskViewSet.get_or_create_dependency s' t d ty' = s'.
Proof.
  intros s'. destruct (get_or_create_dependency_row s t d ty)
    as (r & Hr & Ht & Hd).
  unfold TaskViewSet.get_or_create_dependency at 1.
  rewrite bool_decide_eq_true_2; [done|].
  apply Exists_exists. by exists r.
Qed.

Section task_dependency_table.
Variable lower : string → string.
Variable ordering : gmap uuid Task → list uuid → list uuid.

Lemma handle_dependency_pairs s r :
  NoDup (dependency_pairs s) →
  NoDup (dependency_pairs (handle lower ordering s r)).
Proof.
  intros Hnd.
  destruct r as [now pk data|now user pk res|user pk d ty|now pk data];
    simpl; unfold commit.
  - destruct (WorkflowTransitionSerializer.save _ _ _ _) as [[tr s']|] eqn:E;
      [|done].
    apply transition_save_frame in E as (_ & _ & Htd & _).
    unfold dependency_pairs. by rewrite Htd.
  - destruct (TaskViewSet.complete _ _ _ _ _ _) as [[t' s']|] eqn:E; [|done].
    apply complete_frame in E as [_ Htd].
    unfold dependency_pairs. by rewrite Htd.
  - destruct (TaskViewSet.add_dependency _ _ _ _ _ _) as [[msg s']|] eqn:E;
      [|done].
    apply add_dependency_ok_inv in E as (task & dep & d' & _ & _ & _ & ->).
    by apply get_or_create_dependency_pairs.
  - destruct (TaskViewSet.partial_update _ _ _ _ _) as [[t' s']|] eqn:E;
      [|done].
    unfold TaskViewSet.partial_update, TaskViewSet.get_object in E.
    destruct (tareas s !! pk) as [instance|]; [|done]. simpl in E.
    unfold TaskSerializer.save in E.
    destruct (TaskSerializer.is_valid _ _ _ _ _) as [vd|]; [|done].
    change (Ok (TaskSerializer.update s now instance vd) = Ok (t', s')) in E.
    pose proof (task_update_frame s now instance vd) as (_ & _ & _ & Htd).
    destruct (TaskSerializer.update s now instance vd) as [t2 s2].
    simplify_eq. simpl in Htd. unfold dependency_pairs. by rewrite Htd.
Qed.

(** X6: The table of [TaskDependency] never holds a pair (task, depends_on)
    twice, after any sequence of requests: its rows are written only by
    [add_dependency], through [get_or_create]. *)
Theorem dependency_rows_stay_unique s requests :
  NoDup (dependency_pairs s) →
  NoDup (dependency_pairs (run lower ordering s requests)).
Proof.
  revert s. induction requests as [|r requests IH]; intros s Hnd; [done|].
  simpl. by apply IH, handle_dependency_pairs.
Qed.

(** X7: Repeating an accepted [add_dependency] changes nothing, also when
    the repetition names another [dependency_type]: the type of an
    existing row is never rewritten. *)
Theorem add_dependency_idempotent s user pk depends_on_id ty ty' msg s' :
  TaskViewSet.add_dependency ordering s user pk depends_on_id ty
    = Ok (msg, s') →
  TaskViewSet.add_dependency ordering s' user pk depends_on_id ty'
    = Ok (msg, s').
Proof.
  unfold TaskViewSet.add_dependency, TaskViewSet.get_object. intros E.
  destruct (tareas s !! pk) as [task|] eqn:Et; [|done]. simpl in E.
  destruct (negb _) eqn:Hperm; [done|].
  destruct depends_on_id as [d|]; [|done].
  destruct (tareas s !! d) as [dep|] eqn:Ed; [|done].
  case_bool_decide as Hexp; [done|].
  unfold TaskViewSet._would_create_circular_dependency in *.
  destruct (Task.would_create_circular_dependency _ _ _ _) as [[]|] eqn:Ec;
    try done.
  injection E as <- <-.
  destruct (get_or_create_dependency_frame s (t_id task) (t_id dep)
              (default "finish_to_start" ty)) as (Ht & Hrows & _).
  simpl in Ht, Hrows. rewrite Ht, Et. simpl. rewrite Hperm, Ed.
  rewrite bool_decide_eq_false_2 by (intros Hne; by apply Hne).
  rewrite (would_create_circular_dependency_ext ordering s _ _ _ Ht Hrows), Ec.
  by rewrite get_or_create_dependency_again.
Qed.
End task_dependency_table.

(** X6 at work. *)
Lemma dependency_rows_stay_unique_witness :
  NoDup (dependency_pairs dos_tareas)
  ∧ NoDup (dependency_pairs
             (run ascii_lower row_order dos_tareas
                [PostAddDependency superuser 11 (Some 12%N) None;
                 PostAddDependency superuser 11 (Some 12%N)
                   (Some "start_to_start");
                 PostAddDependency superuser 12 (Some 11%N) None])).
Proof.
  assert (NoDup (dependency_pairs dos_tareas)) as Hnd by apply NoDup_nil_2.
  split; [done|].
  exact (dependency_rows_stay_unique ascii_lower row_order dos_tareas _ Hnd).
Defined.

(** X7 at work. *)
Lemma add_dependency_idempotent_witness :
  ∃ s',
    TaskViewSet.add_dependency row_order dos_tareas superuser 11
      (Some 12%N) None = Ok ("Dependencia agregada exitosamente", s')
    ∧ TaskViewSet.add_dependency row_order s' superuser 11
        (Some 12%N) (Some "start_to_start")
      = Ok ("Dependencia agregada exitosamente", s').
Proof.
  eexists. split; [by vm_compute|].
  refine (add_dependency_idempotent row_order dos_tareas superuser 11
            (Some 12%N) None (Some "start_to_start") _ _ _).
  by vm_compute.
Defined.

Section self_dependency.
Variable ordering : gmap uuid Task → list uuid → list uuid.
Hypothesis ordering_perm : ∀ m l, ordering m l ≡ₚ l.

(** X8: [add_dependency] has no check against a task depending on itself:
    for a task without [depende_de] rows it stores the row (task, task).
    The task update refuses the same dependency for every task. *)
Theorem add_dependency_accepts_self s user task ty :
  tareas s !! t_id task = Some task →
  TaskViewSet._can_modify_dependencies user task = true →
  depende_de_ids s (t_id task) = [] →
  (∃ s',
     TaskViewSet.add_dependency ordering s user (t_id task)
       (Some (t_id task)) ty
     = Ok ("Dependencia agregada exitosamente", s')
     ∧ has_dependency_row s' (t_id task) (t_id task))
  ∧ ∀ rest,
      TaskSerializer.validate_depende_de ordering s task (task :: rest)
      = Raise (ValidationError "Una tarea no puede depender de sí misma").
Proof.
  intros Ht Hperm Hnil. split.
  - eexists. split.
    + apply add_dependency_accepted; try done.
      by apply would_create_circular_dependency_no_deps.
    + apply get_or_create_dependency_row.
  - intros rest. unfold TaskSerializer.validate_depende_de. simpl.
    by rewrite bool_decide_eq_true_2.
Qed.
End self_dependency.

(** X8 at work. *)
Lemma add_dependency_accepts_self_witness :
  (∃ s',
     TaskViewSet.add_dependency row_order dos_tareas analista 11
       (Some 11%N) None
     = Ok ("Dependencia agregada exitosamente", s')
     ∧ has_dependency_row s' 11 11)
  ∧ ∀ rest,
      TaskSerializer.validate_depende_de row_order dos_tareas
        (tarea 11 pendiente) (tarea 11 pendiente :: rest)
      = Raise (ValidationError "Una tarea no puede depender de sí misma").
Proof.
  refine (add_dependency_accepts_self row_order row_order_perm dos_tareas
            analista (tarea 11 pendiente) None _ _ _); by vm_compute.
Defined.

(** ** [complete] *)

Lemma check_expediente_completion_frame s now e :
  let s' := TaskViewSet._check_expediente_completion s now e in
  tareas s' = tareas s
  ∧ tareas_depende_de s' = tareas_depende_de s
  ∧ notificaciones s' = notificaciones s.
Proof.
  intros s'. subst s'.
  by destruct (check_expediente_completion_cases s now e)
    as [->|(next & tr & ->)].
Qed.

(** What one round of the loop of [_check_dependent_tasks] adds to the
    notifications. *)
Lemma notify_if_startable_added s d :
  ∃ added,
    notificaciones (TaskViewSet.notify_if_startable s d)
    = (notificaciones s ++ added)%list
    ∧ (∀ n, n ∈ added →
         ∃ dt, tareas s !! d = Some dt
               ∧ estado dt = pendiente
               ∧ Task.can_be_started s dt = true
               ∧ usuario_asignado dt = Some (n_user n)
               ∧ n_type n = "task_assigned")
    ∧ (∀ dt u, tareas s !! d = Some dt → estado dt = pendiente →
               Task.can_be_started s dt = true →
               usuario_asignado dt = Some u →
               ∃ n, n ∈ added ∧ n_user n = u).
Proof.
  unfold TaskViewSet.notify_if_startable.
  destruct (tareas s !! d) as [dt|] eqn:Ed.
  - destruct (Task.can_be_started s dt) eqn:Hcan; simpl.
    + case_bool_decide as Hest; simpl.
      * destruct (usuario_asignado dt) as [u|] eqn:Hu.
        -- eexists [_]. simpl. split_and!; [done| |].
           ++ intros n ->%list_elem_of_singleton. by exists dt.
           ++ intros dt' u' [= <-] _ _ Hu'. eexists. split; [by left|].
              simpl. congruence.
        -- exists []. rewrite app_nil_r. split_and!; [done| |].
           ++ by intros n Hn%not_elem_of_nil.
           ++ intros dt' u' [= <-] _ _ Hu'. congruence.
      * exists []. rewrite app_nil_r. split_and!; [done| |].
        -- by intros n Hn%not_elem_of_nil.
        -- by intros dt' u' [= <-] Hp.
    + exists []. rewrite app_nil_r. split_and!; [done| |].
      * by intros n Hn%not_elem_of_nil.
      * intros dt' u' [= <-] _ Hc. congruence.
  - exists []. rewrite app_nil_r. split_and!; [done| |].
    + by intros n Hn%not_elem_of_nil.
    + by intros dt' u'.
Qed.

Lemma foldl_notify_if_startable_added l : ∀ s,
  ∃ added,
    notificaciones (foldl TaskViewSet.notify_if_startable s l)
    = (notificaciones s ++ added)%list
    ∧ (∀ n, n ∈ added →
         ∃ d dt, d ∈ l ∧ tareas s !! d = Some dt
                 ∧ estado dt = pendiente
                 ∧ Task.can_be_started s dt = true
                 ∧ usuario_asignado dt = Some (n_user n)
                 ∧ n_type n = "task_assigned")
    ∧ (∀ d dt u, d ∈ l → tareas s !! d = Some dt → estado dt = pendiente →
                 Task.can_be_started s dt = true →
                 usuario_asignado dt = Some u →
                 ∃ n, n ∈ added ∧ n_user n = u).
Proof.
  induction l as [|d l IH]; intros s; simpl.
  - exists []. rewrite app_nil_r. split_and!; [done| |].
    + by intros n Hn%not_elem_of_nil.
    + by intros d dt u Hd%not_elem_of_nil.
  - destruct (notify_if_startable_added s d) as (a1 & E1 & Hin1 & Hout1).
    destruct (notify_if_startable_frame s d) as (Ht & Hrows & _).
    simpl in Ht, Hrows.
    destruct (IH (TaskViewSet.notify_if_startable s d))
      as (a2 & E2 & Hin2 & Hout2).
    exists (a1 ++ a2)%list. split_and!.
    + by rewrite E2, E1, app_assoc.
    + intros n [Hn|Hn]%elem_of_app.
      * destruct (Hin1 n Hn) as (dt & ?). exists d, dt. split; [by left|done].
      * destruct (Hin2 n Hn) as (d' & dt & Hd' & Hl & Hp & Hc & Hu & Hty).
        exists d', dt. rewrite Ht in Hl.
        rewrite (can_be_started_ext _ _ _ Ht Hrows) in Hc.
        split_and!; try done. by right.
    + intros d' dt u [->|Hd']%elem_of_cons Hl Hp Hc Hu.
      * destruct (Hout1 dt u Hl Hp Hc Hu) as (n & Hn & Hnu).
        exists n. split; [|done]. apply elem_of_app. by left.
      * destruct (Hout2 d' dt u Hd') as (n & Hn & Hnu); try done.
        -- by rewrite Ht.
        -- by rewrite (can_be_started_ext _ _ _ Ht Hrows).
        -- exists n. split; [|done]. apply elem_of_app. by right.
Qed.

Section complete_facts.
Variable ordering : gmap uuid Task → list uuid → list uuid.

(** X10: [complete] asks neither that the task is pending or in progress nor
    that it can be started: for every stored task the caller may complete
    it marks the task completed at the time of the call, with the caller
    as assigned user, also when a dependency is unfinished and also when
    the task was completed before. *)
Theorem complete_needs_no_finished_dependencies s now user pk task res e :
  tareas s !! pk = Some task →
  TaskViewSet._can_complete_task user task = true →
  expedientes s !! t_expediente task = Some e →
  ∃ task' s',
    TaskViewSet.complete ordering s now user pk res = Ok (task', s')
    ∧ tareas s' !! t_id task = Some task'
    ∧ t_id task' = t_id task
    ∧ estado task' = completada
    ∧ fecha_completacion task' = Some now
    ∧ usuario_asignado task' = Some (user_id user)
    ∧ resultado task' = default "Tarea completada" res.
Proof.
  intros Ht Hperm He.
  unfold TaskViewSet.complete, TaskViewSet.get_object. rewrite Ht. simpl.
  rewrite Hperm. simpl.
  match goal with
  | |- context [TaskViewSet._check_dependent_tasks ordering ?s1 ?t1] =>
      destruct (check_dependent_tasks_frame ordering s1 t1)
        as (Htar & _ & Hexp & _);
      set (s2 := TaskViewSet._check_dependent_tasks ordering s1 t1) in *
  end.
  simpl in Htar, Hexp. rewrite Hexp, He.
  eexists _, _. split; [done|].
  destruct (check_expediente_completion_frame s2 now e) as (Htar2 & _).
  simpl in Htar2. rewrite Htar2, Htar. simpl.
  by rewrite lookup_insert_eq.
Qed.

Hypothesis ordering_perm : ∀ m l, ordering m l ≡ₚ l.

Lemma dependientes_all_elem s pk d :
  d ∈ Task.dependientes_all ordering s pk ↔ depends_on s d pk.
Proof.
  unfold Task.dependientes_all, dependientes_ids, depends_on.
  rewrite ordering_perm, list_elem_of_fmap. split.
  - intros ([a b] & -> & [Hb Hab]%list_elem_of_filter). simpl in *.
    by subst.
  - intros Hd. exists (d, pk). split; [done|]. by apply list_elem_of_filter.
Qed.

Lemma check_dependent_tasks_added s t :
  ∃ added,
    notificaciones (TaskViewSet._check_dependent_tasks ordering s t)
    = (notificaciones s ++ added)%list
    ∧ (∀ n, n ∈ added →
         ∃ d dt, depends_on s d (t_id t) ∧ tareas s !! d = Some dt
                 ∧ estado dt = pendiente
                 ∧ Task.can_be_started s dt = true
                 ∧ usuario_asignado dt = Some (n_user n)
                 ∧ n_type n = "task_assigned")
    ∧ (∀ d dt u, depends_on s d (t_id t) → tareas s !! d = Some dt →
                 estado dt = pendiente →
                 Task.can_be_started s dt = true →
                 usuario_asignado dt = Some u →
                 ∃ n, n ∈ added ∧ n_user n = u).
Proof.
  unfold TaskViewSet._check_dependent_tasks.
  destruct (foldl_notify_if_startable_added
              (Task.dependientes_all ordering s (t_id t)) s)
    as (added & E & Hin & Hout).
  exists added. split_and!; [done| |].
  - intros n Hn. destruct (Hin n Hn) as (d & dt & Hd & H).
    exists d, dt. split; [by apply dependientes_all_elem|done].
  - intros d dt u Hd. apply Hout. by apply dependientes_all_elem.
Qed.

(** X11: The notifications of [complete]: one to the assigned user of every
    task that depends on the completed one through [depende_de], is
    pending and can be started once the task is completed; no other
    notification is created, and none for a dependent without assigned
    user. *)
Theorem complete_notifies_startable_dependents s now user pk res t' s' :
  TaskViewSet.complete ordering s now user pk res = Ok (t', s') →
  ∃ added,
    notificaciones s' = (notificaciones s ++ added)%list
    ∧ (∀ n, n ∈ added →
         ∃ d dt, depends_on s d (t_id t')
                 ∧ tareas s' !! d = Some dt
                 ∧ estado dt = pendiente
                 ∧ Task.can_be_started s' dt = true
                 ∧ usuario_asignado dt = Some (n_user n)
                 ∧ n_type n = "task_assigned")
    ∧ (∀ d dt u, depends_on s d (t_id t') →
                 tareas s' !! d = Some dt → estado dt = pendiente →
                 Task.can_be_started s' dt = true →
                 usuario_asignado dt = Some u →
                 ∃ n, n ∈ added ∧ n_user n = u).
Proof.
  unfold TaskViewSet.complete, TaskViewSet.get_object. intros Hc.
  destruct (tareas s !! pk) as [task|]; [|done]. simpl in Hc.
  destruct (negb _); [done|]. simpl in Hc.
  match type of Hc with
  | context [TaskViewSet._check_dependent_tasks ordering ?s1 ?t1] =>
      destruct (check_dependent_tasks_added s1 t1)
        as (added & Eadd & Hin & Hout);
      destruct (check_dependent_tasks_frame ordering s1 t1)
        as (Htar & Hrows & _);
      set (s2 := TaskViewSet._check_dependent_tasks ordering s1 t1) in *;
      set (s1' := s1) in *
  end.
  destruct (expedientes s2 !! _) as [e|]; [|done].
  injection Hc as <- <-.
  destruct (check_expediente_completion_frame s2 now e)
    as (Htar2 & Hrows2 & Hnot2).
  cbv zeta in Htar2, Hrows2, Hnot2, Htar, Hrows.
  assert (∀ t, Task.can_be_started
                 (TaskViewSet._check_expediente_completion s2 now e) t
               = Task.can_be_started s1' t) as Hcan'.
  { intros t. apply can_be_started_ext.
    - by rewrite Htar2, Htar.
    - by rewrite Hrows2, Hrows. }
  exists added. split_and!.
  - by rewrite Hnot2, Eadd.
  - intros n Hn.
    destruct (Hin n Hn) as (d & dt & Hd & Hl & Hp & Hcan & Hu & Hty).
    exists d, dt. split_and!; try done.
    + by rewrite Htar2, Htar.
    + by rewrite Hcan'.
  - intros d dt u Hd Hl Hp Hcan Hu.
    apply (Hout d dt u); try done.
    + by rewrite Htar2, Htar in Hl.
    + by rewrite <- Hcan'.
Qed.
End complete_facts.

(** X10 at work: Task 12 is pending and depends on task 11, which is in
    progress; its
    assigned user completes it all the same. *)
Lemma complete_needs_no_finished_dependencies_witness :
  Task.can_be_started tarea_y_dependiente (tarea 12 pendiente) = false
  ∧ ∃ task' s',
      TaskViewSet.complete row_order tarea_y_dependiente 9 analista 12 None
      = Ok (task', s')
      ∧ tareas s' !! 12%N = Some task'
      ∧ estado task' = completada
      ∧ fecha_completacion task' = Some 9%Z.
Proof.
  split; [by vm_compute|].
  destruct (complete_needs_no_finished_dependencies row_order
              tarea_y_dependiente 9 analista 12 (tarea 12 pendiente) None
              expediente_nuevo)
    as (task' & s' & Hc & Hl & _ & He & Hf & _); [by vm_compute..|].
  by exists task', s'.
Defined.

(** X11 at work: Task 12 is pending, assigned to user 2, and depends on task
    11 only:
    completing task 11 notifies user 2. *)
Lemma complete_notifies_startable_dependents_witness :
  ∃ t' s',
    TaskViewSet.complete row_order tarea_y_dependiente 9 superuser 11 None
    = Ok (t', s')
    ∧ ∃ n, n ∈ notificaciones s' ∧ n_user n = 2%N.
Proof.
  destruct (TaskViewSet.complete row_order tarea_y_dependiente 9 superuser 11
              None) as [[t' s']|] eqn:Hc; [|by vm_compute in Hc].
  exists t', s'. split; [done|].
  destruct (complete_notifies_startable_dependents row_order row_order_perm
              _ _ _ _ _ _ _ Hc) as (added & E & _ & Hout).
  vm_compute in Hc. injection Hc as <- <-.
  destruct (Hout 12%N (tarea 12 pendiente) 2%N) as (n & Hn & Hu);
    [unfold depends_on; simpl; set_solver|by vm_compute..|].
  exists n. split; [|done]. rewrite E. apply elem_of_app. by right.
Defined.

(** ** What [complete] stores *)

Section complete_tareas.
Variable ordering : gmap uuid Task → list uuid → list uuid.

Lemma complete_tareas s now user pk res t' s' :
  TaskViewSet.complete ordering s now user pk res = Ok (t', s') →
  tareas s' = <[t_id t' := t']> (tareas s)
  ∧ estado t' = completada
  ∧ fecha_completacion t' = Some now.
Proof.
  unfold TaskViewSet.complete, TaskViewSet.get_object. intros Hc.
  destruct (tareas s !! pk) as [task|]; [|done]. simpl in Hc.
  destruct (negb _); [done|]. simpl in Hc.
  match type of Hc with
  | context [TaskViewSet._check_dependent_tasks ordering ?s1 ?t1] =>
      destruct (check_dependent_tasks_frame ordering s1 t1) as (Htar & _);
      set (s2 := TaskViewSet._check_dependent_tasks ordering s1 t1) in *
  end.
  destruct (expedientes s2 !! _) as [e|]; [|done].
  injection Hc as <- <-.
  destruct (check_expediente_completion_frame s2 now e) as (Htar2 & _).
  cbv zeta in Htar, Htar2. by rewrite Htar2, Htar.
Qed.

End complete_tareas.

(** ** Permissions and the scoping of the query sets *)

(** X22: Whoever may complete a task is shown the task: the three permission
    checks on a task are one function of the user and the task, and a
    task that passes them is in the query set of the user. *)
Theorem task_permission_implies_visible s user pk task :
  tareas s !! pk = Some task →
  TaskViewSet._can_complete_task user task = true →
  TaskViewSet.get_queryset s user !! pk = Some task
  ∧ TaskViewSet._can_assign_task user task = true
  ∧ TaskViewSet._can_modify_dependencies user task = true.
Proof.
  intros Ht Hperm. split; [|done].
  unfold TaskViewSet._can_complete_task in Hperm.
  unfold TaskViewSet.get_queryset.
  destruct (user_is_superuser user); [done|].
  destruct (is_head_role user); apply bool_decide_eq_true in Hperm;
    apply map_lookup_filter_Some; (split; [done|]); simpl.
  - done.
  - by left.
Qed.

(** X22 at work. *)
Lemma task_permission_implies_visible_witness :
  TaskViewSet.get_queryset tarea_y_dependiente analista !! 12%N
    = Some (tarea 12 pendiente)
  ∧ TaskViewSet._can_assign_task analista (tarea 12 pendiente) = true
  ∧ TaskViewSet._can_modify_dependencies analista (tarea 12 pendiente) = true.
Proof.
  refine (task_permission_implies_visible tarea_y_dependiente analista 12
            (tarea 12 pendiente) _ _); by vm_compute.
Defined.

(** X23: Whoever may move an expediente is shown it, and for a user who is
    not a superuser the role plays no part in the permission: it is
    membership of the current department. *)
Theorem transition_permission_implies_visible s user pk e :
  expedientes s !! pk = Some e →
  ExpedienteViewSet._can_transition_expediente user e = true →
  ExpedienteViewSet.get_queryset s user !! pk = Some e
  ∧ (user_is_superuser user = false →
     user_department user = Some (dept_id (departamento_actual e))).
Proof.
  intros He Hperm.
  unfold ExpedienteViewSet._can_transition_expediente in Hperm.
  unfold ExpedienteViewSet.get_queryset.
  destruct (user_is_superuser user); [done|].
  destruct (is_head_role user); apply bool_decide_eq_true in Hperm;
    (split; [|done]); apply map_lookup_filter_Some; (split; [done|]); simpl.
  - done.
  - by left.
Qed.

(** X23 at work. *)
Lemma transition_permission_implies_visible_witness :
  ExpedienteViewSet.get_queryset dos_tareas analista !! 1%N
    = Some expediente_nuevo
  ∧ (user_is_superuser analista = false →
     user_department analista
     = Some (dept_id (departamento_actual expediente_nuevo))).
Proof.
  refine (transition_permission_implies_visible dos_tareas analista 1
            expediente_nuevo _ _); by vm_compute.
Defined.

(** X24: For a user who is neither superuser nor head, the audit trail shows
    exactly the transitions of the expedientes the user is shown. *)
Theorem regular_user_sees_transitions_of_visible s user tr :
  user_is_superuser user = false →
  is_head_role user = false →
  tr ∈ WorkflowTransitionViewSet.get_queryset s user
  ↔ tr ∈ workflow_transiciones s
    ∧ is_Some (ExpedienteViewSet.get_queryset s user !! wt_expediente tr).
Proof.
  intros Hsu Hhead.
  unfold WorkflowTransitionViewSet.get_queryset,
    ExpedienteViewSet.get_queryset.
  rewrite Hsu, Hhead. cbv zeta.
  rewrite list_elem_of_filter, elem_of_dom. tauto.
Qed.

(** X24 at work: A user of the second department, neither superuser nor head,
    after
    expediente 1 moved there. *)
Lemma regular_user_sees_transitions_of_visible_witness :
  let user :=
    {| user_id := 3; user_is_superuser := false; user_is_active := true;
       user_role := "analyst"; user_department := Some 2%N |} in
  let s :=
    run ascii_lower row_order (installation expediente_nuevo [] [])
      [PostTransition 5 1
         (transition_data expediente_nuevo st_revision dept_tecnico
            EmptyString)] in
  let tr :=
    {| wt_expediente := 1; desde_estado := Some st_inicio;
       hacia_estado := st_revision;
       desde_departamento := Some dept_juridico;
       hacia_departamento := dept_tecnico; wt_usuario := 1;
       comentarios := "Avance"; motivo_rechazo := EmptyString;
       wt_metadata := "{}"; wt_created_at := 5 |} in
  tr ∈ WorkflowTransitionViewSet.get_queryset s user
  ↔ tr ∈ workflow_transiciones s
    ∧ is_Some (ExpedienteViewSet.get_queryset s user !! wt_expediente tr).
Proof.
  intros user s tr.
  refine (regular_user_sees_transitions_of_visible s user tr _ _);
    by vm_compute.
Defined.

(** ** Notifications of a transition *)

Lemma foldl_create_notification {A} (f : A → Notification) (l : list A) :
  ∀ s,
    let s' := foldl (λ s x, create_notification s (f x)) s l in
    notificaciones s' = (notificaciones s ++ (f <$> l))%list
    ∧ tareas s' = tareas s
    ∧ expedientes s' = expedientes s
    ∧ workflow_transiciones s' = workflow_transiciones s
    ∧ usuarios s' = usuarios s.
Proof.
  induction l as [|x l IH]; intros s; simpl.
  - by rewrite app_nil_r.
  - destruct (IH (create_notification s (f x))) as (E & Ht & He & Htr & Hu).
    simpl in *. rewrite E, Ht, He, Htr, Hu. by rewrite <- app_assoc.
Qed.

(** X20: A transition notifies the active users of the target department,
    each once per row of the table of users, and nobody else: an inactive
    user and a user of another department get no notification.  Nothing
    but the table of notifications is written. *)
Theorem transition_notifies_active_members s tr e :
  let s' := ExpedienteViewSet._create_transition_notification s tr e in
  ∃ added,
    notificaciones s' = (notificaciones s ++ added)%list
    ∧ n_user <$> added
      = user_id <$> filter (λ u, user_department u
                                 = Some (dept_id (hacia_departamento tr))
                                 ∧ user_is_active u = true) (usuarios s)
    ∧ (∀ n, n ∈ added →
         n_type n = "workflow_update"
         ∧ n_expediente n = Some (exp_id e)
         ∧ ∃ u, u ∈ usuarios s ∧ n_user n = user_id u
                ∧ user_is_active u = true
                ∧ user_department u
                  = Some (dept_id (hacia_departamento tr)))
    ∧ tareas s' = tareas s
    ∧ expedientes s' = expedientes s
    ∧ workflow_transiciones s' = workflow_transiciones s.
Proof.
  unfold ExpedienteViewSet._create_transition_notification.
  match goal with
  | |- context [foldl (λ s x, create_notification s (@?f x)) _ ?l] =>
      destruct (foldl_create_notification f l s) as (E & Ht & He & Htr & _)
  end.
  cbv zeta in *. eexists. split_and!; [exact E| | |done..].
  - by rewrite <- list_fmap_compose.
  - intros n (u & -> & Hu)%list_elem_of_fmap. simpl.
    apply list_elem_of_filter in Hu as [[Hd Ha] Hu].
    split_and!; [done..|]. by exists u.
Qed.

(** ** Creation of an expediente *)

(** X25: A new expediente starts in a state whose [order] is 1 and in the
    active department of least [workflow_order], at the time of the
    call, under a primary key and a number no other expediente has; its
    status is the one the request gives, iniciado when it gives none.
    Stored expedientes stay as they were, and they stay stored under
    their own key. *)
Theorem expediente_create_initial s now pk vd e s' :
  ExpedienteSerializer.create s now pk vd = Ok (e, s') →
  ws_order (estado_workflow e) = 1%N
  ∧ estado_workflow e ∈ workflow_estados s
  ∧ departamento_actual e ∈ departamentos s
  ∧ dept_is_active (departamento_actual e) = true
  ∧ (∀ d, d ∈ departamentos s → dept_is_active d = true →
          (dept_workflow_order (departamento_actual e)
             ≤ dept_workflow_order d)%N)
  ∧ fecha_inicio e = Some now
  ∧ estado_actual e = default iniciado (ed_estado_actual vd)
  ∧ creado_por e = ed_creado_por vd
  ∧ exp_id e = pk
  ∧ expedientes s !! pk = None
  ∧ (∀ k e0, expedientes s !! k = Some e0 →
             numero_expediente e0 ≠ numero_expediente e)
  ∧ expedientes s' = <[pk := e]> (expedientes s)
  ∧ (expedientes_keyed s → expedientes_keyed s').
Proof.
  unfold ExpedienteSerializer.create. intros E.
  destruct (head (order_by ws_order _)) as [st|] eqn:Hst; [|done].
  destruct (head (order_by dept_workflow_order _)) as [d|] eqn:Hd; [|done].
  destruct (bool_decide (is_Some _)) eqn:Hpk; [done|].
  destruct (bool_decide (map_Exists _ _)) eqn:Hnum; [done|].
  simpl in E. injection E as <- <-. simpl.
  apply order_by_head_least in Hst as [Hst _].
  apply list_elem_of_filter in Hst as [Hst1 Hst].
  apply order_by_head_least in Hd as [Hd Hleast].
  apply list_elem_of_filter in Hd as [Hd1 Hd].
  apply bool_decide_eq_false in Hpk. apply bool_decide_eq_false in Hnum.
  assert (expedientes s !! pk = None) as Hnone.
  { destruct (expedientes s !! pk) eqn:El; [|done]. destruct Hpk. by eexists. }
  split_and!; try done.
  - intros d' Hd' Ha. apply Hleast. by apply list_elem_of_filter.
  - intros k e0 Hk Heq. apply Hnum. by exists k, e0.
  - intros Hkeyed. unfold expedientes_keyed, save_expediente. simpl.
    by apply map_Forall_insert_2.
Qed.

(** X26: The initial state is looked up by its order 1, not as the least
    one, and the department among the active ones: without a state of
    order 1 the creation is refused, whatever other states exist, and
    without an active department the insertion fails. *)
Theorem expediente_create_refused s now pk vd :
  (Forall (λ st, ws_order st ≠ 1%N) (workflow_estados s) →
   ExpedienteSerializer.create s now pk vd
   = Raise (ValidationError "No se encontró el estado inicial del workflow"))
  ∧ ((∃ st, st ∈ workflow_estados s ∧ ws_order st = 1%N) →
     Forall (λ d, dept_is_active d = false) (departamentos s) →
     ExpedienteSerializer.create s now pk vd = Raise IntegrityError).
Proof.
  unfold ExpedienteSerializer.create. split.
  - intros Hall. rewrite filter_none; [done|].
    eapply Forall_impl; [done|]. by intros st Hne.
  - intros (st & Hst & Hone) Hall.
    destruct (head (order_by ws_order _)) as [st'|] eqn:Hhead.
    + rewrite filter_none; [done|].
      eapply Forall_impl; [done|]. intros d Hd. by rewrite Hd.
    + apply order_by_head_None in Hhead.
      assert (st ∈ filter (λ st, ws_order st = 1%N) (workflow_estados s))
        as Hin by (by apply list_elem_of_filter).
      rewrite Hhead in Hin. by apply not_elem_of_nil in Hin.
Qed.

(** X25 at work. *)
Lemma expediente_create_initial_witness :
  ∃ e s',
    ExpedienteSerializer.create (installation expediente_nuevo [] []) 7 2
      {| ed_numero_expediente := "EXP-002"; ed_estado_actual := None;
         ed_fecha_completado := None; ed_creado_por := 1 |}
    = Ok (e, s')
    ∧ estado_workflow e = st_inicio
    ∧ departamento_actual e = dept_juridico
    ∧ ws_order (estado_workflow e) = 1%N
    ∧ estado_actual e = iniciado
    ∧ fecha_inicio e = Some 7%Z.
Proof.
  destruct (ExpedienteSerializer.create _ _ _ _) as [[e s']|] eqn:Hc;
    [|by vm_compute in Hc].
  exists e, s'. split; [done|].
  destruct (expediente_create_initial _ _ _ _ _ _ Hc)
    as (Hone & _ & _ & _ & _ & Hini & Hest & _).
  vm_compute in Hc. injection Hc as <- <-. by split_and!.
Defined.

(** X26 at work: Without the state Inicio no state has order 1. *)
Lemma expediente_create_refused_witness :
  let s :=
    {| workflow_estados := [st_revision; st_completado];
       departamentos := [dept_juridico]; usuarios := [];
       expedientes := ∅; workflow_transiciones := []; tareas := ∅;
       tareas_depende_de := []; task_dependencies := [];
       notificaciones := [] |} in
  ExpedienteSerializer.create s 7 2
    {| ed_numero_expediente := "EXP-002"; ed_estado_actual := None;
       ed_fecha_completado := None; ed_creado_por := 1 |}
  = Raise (ValidationError "No se encontró el estado inicial del workflow").
Proof.
  intros s.
  refine (proj1 (expediente_create_refused s 7 2 _) _).
  repeat constructor; by vm_compute.
Defined.

(** ** Automatic tasks of a department *)

Section auto_tasks.
Variable timedelta_of_hours : N → Z.

(** X21: For a department with one of the three codes the automatic task is
    pending and unassigned, so the expediente has a pending task and the
    automatic advance does nothing until a task changes; for any other
    department nothing is created. *)
Theorem auto_created_task_blocks_advance s now pk e d s' :
  ExpedienteViewSet._auto_create_tasks_for_department timedelta_of_hours
    s now pk e d = Ok s' →
  (dept_code d ∈ ["JURIDICO"; "TECNICO"; "FINANCIERO"] →
   (∃ t, tareas s' = <[pk := t]> (tareas s)
         ∧ tareas s !! pk = None
         ∧ estado t = pendiente
         ∧ usuario_asignado t = None
         ∧ t_expediente t = exp_id e
         ∧ t_departamento t = d)
   ∧ ∀ now', TaskViewSet._check_expediente_completion s' now' e = s')
  ∧ ((dept_code d ∉ ["JURIDICO"; "TECNICO"; "FINANCIERO"]) → s' = s).
Proof.
  unfold ExpedienteViewSet._auto_create_tasks_for_department. intros E.
  case_bool_decide as Hcode.
  - case_bool_decide as Hpk; [done|]. injection E as <-.
    split; [|done]. intros _. split.
    + eexists. split_and!; try done.
      destruct (tareas s !! pk) eqn:El; [|done]. destruct Hpk. by eexists.
    + intros now'. unfold TaskViewSet._check_expediente_completion.
      rewrite bool_decide_eq_false_2; [done|].
      apply (map_size_ne_0_lookup_2 _ pk). eexists.
      apply map_lookup_filter_Some. split.
      * unfold save_task. simpl. apply lookup_insert_eq.
      * simpl. split; [done|set_solver].
  - injection E as <-. split; [done|]. by intros _.
Qed.
End auto_tasks.

(** X21 at work. *)
Lemma auto_created_task_blocks_advance_witness :
  ∃ s',
    ExpedienteViewSet._auto_create_tasks_for_department (λ h, Z.of_N h)
      (installation expediente_nuevo [] []) 7 21 expediente_nuevo
      dept_tecnico = Ok s'
    ∧ ∀ now', TaskViewSet._check_expediente_completion s' now'
                expediente_nuevo = s'.
Proof.
  destruct (ExpedienteViewSet._auto_create_tasks_for_department _ _ _ _ _ _)
    as [s'|] eqn:Hc; [|by vm_compute in Hc].
  exists s'. split; [done|].
  destruct (auto_created_task_blocks_advance _ _ _ _ _ _ _ Hc) as [H _].
  apply H. set_solver.
Defined.

(** ** The [dependencies] action *)

Lemma all_equal_replicate {A} (k : A) (l : list A) :
  (∀ x, x ∈ l → x = k) → l = replicate (length l) k.
Proof.
  induction l as [|x l IH]; intros Hall; [done|]. simpl.
  rewrite (Hall x) by (by left). f_equal. apply IH. intros y Hy.
  apply Hall. by right.
Qed.

Lemma omap_replicate {A B} (f : A → option B) (n : nat) (a : A) (b : B) :
  f a = Some b → omap f (replicate n a) = replicate n b.
Proof. intros Hf. induction n as [|n IH]; csimpl; [done|]. by rewrite Hf, IH. Qed.

Section dependencies_action.
Variable ordering : gmap uuid Task → list uuid → list uuid.
Hypothesis ordering_perm : ∀ m l, ordering m l ≡ₚ l.

Lemma ordering_all_equal m (l : list uuid) k :
  (∀ x, x ∈ l → x = k) → ordering m l = replicate (length l) k.
Proof.
  intros Hall.
  rewrite <- (Permutation_length (ordering_perm m l)).
  apply all_equal_replicate. intros x Hx. apply Hall.
  by rewrite <- (ordering_perm m l).
Qed.

(** X9: The [dependencies] action lists no task but the task of the
    request: both of its queries go from the task to its rows of
    [TaskDependency] and back to the same end of the row.  [dependencies]
    is the task itself once for each row it has as [task], [dependents]
    the task itself once for each row it has as [depends_on]; the task at
    the other end of a row is never listed. *)
Theorem dependencies_lists_only_the_task s task :
  tareas s !! t_id task = Some task →
  TaskViewSet.dependencies ordering s task
  = (replicate (length (filter (λ r, td_task r = t_id task)
                               (task_dependencies s))) task,
     replicate (length (filter (λ r, td_depends_on r = t_id task)
                               (task_dependencies s))) task).
Proof.
  intros Ht. unfold TaskViewSet.dependencies. f_equal.
  - rewrite (ordering_all_equal _ _ (t_id task)).
    + rewrite length_fmap. by apply omap_replicate.
    + by intros x (r & -> & [Hr _]%list_elem_of_filter)%list_elem_of_fmap.
  - rewrite (ordering_all_equal _ _ (t_id task)).
    + rewrite length_fmap. by apply omap_replicate.
    + by intros x (r & -> & [Hr _]%list_elem_of_filter)%list_elem_of_fmap.
Qed.
End dependencies_action.

(** X9 at work: After task 11 was made to depend on task 12, the action on
    task 11
    lists task 11 as its dependency, and on task 12 task 12 as its
    dependent. *)
Lemma dependencies_lists_only_the_task_witness :
  let s :=
    run ascii_lower row_order dos_tareas
      [PostAddDependency superuser 11 (Some 12%N) None] in
  TaskViewSet.dependencies row_order s (tarea 11 pendiente)
  = ([tarea 11 pendiente], [])
  ∧ TaskViewSet.dependencies row_order s (tarea 12 pendiente)
    = ([], [tarea 12 pendiente]).
Proof.
  intros s. split.
  - refine (dependencies_lists_only_the_task row_order row_order_perm s
              (tarea 11 pendiente) _). by vm_compute.
  - refine (dependencies_lists_only_the_task row_order row_order_perm s
              (tarea 12 pendiente) _). by vm_compute.
Defined.

(** ** Task statistics of an expediente *)

Lemma filter_sizes_disjoint {A} (P Q : uuid * A → Prop)
    `{∀ x, Decision (P x)} `{∀ x, Decision (Q x)} (m : gmap uuid A) :
  (∀ x, P x → Q x → False) →
  (size (filter P m) + size (filter Q m) ≤ size m)%nat.
Proof.
  intros Hdisj.
  assert (filter P m ##ₘ filter Q m) as Hd.
  { apply map_disjoint_spec. intros k x y [Hx HP]%map_lookup_filter_Some
      [Hy HQ]%map_lookup_filter_Some. simplify_eq. by eapply Hdisj. }
  rewrite <- (map_size_disj_union _ _ Hd). apply map_subseteq_size.
  apply map_union_least; apply map_filter_subseteq.
Qed.

(** X27: The counters of an expediente are consistent: a task counts as
    pending or as completed but not both, and a completed task is never
    counted as overdue, whatever its due date. *)
Theorem task_counts_bounded s now e :
  (ExpedienteSerializer.get_pending_tasks s e
   + ExpedienteSerializer.get_completed_tasks s e
   ≤ ExpedienteSerializer.get_total_tasks s e)%nat
  ∧ (ExpedienteSerializer.get_overdue_tasks s now e
     + ExpedienteSerializer.get_completed_tasks s e
     ≤ ExpedienteSerializer.get_total_tasks s e)%nat.
Proof.
  unfold ExpedienteSerializer.get_pending_tasks,
    ExpedienteSerializer.get_completed_tasks,
    ExpedienteSerializer.get_overdue_tasks,
    ExpedienteSerializer.get_total_tasks.
  split; apply filter_sizes_disjoint.
  - intros [k t]. simpl. congruence.
  - intros [k t]. simpl. unfold Task.is_overdue.
    destruct (fecha_vencimiento t); [|done].
    intros [_ Hne%bool_decide_eq_true]%andb_prop He. done.
Qed.

(** ** What the cycle check reports beyond cycles *)

Section reconvergence.
Variable ordering : gmap uuid Task → list uuid → list uuid.
Hypothesis ordering_perm : ∀ m l, ordering m l ≡ₚ l.

Lemma check_dependencies_reconverge s task dep x y m :
  Task.depende_de_all ordering s dep = [x; y] →
  depende_de_ids s x = [m] → depende_de_ids s y = [m] →
  depende_de_ids s m = [] →
  NoDup [dep; x; y; m] → task ∉ [dep; x; y; m] →
  Task.would_create_circular_dependency ordering s task dep = Some true.
Proof.
  intros Hord Hx Hy Hm Hnd Hout.
  apply NoDup_cons in Hnd as [Hd Hnd]. apply NoDup_cons in Hnd as [Hx' Hnd].
  apply NoDup_cons in Hnd as [Hy' _].
  eapply (would_create_circular_dependency_run ordering ordering_perm
            _ _ _ 3 true).
  rewrite check_dependencies_unfold, decide_False by set_solver.
  rewrite Hord, for_each_dep_cons, decide_False by set_solver.
  rewrite check_dependencies_unfold, decide_False by set_solver.
  rewrite (depende_de_all_singleton ordering ordering_perm _ _ _ Hx).
  rewrite for_each_dep_cons, decide_False by set_solver.
  rewrite (check_dependencies_leaf _ _ 0);
    [|by apply depende_de_all_nil|set_solver].
  cbn [for_each_dep]. rewrite decide_False by set_solver.
  rewrite check_dependencies_unfold, decide_False by set_solver.
  rewrite (depende_de_all_singleton ordering ordering_perm _ _ _ Hy).
  rewrite for_each_dep_cons, decide_False by set_solver.
  rewrite check_dependencies_unfold, decide_True by set_solver.
  reflexivity.
Qed.

(** X3: The check is stricter than acyclicity asks: when two dependencies
    of [dependency] share a dependency, it meets the shared task twice
    and answers true, although [task] cannot be reached from [dependency]
    and the new row would close no cycle. *)
Theorem cycle_check_reports_reconvergence s task dep b c m :
  depende_de_ids s dep = [b; c] →
  depende_de_ids s b = [m] → depende_de_ids s c = [m] →
  depende_de_ids s m = [] →
  NoDup [dep; b; c; m] → (task ∉ [dep; b; c; m]) →
  Task.would_create_circular_dependency ordering s task dep = Some true
  ∧ ¬ tc (depends_on s) dep task.
Proof.
  intros Hdep Hb Hc Hm Hnd Hout. split.
  - assert (Task.depende_de_all ordering s dep = [b; c]
            ∨ Task.depende_de_all ordering s dep = [c; b]) as [Hord|Hord].
    { unfold Task.depende_de_all. rewrite Hdep.
      apply Permutation_length_2_inv. symmetry. apply ordering_perm. }
    + by apply (check_dependencies_reconverge s task dep b c m).
    + apply (check_dependencies_reconverge s task dep c b m); try done.
      * assert ([dep; c; b; m] ≡ₚ [dep; b; c; m]) as ->
          by apply perm_skip, perm_swap.
        done.
      * intros Hin. apply Hout. set_solver.
  - assert (∀ x z, tc (depends_on s) x z → x ∈ [dep; b; c; m] →
                   z ∈ [dep; b; c; m]) as Hclosed.
    { intros x z Htc. induction Htc as [x z Hxz|x y z Hxy _ IH]; intros Hin.
      - apply depende_de_ids_elem in Hxz.
        repeat (apply elem_of_cons in Hin as [->|Hin]);
          [rewrite Hdep in Hxz|rewrite Hb in Hxz|rewrite Hc in Hxz
          |rewrite Hm in Hxz|by apply not_elem_of_nil in Hin]; set_solver.
      - apply IH. apply depende_de_ids_elem in Hxy.
        repeat (apply elem_of_cons in Hin as [->|Hin]);
          [rewrite Hdep in Hxy|rewrite Hb in Hxy|rewrite Hc in Hxy
          |rewrite Hm in Hxy|by apply not_elem_of_nil in Hin]; set_solver. }
    intros Htc. apply Hout. apply (Hclosed dep); [done|set_solver].
Qed.
End reconvergence.

(** X3 at work: Task 14 depends on 12 and 13, which both depend on 11; task
    15 is
    outside the diamond. *)
Lemma cycle_check_reports_reconvergence_witness :
  Task.would_create_circular_dependency row_order diamante_y_otra 15 14
    = Some true
  ∧ ¬ tc (depends_on diamante_y_otra) 14%N 15%N.
Proof.
  refine (cycle_check_reports_reconvergence row_order row_order_perm
            diamante_y_otra 15 14 12 13 11 _ _ _ _ _ _);
    try (by vm_compute).
  - repeat constructor; set_solver.
  - set_solver.
Defined.

(** ** Completion and the tasks that wait for it *)

Section unblocking.
Variable ordering : gmap uuid Task → list uuid → list uuid.

(** X12: Completing a task unblocks the tasks that waited for it alone: a
    task whose other dependencies are neither pending nor in progress
    can be started after [complete]. *)
Theorem complete_unblocks_dependent s now user pk res t' s' dt :
  TaskViewSet.complete ordering s now user pk res = Ok (t', s') →
  (∀ d x, d ∈ depende_de_ids s (t_id dt) → d ≠ t_id t' →
          tareas s !! d = Some x →
          estado x ≠ pendiente ∧ estado x ≠ en_progreso) →
  Task.can_be_started s' dt = true.
Proof.
  intros Hc Hothers.
  destruct (complete_tareas _ _ _ _ _ _ _ _ Hc) as (Htar & He & _).
  destruct (complete_frame _ _ _ _ _ _ _ _ Hc) as [Hrows _].
  apply can_be_started_iff. intros (d & x & Hd & Hx & Hest).
  assert (depende_de_ids s' (t_id dt) = depende_de_ids s (t_id dt)) as Hids
    by (unfold depende_de_ids; by rewrite Hrows).
  rewrite Hids in Hd. rewrite Htar in Hx.
  destruct (decide (d = t_id t')) as [->|Hne].
  - rewrite lookup_insert_eq in Hx. injection Hx as <-.
    rewrite He in Hest. by destruct Hest.
  - rewrite lookup_insert_ne in Hx by done.
    destruct (Hothers d x Hd Hne Hx). by destruct Hest.
Qed.
End unblocking.

(** X12 at work. *)
Lemma complete_unblocks_dependent_witness :
  Task.can_be_started tarea_y_dependiente (tarea 12 pendiente) = false
  ∧ ∃ t' s',
      TaskViewSet.complete row_order tarea_y_dependiente 9 superuser 11 None
      = Ok (t', s')
      ∧ Task.can_be_started s' (tarea 12 pendiente) = true.
Proof.
  split; [by vm_compute|].
  destruct (TaskViewSet.complete row_order tarea_y_dependiente 9 superuser 11
              None) as [[t' s']|] eqn:Hc; [|by vm_compute in Hc].
  exists t', s'. split; [done|].
  apply (complete_unblocks_dependent row_order _ _ _ _ _ _ _ _ Hc).
  vm_compute in Hc. injection Hc as <- <-.
  intros d x Hd Hne. simpl in Hne.
  replace (depende_de_ids tarea_y_dependiente (t_id (tarea 12 pendiente)))
    with [11%N] in Hd by (by vm_compute).
  by apply list_elem_of_singleton in Hd.
Defined.

(** ** The automatic advance after [complete], at work *)

(** X13 at work: Expediente 1 is new and its only task, 11, is in progress:
    completing it records the automatic transition to En Revisión Legal
    in the name of the creator and leaves the status iniciado. *)
Lemma complete_advances_witness :
  ∃ task' s' tr e',
    TaskViewSet.complete row_order una_tarea 9 superuser 11 None
    = Ok (task', s')
    ∧ workflow_transiciones s' = [tr]
    ∧ hacia_estado tr = st_revision
    ∧ wt_usuario tr = 1%N
    ∧ expedientes s' !! 1%N = Some e'
    ∧ estado_workflow e' = st_revision
    ∧ estado_actual e' = iniciado
    ∧ fecha_completado e' = None.
Proof.
  destruct (complete_advances row_order una_tarea 9 superuser
              (tarea 11 en_progreso) None expediente_nuevo)
    as (task' & s' & next & tr & Hc & Htr & Hin & Hlt & Hleast & _ & Hto & _
        & _ & Hu & _ & e' & He' & Hst & _ & Hea & Hfc);
    try (by vm_compute).
  - intros k t Hk Hne. exfalso. revert Hk. unfold una_tarea, installation.
    simpl. rewrite lookup_insert_Some, lookup_empty.
    intros [[<- _]|[_ ?]]; done.
  - exists st_revision. split; [|by vm_compute].
    unfold una_tarea, installation. simpl. set_solver.
  - exists task', s', tr, e'. split_and!; try done.
    + rewrite Hto. vm_compute in Hc. injection Hc as <- <-.
      vm_compute in Htr. by injection Htr as <-.
    + rewrite Hst. vm_compute in Hc. injection Hc as <- <-.
      vm_compute in Htr. injection Htr as <-. by rewrite <- Hto.
Defined.

(** ** The audit trail *)

Section audit_trail.
Variable lower : string → string.
Variable ordering : gmap uuid Task → list uuid → list uuid.

(** What a request does to the trail and to the expedientes: nothing, or
    one new record for one stored expediente, which starts where that
    expediente was and ends where it is afterwards. *)
Lemma handle_trail s r :
  (workflow_transiciones (handle lower ordering s r) = workflow_transiciones s
   ∧ expedientes (handle lower ordering s r) = expedientes s)
  ∨ ∃ pk e tr e',
      expedientes s !! pk = Some e
      ∧ workflow_transiciones (handle lower ordering s r)
        = (workflow_transiciones s ++ [tr])%list
      ∧ expedientes (handle lower ordering s r)
        = <[exp_id e := e']> (expedientes s)
      ∧ exp_id e' = exp_id e
      ∧ wt_expediente tr = exp_id e
      ∧ desde_estado tr = Some (estado_workflow e)
      ∧ desde_departamento tr = Some (departamento_actual e)
      ∧ hacia_estado tr = estado_workflow e'
      ∧ hacia_departamento tr = departamento_actual e'.
Proof.
  destruct r as [now pk data|now user pk res|user pk d ty|now pk data];
    simpl; unfold commit.
  - destruct (WorkflowTransitionSerializer.save _ _ _ _) as [[tr s']|] eqn:E;
      [|by left].
    unfold WorkflowTransitionSerializer.save in E.
    destruct (WorkflowTransitionSerializer.validate lower _) as [vd|] eqn:Ev;
      [|done].
    assert (vd = with_expediente data (expedientes s !! pk)) as ->.
    { unfold WorkflowTransitionSerializer.validate in Ev.
      repeat case_match; by simplify_eq. }
    simpl in E.
    unfold WorkflowTransitionSerializer.create,
      WorkflowTransitionSerializer.insert_transition in E. simpl in E.
    destruct (expedientes s !! pk) as [e|] eqn:He; [|done].
    destruct (data_hacia_estado data) as [st|]; [|done].
    destruct (data_usuario data) as [u|]; [|done].
    destruct (data_hacia_departamento data) as [dp|]; [|done].
    simpl in E. injection E as <- <-. right.
    destruct (update_status_frame lower now
                (set_departamento_actual (set_estado_workflow e st) dp) st)
      as (Hid & Hst & Hdp & _). simpl in Hid, Hst, Hdp.
    eexists pk, e, _, _. split; [done|]. unfold save_expediente. simpl.
    rewrite Hid. split_and!; done.
  - destruct (TaskViewSet.complete _ _ _ _ _ _) as [[t' s']|] eqn:E;
      [|by left].
    unfold TaskViewSet.complete, TaskViewSet.get_object in E.
    destruct (tareas s !! pk) as [task|]; [|done]. simpl in E.
    destruct (negb _); [done|]. simpl in E.
    match type of E with
    | context [TaskViewSet._check_dependent_tasks ordering ?s1 ?t1] =>
        destruct (check_dependent_tasks_frame ordering s1 t1)
          as (_ & _ & Hexp & Htr & _);
        set (s2 := TaskViewSet._check_dependent_tasks ordering s1 t1) in *
    end.
    cbv zeta in Hexp, Htr. simpl in Hexp, Htr.
    destruct (expedientes s2 !! _) as [e|] eqn:He; [|done].
    injection E as _ <-. rewrite Hexp in He.
    unfold TaskViewSet._check_expediente_completion.
    destruct (bool_decide (size _ = 0)); [|by left].
    destruct (negb _); [|by left].
    destruct (head _) as [next|]; [|by left].
    right. eexists _, e, _, _. split; [done|].
    unfold save_expediente. simpl. rewrite Htr, Hexp. split_and!; done.
  - destruct (TaskViewSet.add_dependency _ _ _ _ _ _) as [[msg s']|] eqn:E;
      [|by left].
    apply add_dependency_ok_inv in E as (task & dep & d' & _ & _ & _ & ->).
    destruct (get_or_create_dependency_frame s (t_id task) (t_id dep)
                (default "finish_to_start" ty)) as (_ & _ & He & Htr & _).
    by left.
  - destruct (TaskViewSet.partial_update _ _ _ _ _) as [[t' s']|] eqn:E;
      [|by left].
    unfold TaskViewSet.partial_update, TaskViewSet.get_object in E.
    destruct (tareas s !! pk) as [instance|]; [|done]. simpl in E.
    unfold TaskSerializer.save in E.
    destruct (TaskSerializer.is_valid _ _ _ _ _) as [vd|]; [|done].
    change (Ok (TaskSerializer.update s now instance vd) = Ok (t', s')) in E.
    pose proof (task_update_frame s now instance vd) as (He & Htr & _).
    destruct (TaskSerializer.update s now instance vd) as [t2 s2].
    simplify_eq. by left.
Qed.

Lemma handle_append_only s r :
  workflow_transiciones s `prefix_of`
    workflow_transiciones (handle lower ordering s r)
  ∧ notificaciones s `prefix_of` notificaciones (handle lower ordering s r).
Proof.
  split.
  - destruct (handle_trail s r) as [[-> _]|(pk & e & tr & e' & _ & -> & _)];
      [done|]. by apply prefix_app_r.
  - destruct r as [now pk data|now user pk res|user pk d ty|now pk data];
      simpl; unfold commit.
    + destruct (WorkflowTransitionSerializer.save _ _ _ _)
        as [[tr s']|] eqn:E; [|done].
      apply transition_save_frame in E as (_ & _ & _ & ->). done.
    + destruct (TaskViewSet.complete _ _ _ _ _ _) as [[t' s']|] eqn:E;
        [|done].
      unfold TaskViewSet.complete, TaskViewSet.get_object in E.
      destruct (tareas s !! pk) as [task|]; [|done]. simpl in E.
      destruct (negb _); [done|]. simpl in E.
      unfold TaskViewSet._check_dependent_tasks in E.
      match type of E with
      | context [foldl TaskViewSet.notify_if_startable ?s1 ?l] =>
          destruct (foldl_notify_if_startable_added l s1) as (added & Ea & _);
          set (s2 := foldl TaskViewSet.notify_if_startable s1 l) in *
      end.
      destruct (expedientes s2 !! _) as [e|]; [|done].
      injection E as _ <-.
      destruct (check_expediente_completion_frame s2 now e) as (_ & _ & ->).
      rewrite Ea. simpl. by apply prefix_app_r.
    + destruct (TaskViewSet.add_dependency _ _ _ _ _ _) as [[msg s']|] eqn:E;
        [|done].
      apply add_dependency_ok_inv in E as (task & dep & d' & _ & _ & _ & ->).
      destruct (get_or_create_dependency_frame s (t_id task) (t_id dep)
                  (default "finish_to_start" ty)) as (_ & _ & _ & _ & ->).
      done.
    + destruct (TaskViewSet.partial_update _ _ _ _ _) as [[t' s']|] eqn:E;
        [|done].
      unfold TaskViewSet.partial_update, TaskViewSet.get_object in E.
      destruct (tareas s !! pk) as [instance|]; [|done]. simpl in E.
      unfold TaskSerializer.save in E.
      destruct (TaskSerializer.is_valid _ _ _ _ _) as [vd|]; [|done].
      change (Ok (TaskSerializer.update s now instance vd) = Ok (t', s')) in E.
      pose proof (task_update_frame s now instance vd) as (_ & _ & Hn & _).
      destruct (TaskSerializer.update s now instance vd) as [t2 s2].
      simplify_eq. simpl in Hn. by rewrite Hn.
Qed.

(** X18: The table of transitions and the table of notifications are only
    appended to: what they held before a sequence of requests is a prefix
    of what they hold after it, so no request deletes or rewrites a
    record of the audit trail. *)
Theorem audit_trail_append_only s requests :
  workflow_transiciones s `prefix_of`
    workflow_transiciones (run lower ordering s requests)
  ∧ notificaciones s `prefix_of`
      notificaciones (run lower ordering s requests).
Proof.
  revert s. induction requests as [|r requests IH]; intros s; [done|].
  simpl. destruct (handle_append_only s r) as [H1 H2].
  destruct (IH (handle lower ordering s r)) as [H3 H4].
  split; by etrans.
Qed.
End audit_trail.

(** ** The dependencies a task update stores *)

Lemma depende_de_set_spec s pk value a d :
  depends_on (depende_de_set s pk value) a d
  ↔ if decide (a = pk) then d ∈ value else depends_on s a d.
Proof.
  split.
  - intros H. apply depende_de_set_edges in H as [H1 H2].
    destruct (decide (a = pk)); auto.
  - unfold depends_on, depende_de_set. simpl.
    rewrite elem_of_app, list_elem_of_filter, list_elem_of_fmap. simpl.
    destruct (decide (a = pk)) as [->|Hne].
    + intros Hd. destruct (decide ((pk, d) ∈ tareas_depende_de s)) as [Hin|Hout].
      * left. split; [by right|done].
      * right. exists d. split; [done|]. apply list_elem_of_filter.
        split; [|by apply elem_of_remove_dups].
        by rewrite depende_de_ids_elem.
    + intros Hin. left. split; [by left|done].
Qed.

Section update_dependencies.
Variable ordering : gmap uuid Task → list uuid → list uuid.

(** X5: What an accepted task update stores is what it was given: when the
    request carries [depende_de], afterwards the task depends on exactly
    the tasks of the request, rows to other tasks are deleted and the
    dependencies of every other task are untouched; when the request
    leaves [depende_de] out, no dependency changes. *)
Theorem update_stores_given_dependencies s now pk data t' s' :
  TaskViewSet.partial_update ordering s now pk data = Ok (t', s') →
  match vd_depende_de data with
  | Some value =>
      (∀ d, depends_on s' (t_id t') d ↔ d ∈ t_id <$> value)
      ∧ (∀ a d, a ≠ t_id t' → depends_on s' a d ↔ depends_on s a d)
  | None => tareas_depende_de s' = tareas_depende_de s
  end.
Proof.
  unfold TaskViewSet.partial_update, TaskViewSet.get_object. intros E.
  destruct (tareas s !! pk) as [instance|]; [|done]. simpl in E.
  unfold TaskSerializer.save in E.
  destruct (TaskSerializer.is_valid _ _ _ _ _) as [vd|] eqn:Ev; [|done].
  pose proof (is_valid_ok _ _ _ _ _ _ Ev) as ->.
  simpl in E. unfold TaskSerializer.update in E. injection E as <- <-.
  destruct (vd_depende_de data) as [value|]; [|done]. simpl. split.
  - intros d. rewrite depende_de_set_spec. by rewrite decide_True.
  - intros a d Hne. rewrite depende_de_set_spec. by rewrite decide_False.
Qed.
End update_dependencies.

(** X5 at work: Task 14 is made to depend on tasks 12 and 13. *)
Lemma update_stores_given_dependencies_witness :
  ∃ t' s',
    TaskViewSet.partial_update row_order cuatro_tareas 3 14
      (only_depende_de [tarea 12 pendiente; tarea 13 pendiente])
    = Ok (t', s')
    ∧ (∀ d, depends_on s' 14%N d ↔ d ∈ [12%N; 13%N])
    ∧ (∀ a d, a ≠ 14%N → depends_on s' a d ↔ depends_on cuatro_tareas a d).
Proof.
  destruct (TaskViewSet.partial_update row_order cuatro_tareas 3 14 _)
    as [[t' s']|] eqn:Hc; [|by vm_compute in Hc].
  exists t', s'. split; [done|].
  pose proof (update_stores_given_dependencies row_order _ _ _ _ _ _ Hc) as H.
  vm_compute in Hc. injection Hc as <- <-. exact H.
Defined.

(** ** The automatic advance and the available transitions *)

(** Rows of distinct keys are told apart by their key. *)
Lemma NoDup_fmap_elem_of_inj {A B} (f : A → B) (l : list A) (x y : A) :
  NoDup (f <$> l) → x ∈ l → y ∈ l → f x = f y → x = y.
Proof.
  induction l as [|z l IH]; csimpl; [by intros _ ?%elem_of_nil|].
  intros [Hz Hl]%NoDup_cons [->|Hx]%elem_of_cons [->|Hy]%elem_of_cons Heq;
    try done.
  - destruct Hz. rewrite Heq. by apply list_elem_of_fmap_2.
  - destruct Hz. rewrite <- Heq. by apply list_elem_of_fmap_2.
  - by apply IH.
Qed.

(** X14: the states of the table have distinct orders, so a query that
    sorts by order has one answer.  With no pending or in-progress task
    left, the automatic advance moves the expediente to the first of the
    states [_get_available_transitions] offers, which is the state of
    least order above the current one: every other state above the
    current one has a greater order.  The advance does nothing exactly
    when none is offered: in a final state, or when no state has a
    greater order. *)
Theorem auto_advance_takes_first_available s now e :
  NoDup (ws_order <$> workflow_estados s) →
  size (TaskViewSet.pending_tasks s e) = 0%nat →
  match ExpedienteViewSet._get_available_transitions s e with
  | [] => TaskViewSet._check_expediente_completion s now e = s
  | next :: _ =>
      next ∈ workflow_estados s
      ∧ (ws_order (estado_workflow e) < ws_order next)%N
      ∧ (∀ st, st ∈ workflow_estados s →
               (ws_order (estado_workflow e) < ws_order st)%N →
               st ≠ next → (ws_order next < ws_order st)%N)
      ∧ ∃ tr,
          TaskViewSet._check_expediente_completion s now e
          = save_expediente (create_transition s tr)
              (set_estado_workflow e next)
          ∧ wt_expediente tr = exp_id e
          ∧ desde_estado tr = Some (estado_workflow e)
          ∧ hacia_estado tr = next
          ∧ hacia_departamento tr = departamento_actual e
          ∧ wt_usuario tr = creado_por e
  end.
Proof.
  intros Hdistinct Hnone.
  unfold ExpedienteViewSet._get_available_transitions,
    TaskViewSet._check_expediente_completion.
  rewrite bool_decide_eq_true_2 by done.
  destruct (ws_is_final (estado_workflow e)); simpl; [done|].
  destruct (order_by ws_order _) as [|next rest] eqn:Hq; simpl; [done|].
  assert (head (order_by ws_order
                  (filter (λ st, (ws_order (estado_workflow e)
                                    < ws_order st)%N)
                          (workflow_estados s))) = Some next) as Hhead
    by (by rewrite Hq).
  apply order_by_head_least in Hhead as [Hin Hleast].
  apply list_elem_of_filter in Hin as [Hgt Hin].
  split_and!; try done.
  - intros st Hst Hst_gt Hne.
    assert (ws_order next ≤ ws_order st)%N as Hle
      by (apply Hleast; by apply list_elem_of_filter).
    assert (ws_order next ≠ ws_order st); [|lia].
    intros Heq. apply Hne. symmetry.
    by apply (NoDup_fmap_elem_of_inj ws_order (workflow_estados s)).
  - by eexists.
Qed.

(** X14 at work: the new expediente 1 without tasks; En Revisión Legal is
    the state of least order above Inicio. *)
Lemma auto_advance_takes_first_available_witness :
  let s := installation expediente_nuevo [] [] in
  ExpedienteViewSet._get_available_transitions s expediente_nuevo
  = [st_revision; st_completado; st_rechazado]
  ∧ ∃ tr,
      TaskViewSet._check_expediente_completion s 9 expediente_nuevo
      = save_expediente (create_transition s tr)
          (set_estado_workflow expediente_nuevo st_revision)
      ∧ wt_expediente tr = 1%N
      ∧ desde_estado tr = Some st_inicio
      ∧ hacia_estado tr = st_revision
      ∧ hacia_departamento tr = dept_juridico
      ∧ wt_usuario tr = 1%N.
Proof.
  intros s. split; [by vm_compute|].
  assert (NoDup (ws_order <$> workflow_estados s)) as Hdistinct.
  { apply (bool_decide_unpack _). by vm_compute. }
  assert (size (TaskViewSet.pending_tasks s expediente_nuevo) = 0%nat)
    as Hnone by (by vm_compute).
  pose proof (auto_advance_takes_first_available s 9 expediente_nuevo
                Hdistinct Hnone) as H.
  replace (ExpedienteViewSet._get_available_transitions s expediente_nuevo)
    with [st_revision; st_completado; st_rechazado] in H by (by vm_compute).
  by destruct H as (_ & _ & _ & H).
Defined.

(** ** The completion time of a task *)

Section task_completion_time.
Variable ordering : gmap uuid Task → list uuid → list uuid.

(** X15: the update of a task never clears its completion time, and it
    stamps the time when it moves the task to completada: a task that is
    written with the status completada has a completion time, the time of
    the call when the task was not completada before and the time it had
    otherwise, provided a task that was completada had one.  [complete]
    always stamps the time of the call.  Both write the one task and leave
    the other tasks as they are. *)
Theorem completed_task_keeps_time s now pk data t' s' :
  TaskViewSet.partial_update ordering s now pk data = Ok (t', s') →
  (∃ t,
     tareas s !! pk = Some t
     ∧ tareas s' = <[t_id t := t']> (tareas s)
     ∧ (is_Some (fecha_completacion t) → is_Some (fecha_completacion t'))
     ∧ (estado t' = completada → estado t ≠ completada →
        fecha_completacion t' = Some now)
     ∧ (estado t = completada →
        fecha_completacion t' = fecha_completacion t)
     ∧ ((estado t = completada → is_Some (fecha_completacion t)) →
        estado t' = completada → is_Some (fecha_completacion t')))
  ∧ (∀ user res t2 s2,
       TaskViewSet.complete ordering s now user pk res = Ok (t2, s2) →
       tareas s2 = <[t_id t2 := t2]> (tareas s)
       ∧ estado t2 = completada
       ∧ fecha_completacion t2 = Some now).
Proof.
  intros E. split; [|intros user res t2 s2; apply complete_tareas].
  unfold TaskViewSet.partial_update, TaskViewSet.get_object in E.
  destruct (tareas s !! pk) as [t|] eqn:El; [|done]. simpl in E.
  unfold TaskSerializer.save in E.
  destruct (TaskSerializer.is_valid _ _ _ _ _) as [vd|]; [|done].
  simpl in E. unfold TaskSerializer.update in E. injection E as <- <-.
  exists t. split; [done|]. split.
  { by destruct (vd_depende_de vd). }
  simpl. destruct (vd_estado vd) as [e|]; simpl;
    repeat case_bool_decide; simplify_eq; simpl; split_and!; intros;
    try done; try (by eexists); try congruence; auto.
Qed.
End task_completion_time.

(** X15 at work: task 11, in progress, is set to completada by an update
    at time 5. *)
Lemma completed_task_keeps_time_witness :
  ∃ t' s',
    TaskViewSet.partial_update row_order tarea_y_dependiente 5 11
      (only_estado completada None) = Ok (t', s')
    ∧ tareas s' !! 11%N = Some t'
    ∧ estado t' = completada
    ∧ fecha_completacion t' = Some 5%Z.
Proof.
  destruct (TaskViewSet.partial_update row_order tarea_y_dependiente 5 11
              (only_estado completada None)) as [[t' s']|err] eqn:E;
    [|by vm_compute in E].
  exists t', s'. split; [done|].
  destruct (completed_task_keeps_time row_order _ _ _ _ _ _ E)
    as ((t & Ht & Htar & _ & Hstamp & _) & _).
  assert (t = tarea 11 en_progreso) as ->.
  { assert (Some t = Some (tarea 11 en_progreso)) as Heq
      by (rewrite <- Ht; by vm_compute).
    by injection Heq. }
  assert (estado t' = completada) as Hest.
  { vm_compute in E. by injection E as <- _. }
  split_and!; [|done|by apply Hstamp].
  rewrite Htar. apply lookup_insert_eq.
Defined.

(** ** What a transition is not checked for *)

Section transition_acceptance.
Variable lower : string → string.

(** X19: [validate] accepts a transition exactly when the new state is
    another one than the current one, the new department is another one
    than the current one unless the new state is final, and a reason is
    given when the new state is the rejection.  Neither the order of the
    two states nor the final flag of the current state is consulted: a
    transition out of a final state, or to a state of lower order, passes
    the validation. *)
Theorem transition_accepted_to_any_other_state data e st :
  data_expediente data = Some e →
  data_hacia_estado data = Some st →
  WorkflowTransitionSerializer.validate lower data = Ok data
  ↔ ws_id (estado_workflow e) ≠ ws_id st
    ∧ (ws_is_final st = true
       ∨ ∀ d, data_hacia_departamento data = Some d →
              dept_id (departamento_actual e) ≠ dept_id d)
    ∧ (lower (ws_name st) ≠ "rechazado"
       ∨ data_motivo_rechazo data ≠ EmptyString).
Proof.
  intros He Hst. unfold WorkflowTransitionSerializer.validate.
  rewrite He, Hst. unfold ws_eqb, dept_eqb. split.
  - intros Hok. case_bool_decide as Hsame; [done|].
    split; [done|]. split.
    + destruct (ws_is_final st); [by left|right]. simpl in Hok.
      intros d Hd. rewrite Hd in Hok. by case_bool_decide.
    + destruct (negb _ && _); [done|].
      case_bool_decide as Hname; [|by left]. right.
      simpl in Hok. by case_bool_decide.
  - intros (Hne & Hdept & Hreason).
    rewrite bool_decide_eq_false_2 by done.
    assert (negb (ws_is_final st)
            && match data_hacia_departamento data with
               | Some d =>
                   bool_decide (dept_id (departamento_actual e) = dept_id d)
               | None => false
               end = false) as ->.
    { destruct Hdept as [->|Hdd]; [done|].
      destruct (data_hacia_departamento data) as [d|];
        [|apply andb_false_r].
      rewrite (bool_decide_eq_false_2 _ (Hdd d eq_refl)).
      apply andb_false_r. }
    assert (bool_decide (lower (ws_name st) = "rechazado")
            && bool_decide (data_motivo_rechazo data = EmptyString)
            = false) as ->; [|done].
    destruct Hreason as [Hr|Hr]; rewrite (bool_decide_eq_false_2 _ Hr);
      [done|apply andb_false_r].
Qed.
End transition_acceptance.

(** X19 at work: expediente 1 is in the final state Completado, which
    offers no next state; the request to move it back to the state Inicio,
    of lower order, in another department, passes the validation. *)
Lemma transition_accepted_to_any_other_state_witness :
  let e := expediente_en st_completado completado (Some 5%Z) in
  let data := transition_data e st_inicio dept_tecnico EmptyString in
  ExpedienteViewSet._get_available_transitions (installation e [] []) e = []
  ∧ (ws_order st_inicio < ws_order (estado_workflow e))%N
  ∧ WorkflowTransitionSerializer.validate ascii_lower data = Ok data.
Proof.
  intros e data. split; [by vm_compute|]. split; [by vm_compute|].
  apply (transition_accepted_to_any_other_state ascii_lower data e st_inicio
           eq_refl eq_refl).
  split_and!.
  - by vm_compute.
  - right. intros d [= <-]. by vm_compute.
  - left. by vm_compute.
Defined.
